(** * pybootd: the BOOTP/DHCP/PXE request handler of [pybootd/pxed.py]

    A shallow embedding of [BootpServer.parse_options],
    [BootpServer.build_pxe_options], [BootpServer.build_dhcp_options],
    [BootpServer.get_host_data_for_mac] and [BootpServer.handle], together
    with the accessors of [pybootd/pybootdconfig.py] they call.

    Conventions.
    - A Python 2 [str] holding wire data is a [list byte]; a [str] holding
      text (MAC text, host names, dotted-quad addresses) is a [string].
    - The dictionaries of the server object are [gmap]s.
    - A Python call either returns, raises, or (for the [while] loop of
      [parse_options]) keeps running; [res] records which.  Mutations made
      before an exception is raised stay in the world, as in Python.
    - A log line is kept with its level and its fixed text; the values
      interpolated into it are left out. *)

From Stdlib Require Import NArith ZArith List Ascii String Lia.
From Stdlib Require Import Strings.Byte.
From stdpp Require Import base option list gmap strings.

Import ListNotations.
Local Open Scope string_scope.
Local Open Scope list_scope.

(** ** Bytes *)

Global Instance byte_eq_dec : EqDecision byte := Byte.byte_eq_dec.

Global Instance byte_countable : Countable byte :=
  inj_countable Byte.to_N Byte.of_N Byte.of_to_N.

(** [ord(c)] *)
Definition ord (b : byte) : N := Byte.to_N b.

(** [chr(n)] for [0 <= n < 256] *)
Definition chr (n : N) : byte :=
  match Byte.of_N n with Some b => b | None => x00 end.

(** Python slices [s[:n]] and [s[n:]] on a [str]. *)
Definition upto {A} (n : nat) (s : list A) : list A := firstn n s.
Definition from {A} (n : nat) (s : list A) : list A := skipn n s.

(** Truth value of a Python [str]: the empty string is false. *)
Definition truthy {A} (s : list A) : bool :=
  match s with [] => false | _ :: _ => true end.

Definition truthy_text (s : string) : bool :=
  match s with EmptyString => false | String _ _ => true end.

(** ** Outcomes and the world the handler runs in *)

(** The exceptions that can leave the handler.  [socket.error] carries the
    call that raised it. *)
Inductive call := inet_aton_call | inet_ntoa_call | sendto_call.

Inductive exn :=
  | struct_error | IndexError | KeyError | TypeError
  | UnboundLocalError | AttributeError | socket_error (c : call).

(** [Val a]: the call returned [a]; [Exc e]: it raised [e];
    [Stop]: a [return] statement of [handle] was executed;
    [Hang]: the loop was still running when the fuel ran out. *)
Inductive res (A : Type) :=
  | Val (a : A)
  | Exc (e : exn)
  | Stop
  | Hang.
Arguments Val {A} a.
Arguments Exc {A} e.
Arguments Stop {A}.
Arguments Hang {A}.

Inductive level := DEBUG | INFO | WARN | ERROR.

(** [(ST_IDLE, ST_PXE, ST_DHCP) = range(3)] *)
Inductive state := ST_IDLE | ST_PXE | ST_DHCP.

Global Instance state_eq_dec : EqDecision state.
Proof. solve_decision. Defined.

(** The mutable part of a [BootpServer] ([uuidpool], [ippool], [states];
    a value of [uuidpool] can be Python's [None]), the logger's output,
    and the two traces of external calls: the datagrams handed to
    [sock.sendto] that were sent, and the host names handed to
    [socket.gethostbyname]. *)
Record world := World {
  uuidpool : gmap (list byte) (option (list byte));
  ippool   : gmap string string;
  states   : gmap string state;
  log      : list (level * string);
  sent     : list (list byte * (string * N));
  resolved : list string
}.

Definition M (A : Type) : Type := world -> world * res A.

Definition ret {A} (a : A) : M A := fun w => (w, Val a).
Definition raise {A} (e : exn) : M A := fun w => (w, Exc e).
Definition stop {A} : M A := fun w => (w, Stop).

Definition bind {A B} (m : M A) (k : A -> M B) : M B :=
  fun w =>
    match m w with
    | (w', Val a) => k a w'
    | (w', Exc e) => (w', Exc e)
    | (w', Stop) => (w', Stop)
    | (w', Hang) => (w', Hang)
    end.

Declare Scope py_scope.
Delimit Scope py_scope with py.
Notation "x <- m ;; k" := (bind m (fun x => k))
  (at level 100, m at next level, k at level 200, right associativity) : py_scope.
Notation "m ;;; k" := (bind m (fun _ => k))
  (at level 100, k at level 200, right associativity) : py_scope.

(** [self.log.<lvl>(msg)]; the formatted arguments of a message are left
    out of the recorded text. *)
Definition say (l : level) (msg : string) : M unit :=
  fun w => (World (uuidpool w) (ippool w) (states w)
                  (log w ++ [(l, msg)]) (sent w) (resolved w), Val tt).

Definition set_uuidpool
    (f : gmap (list byte) (option (list byte)) -> gmap (list byte) (option (list byte)))
    : M unit :=
  fun w => (World (f (uuidpool w)) (ippool w) (states w)
                  (log w) (sent w) (resolved w), Val tt).

Definition set_ippool (f : gmap string string -> gmap string string) : M unit :=
  fun w => (World (uuidpool w) (f (ippool w)) (states w)
                  (log w) (sent w) (resolved w), Val tt).

Definition set_states (f : gmap string state -> gmap string state) : M unit :=
  fun w => (World (uuidpool w) (ippool w) (f (states w))
                  (log w) (sent w) (resolved w), Val tt).

Definition get {A} (f : world -> A) : M A := fun w => (w, Val (f w)).

(** ** Constants of [pxed.py] *)

Definition BOOTREQUEST : Z := 1.
Definition BOOTREPLY : Z := 2.
Definition BOOTP_FLAGS_NONE : Z := 0.

(** [struct.calcsize('!4bIHH4s4s4s4s16s64s128s4s')] *)
Definition DHCPFormatSize : nat := 4 + 4 + 2 + 2 + 4 * 4 + 16 + 64 + 128 + 4.

Definition DHCP_OPTIONS_table : list (N * string) :=
  [ (0, "Byte padding"); (1, "Subnet mask"); (2, "Time offset");
    (3, "Routers"); (4, "Time servers"); (5, "Name servers");
    (6, "Domain name servers"); (7, "Log servers"); (8, "Cookie servers");
    (9, "Line printer servers"); (10, "Impress servers");
    (11, "Resource location servers"); (12, "Host Name");
    (13, "Boot file size"); (14, "Dump file"); (15, "Domain name");
    (16, "Swap server"); (17, "Root path"); (18, "Extensions path");
    (19, "IP forwarding"); (20, "Source routing"); (21, "Policy filter");
    (22, "Maximum datagram reassembly size"); (23, "Default IP TTL");
    (24, "Path MTU aging timeout"); (25, "Path MTU plateau table");
    (26, "Interface MTU"); (27, "All subnets local");
    (28, "Broadcast address"); (29, "Perform mask discovery");
    (30, "Mask supplier"); (31, "Perform router discovery");
    (32, "Router solicitation address"); (33, "Static route");
    (34, "Trailer encapsulation"); (35, "ARP cache timeout");
    (36, "Ethernet encaspulation"); (37, "TCP default TTL");
    (38, "TCP keepalive interval"); (39, "TCP keepalive garbage");
    (40, "Network Information Service domain");
    (41, "Network Information servers");
    (42, "Network Time Protocol servers"); (43, "Vendor specific");
    (44, "NetBIOS over TCP/IP name server");
    (45, "NetBIOS over TCP/IP datagram server");
    (46, "NetBIOS over TCP/IP node type");
    (47, "NetBIOS over TCP/IP scope");
    (48, "X Window system font server");
    (49, "X Window system display manager");
    (50, "Requested IP address"); (51, "IP address lease time");
    (52, "Option overload"); (53, "DHCP message"); (54, "Server ID");
    (55, "Param request list"); (56, "Error message");
    (57, "Message length"); (58, "Renewal time"); (59, "Rebinding time");
    (60, "Class ID"); (61, "GUID");
    (64, "Network Information Service+ domain");
    (65, "Network Information Service+ servers");
    (66, "TFTP server name"); (67, "Bootfile name");
    (68, "Mobile IP home agent");
    (69, "Simple Mail Transport Protocol servers");
    (70, "Post Office Protocol servers");
    (71, "Network News Transport Protocol servers");
    (72, "World Wide Web servers"); (73, "Finger servers");
    (74, "Internet Relay Chat server"); (77, "User Class");
    (93, "System architecture"); (94, "Network type"); (97, "UUID");
    (175, "iPXE encap opts"); (255, "End of DHCP options") ]%N.

Definition DHCP_OPTIONS : gmap N string := list_to_map DHCP_OPTIONS_table.
Global Arguments DHCP_OPTIONS : simpl never.

Definition DHCP_DISCOVER : N := 1.
Definition DHCP_OFFER : N := 2.
Definition DHCP_REQUEST : N := 3.
Definition DHCP_DECLINE : N := 4.
Definition DHCP_ACK : N := 5.
Definition DHCP_NAK : N := 6.
Definition DHCP_RELEASE : N := 7.
Definition DHCP_INFORM : N := 8.

Definition DHCP_IP_MASK : N := 1.
Definition DHCP_IP_GATEWAY : N := 3.
Definition DHCP_IP_DNS : N := 6.
Definition DHCP_LEASE_TIME : N := 51.
Definition DHCP_MSG : N := 53.
Definition DHCP_SERVER : N := 54.
Definition DHCP_END : N := 255.

Definition PXE_DISCOVERY_CONTROL : N := 6.
Definition PXE_BOOT_SERVERS : N := 8.
Definition PXE_BOOT_MENU : N := 9.
Definition PXE_MENU_PROMPT : N := 10.

(** ** [BootpServer.parse_options]

    One unit of fuel is one test of the [while tail:] condition.  The
    padding branch executes [continue] with [tail] unchanged. *)
Fixpoint parse_options_loop (fuel : nat) (tail : list byte)
    (dhcp_tags : gmap N (list byte)) : M (option (gmap N (list byte))) :=
  match fuel with
  | O => fun w => (w, Hang)
  | S fuel' =>
    match tail with
    | [] => ret None                       (* loop ends, no [return] reached *)
    | t0 :: rest =>
      let tag := ord t0 in
      if (tag =? 0)%N then parse_options_loop fuel' tail dhcp_tags
      else if (tag =? 255)%N then ret (Some dhcp_tags)
      else
        match rest with
        | [] => raise IndexError           (* [tail[1]] *)
        | l0 :: body =>
          let length := N.to_nat (ord l0) in
          let value := upto length body in
          if negb (Nat.eqb (List.length value) length)
          then raise struct_error          (* [struct.unpack('!%ss' % length, ...)] *)
          else
            let tail' := from length body in
            match DHCP_OPTIONS !! tag with
            | Some _ =>
              (say DEBUG " option" ;;;
               parse_options_loop fuel' tail' (<[tag := value]> dhcp_tags))%py
            | None =>
              (say ERROR "  unknown option" ;;; ret None)%py
            end
        end
    end
  end.

Definition parse_options (fuel : nat) (tail : list byte)
    : M (option (gmap N (list byte))) :=
  (say DEBUG "Parsing DHCP options" ;;;
   parse_options_loop fuel tail ∅)%py.

(** ** [struct] formats *)

(** Big-endian value of a byte string (the ['!I'] and ['!H'] fields). *)
Definition be_value (s : list byte) : Z :=
  fold_left (fun acc b => (acc * 256 + Z.of_N (ord b))%Z) s 0%Z.

(** Big-endian bytes of [v] on [n] bytes. *)
Fixpoint be_bytes (n : nat) (v : Z) : list byte :=
  match n with
  | O => []
  | S n' => be_bytes n' (v / 256) ++ [chr (Z.to_N (v mod 256))]
  end.

(** ['b']: one signed byte. *)
Definition unpack_b (b : byte) : Z :=
  let n := Z.of_N (ord b) in if (n <? 128)%Z then n else (n - 256)%Z.

Definition pack_b (v : Z) : option (list byte) :=
  if ((-128 <=? v) && (v <=? 127))%Z then Some [chr (Z.to_N (v mod 256))] else None.

(** ['B'], ['H'], ['I']: unsigned, range checked by [struct.pack]. *)
Definition pack_u (n : nat) (v : Z) : option (list byte) :=
  if ((0 <=? v) && (v <? 256 ^ Z.of_nat n))%Z then Some (be_bytes n v) else None.

(** ['<n>s']: truncated or NUL padded to [n] bytes. *)
Definition pack_s (n : nat) (s : list byte) : list byte :=
  upto n s ++ repeat x00 (n - List.length s).

(** The list [buf] of [handle], one field per index
    [BOOTP_OP .. BOOTP_VEND]. *)
Record bootp_buf := Buf {
  BOOTP_OP : Z; BOOTP_HTYPE : Z; BOOTP_HLEN : Z; BOOTP_HOPS : Z;
  BOOTP_XID : Z; BOOTP_SECS : Z; BOOTP_FLAGS : Z;
  BOOTP_CIADDR : list byte; BOOTP_YIADDR : list byte;
  BOOTP_SIADDR : list byte; BOOTP_GIADDR : list byte;
  BOOTP_CHADDR : list byte; BOOTP_SNAME : list byte;
  BOOTP_FILE : list byte; BOOTP_VEND : list byte
}.

Definition slice {A} (i n : nat) (s : list A) : list A := upto n (from i s).

(** [struct.unpack(DHCPFormat, s)]: [struct.error] unless [s] has exactly
    [DHCPFormatSize] bytes. *)
Definition unpack_DHCPFormat (s : list byte) : option bootp_buf :=
  if Nat.eqb (List.length s) DHCPFormatSize then
    Some {| BOOTP_OP := unpack_b (nth 0 s x00);
            BOOTP_HTYPE := unpack_b (nth 1 s x00);
            BOOTP_HLEN := unpack_b (nth 2 s x00);
            BOOTP_HOPS := unpack_b (nth 3 s x00);
            BOOTP_XID := be_value (slice 4 4 s);
            BOOTP_SECS := be_value (slice 8 2 s);
            BOOTP_FLAGS := be_value (slice 10 2 s);
            BOOTP_CIADDR := slice 12 4 s;
            BOOTP_YIADDR := slice 16 4 s;
            BOOTP_SIADDR := slice 20 4 s;
            BOOTP_GIADDR := slice 24 4 s;
            BOOTP_CHADDR := slice 28 16 s;
            BOOTP_SNAME := slice 44 64 s;
            BOOTP_FILE := slice 108 128 s;
            BOOTP_VEND := slice 236 4 s |}
  else None.

(** [struct.pack(DHCPFormat, *buf)] *)
Definition pack_DHCPFormat (b : bootp_buf) : option (list byte) :=
  op ← pack_b (BOOTP_OP b);
  htype ← pack_b (BOOTP_HTYPE b);
  hlen ← pack_b (BOOTP_HLEN b);
  hops ← pack_b (BOOTP_HOPS b);
  xid ← pack_u 4 (BOOTP_XID b);
  secs ← pack_u 2 (BOOTP_SECS b);
  flags ← pack_u 2 (BOOTP_FLAGS b);
  Some (op ++ htype ++ hlen ++ hops ++ xid ++ secs ++ flags
        ++ pack_s 4 (BOOTP_CIADDR b) ++ pack_s 4 (BOOTP_YIADDR b)
        ++ pack_s 4 (BOOTP_SIADDR b) ++ pack_s 4 (BOOTP_GIADDR b)
        ++ pack_s 16 (BOOTP_CHADDR b) ++ pack_s 64 (BOOTP_SNAME b)
        ++ pack_s 128 (BOOTP_FILE b) ++ pack_s 4 (BOOTP_VEND b)).

(** Lift a [struct]/[socket] call that can fail into [M]. *)
Definition orraise {A} (e : exn) (o : option A) : M A :=
  match o with Some a => ret a | None => raise e end.

(** ** Text *)

Definition hex_digit (n : N) : ascii :=
  if (n <? 10)%N then ascii_of_N (48 + n) else ascii_of_N (55 + n).

(** ['%02X' % n] for a byte value *)
Definition fmt_02X (n : N) : string :=
  String (hex_digit (n / 16)) (String (hex_digit (n mod 16)) EmptyString).

Definition dec_digit (n : N) : ascii := ascii_of_N (48 + n).

(** ['%d' % n] for a byte value *)
Definition fmt_d (n : N) : string :=
  if (n <? 10)%N then String (dec_digit n) EmptyString
  else if (n <? 100)%N then
    String (dec_digit (n / 10)) (String (dec_digit (n mod 10)) EmptyString)
  else
    String (dec_digit (n / 100))
      (String (dec_digit ((n / 10) mod 10))
         (String (dec_digit (n mod 10)) EmptyString)).

(** [sep.join(parts)] *)
Definition join (sep : string) (parts : list string) : string :=
  String.concat sep parts.

(** [s.split(c)] for a one-character separator *)
Fixpoint split_on (c : ascii) (s : string) : list string :=
  match s with
  | EmptyString => [EmptyString]
  | String a s' =>
    if Ascii.eqb a c then EmptyString :: split_on c s'
    else match split_on c s' with
         | h :: t => String a h :: t
         | [] => [String a EmptyString]
         end
  end.

Definition is_space (a : ascii) : bool :=
  let n := N_of_ascii a in ((n =? 32) || ((9 <=? n) && (n <=? 13)))%N.

Fixpoint lstrip (s : string) : string :=
  match s with
  | EmptyString => EmptyString
  | String a s' => if is_space a then lstrip s' else s
  end.

Fixpoint rstrip (s : string) : string :=
  match s with
  | EmptyString => EmptyString
  | String a s' =>
    match rstrip s' with
    | EmptyString => if is_space a then EmptyString else String a EmptyString
    | r => String a r
    end
  end.

(** [s.strip()] *)
Definition strip (s : string) : string := rstrip (lstrip s).

Definition lower_ascii (a : ascii) : ascii :=
  let n := N_of_ascii a in
  if ((65 <=? n) && (n <=? 90))%N then ascii_of_N (n + 32) else a.

(** [s.lower()] *)
Fixpoint lower (s : string) : string :=
  match s with
  | EmptyString => EmptyString
  | String a s' => String (lower_ascii a) (lower s')
  end.

(** ** Addresses

    [socket.inet_ntoa] and [socket.inet_aton].  [inet_aton] is the one of
    the C library: one to four numbers separated by dots, each written as
    in C (decimal, octal after a leading 0, hexadecimal after 0x); the last
    number fills the bytes that the numbers before it leave; what follows
    the last number must be nothing or start with white space. *)

Definition dotted (s : list byte) : string :=
  join "." (map (fun x => fmt_d (ord x)) s).

Definition inet_ntoa (s : list byte) : option string :=
  if Nat.eqb (List.length s) 4 then Some (dotted s) else None.

(** [isdigit(c)] *)
Definition is_digit (a : ascii) : bool :=
  let n := N_of_ascii a in ((48 <=? n) && (n <=? 57))%N.

(** The value of [a] as a digit of the base [base], if it is one. *)
Definition digit_in (base : N) (a : ascii) : option N :=
  let n := N_of_ascii a in
  let v := if ((48 <=? n) && (n <=? 57))%N then Some (n - 48)%N
           else if ((97 <=? n) && (n <=? 102))%N then Some (n - 87)%N
           else if ((65 <=? n) && (n <=? 70))%N then Some (n - 55)%N
           else None in
  match v with
  | Some d => if (d <? base)%N then Some d else None
  | None => None
  end.

(** The digits of base [base] at the head of [s]: the number they write
    after [acc], and what follows them. *)
Fixpoint digits (base : N) (s : string) (acc : N) : N * string :=
  match s with
  | EmptyString => (acc, s)
  | String a s' =>
    match digit_in base a with
    | Some d => digits base s' (acc * base + d)%N
    | None => (acc, s)
    end
  end.

(** [strtoul(cp, &endp, 0)] on a text that starts with a digit: the value
    and [endp].  After [0x] without a hexadecimal digit only the [0] is
    read. *)
Definition strtoul (cp : string) : N * string :=
  match cp with
  | String "0" (String x rest) =>
    if (Ascii.eqb x "x" || Ascii.eqb x "X")%bool then
      match rest with
      | String h _ =>
        match digit_in 16 h with
        | Some _ => digits 16 rest 0%N
        | None => (0%N, String x rest)
        end
      | EmptyString => (0%N, String x rest)
      end
    else digits 8 (String x rest) 0%N
  | _ => digits 10 cp 0%N
  end.

(** The largest last number after 0, 1, 2 and 3 numbers with a dot. *)
Definition last_max (n : nat) : N :=
  match n with
  | 0 => 4294967295%N
  | 1 => 16777215%N
  | 2 => 65535%N
  | _ => 255%N
  end.

(** The loop of [inet_aton]: [parts] are the numbers read so far, each
    followed by a dot, and [dots] is the number of dots still allowed. *)
Fixpoint inet_aton_parts (dots : nat) (cp : string) (parts : list N)
    : option (list byte) :=
  match cp with
  | EmptyString => None
  | String c _ =>
    if negb (is_digit c) then None
    else
      let (val, rest) := strtoul cp in
      if (4294967295 <? val)%N then None
      else
        match rest with
        | String "." cp' =>
          match dots with
          | O => None
          | S dots' =>
            if (255 <? val)%N then None
            else inet_aton_parts dots' cp' (parts ++ [val])
          end
        | _ =>
          let trailing :=
            match rest with
            | EmptyString => true
            | String c' _ => ((N_of_ascii c' <? 128)%N && is_space c')%bool
            end in
          if negb trailing then None
          else if (last_max (List.length parts) <? val)%N then None
          else Some (map chr parts
                     ++ be_bytes (4 - List.length parts) (Z.of_N val))
        end
  end.

(** A text with a NUL character: the call refuses it with [TypeError]
    before the C library sees it. *)
Fixpoint has_nul (s : string) : bool :=
  match s with
  | EmptyString => false
  | String a s' => (N_of_ascii a =? 0)%N || has_nul s'
  end.

(** [socket.inet_aton(s)]; [None] when the call raises. *)
Definition inet_aton (s : string) : option (list byte) :=
  if has_nul s then None else inet_aton_parts 3 s [].

(** The exception of [socket.inet_aton(s)] when it raises. *)
Definition inet_aton_exn (s : string) : exn :=
  if has_nul s then TypeError else socket_error inet_aton_call.

(** Modelled from the spec: [util.iptoint] and [util.inttoip] are imported
    from [util], which is not among the sources; the spec has the handler
    compute the subnet broadcast address from the netmask and the leased
    address, so they are the conversions between dotted-quad text and the
    32-bit number it denotes in network byte order. *)
Definition iptoint (ip : string) : option Z :=
  be_value <$> inet_aton ip.

Definition inttoip (v : Z) : option string :=
  s ← pack_u 4 v; inet_ntoa s.

(** Modelled from the spec: [util.to_bool], not among the sources, applied
    to the value of the [allow_simple_dhcp] key; the spec speaks of the
    flag being unset, false or set, so the value is a boolean and
    [to_bool] returns it. *)
Definition to_bool (v : bool) : bool := v.

(** ** [pybootdconfig.py] *)

(** One entry of the [bootp_leases] section; [None] is a missing key. *)
Record lease := Lease {
  lease_hostname : option string;
  lease_boot_file : option string
}.

(** The keys of the loaded YAML document that the handler reads; [None]
    is a key that is not in the [bootp] section. *)
Record PyBootdConfig := Config {
  bootp_default_boot_file : option string;
  bootp_default_lease_time : option Z;
  bootp_default_dns : option string;
  bootp_allow_simple_dhcp : option bool;
  bootp_leases : gmap string lease
}.

Definition BOOTP_DEFAULT_BOOT_FILE : string := String (ascii_of_N 0) EmptyString.
Definition BOOTP_DEFAULT_LEASE_TIME : Z := 7200.
Definition BOOTP_DEFAULT_DNS : string := "auto".

Definition get_bootp_default_boot_file (c : PyBootdConfig) : string :=
  match bootp_default_boot_file c with
  | Some f => f
  | None => BOOTP_DEFAULT_BOOT_FILE
  end.

Definition get_bootp_default_lease_time (c : PyBootdConfig) : Z :=
  match bootp_default_lease_time c with
  | Some t => t
  | None => BOOTP_DEFAULT_LEASE_TIME
  end.

Definition get_bootp_default_dns (c : PyBootdConfig) : string :=
  match bootp_default_dns c with
  | Some d => d
  | None => BOOTP_DEFAULT_DNS
  end.

Definition get_bootp_allow_simple_dhcp (c : PyBootdConfig) : option bool :=
  match bootp_allow_simple_dhcp c with
  | Some v => Some v
  | None => None
  end.

Definition get_lease_for_mac (c : PyBootdConfig) (mac : string) : option lease :=
  if negb (truthy_text mac) then None
  else match bootp_leases c !! mac with
       | None => None
       | Some l => Some l
       end.

(** ** What surrounds the handler

    [self.netconfig], [self.config], and the three external calls:
    [socket.gethostbyname], the first name server of [/etc/resolv.conf],
    and whether [sock.sendto] succeeds on a datagram and destination. *)
Record env := Env {
  netconfig_address : string;
  netconfig_mask : string;
  config : PyBootdConfig;
  gethostbyname : string -> option string;
  resolv_conf : option string;
  sendto_ok : list byte -> string * N -> bool
}.

(** [sock.sendto(pkt, dest)] *)
Definition sendto (e : env) (pkt : list byte) (dest : string * N) : M unit :=
  fun w =>
    if sendto_ok e pkt dest
    then (World (uuidpool w) (ippool w) (states w) (log w)
                (sent w ++ [(pkt, dest)]) (resolved w), Val tt)
    else (w, Exc (socket_error sendto_call)).

(** [socket.gethostbyname(hostname)]; [None] when it raises. *)
Definition resolve (e : env) (hostname : string) : M (option string) :=
  fun w =>
    (World (uuidpool w) (ippool w) (states w) (log w) (sent w)
           (resolved w ++ [hostname]), Val (gethostbyname e hostname)).

(** [BootpServer.get_dns_server] *)
Definition get_dns_server (e : env) : M (option string) :=
  match resolv_conf e with
  | Some dns => (say INFO "Found primary nameserver" ;;; ret (Some dns))%py
  | None => (say INFO "No nameserver found" ;;; ret None)%py
  end.

(** The dictionary [hostdata] built by [get_host_data_for_mac]. *)
Record hostdata := HostData {
  hd_address : string;
  hd_hostname : string;
  hd_domain : string;
  hd_boot_file : string
}.

(** [BootpServer.get_host_data_for_mac]; the result [None] is Python's
    [None].  No call in the [try] block raises [IOError]. *)
Definition get_host_data_for_mac (e : env) (mac_str : string) : M (option hostdata) :=
  (say DEBUG "Host data requested for MAC" ;;;
   match get_lease_for_mac (config e) mac_str with
   | None => raise TypeError               (* ['hostname' in None] *)
   | Some host_lease_data =>
     let hostname :=
       match lease_hostname host_lease_data with
       | Some h => h
       | None => EmptyString
       end in
     if negb (truthy_text hostname) then
       say ERROR "No hostname defined for mac" ;;; ret None
     else
       say DEBUG "Will try to resolve" ;;;
       r <- resolve e hostname ;;
       match r with
       | None => say DEBUG "Resolving failed" ;;; ret None
       | Some ipaddr =>
         say DEBUG "Got IP for host" ;;;
         match lease_boot_file host_lease_data with
         | None => raise KeyError          (* [host_lease_data['boot_file']] *)
         | Some boot_file =>
           ret (Some {| hd_address := ipaddr;
                        hd_hostname := hostname;
                        hd_domain := join "." (tail (split_on "." (strip hostname)));
                        hd_boot_file := boot_file |})
         end
       end
   end)%py.

(** ** Option builders *)

(** [struct.pack('!B...B', v1, ..., vn)] *)
Definition pack_Bs (vs : list Z) : option (list byte) :=
  @List.concat byte <$> mapM (pack_u 1) vs.

(** [struct.pack('!BB%ds' % len(v), tag, len(v), v)] *)
Definition pack_tlv (tag : N) (v : list byte) : option (list byte) :=
  t ← pack_u 1 (Z.of_N tag);
  l ← pack_u 1 (Z.of_nat (List.length v));
  Some (t ++ l ++ v).

(** [s.find(c)]: index of the first [c], or [-1]. *)
Fixpoint find_from (c : byte) (s : list byte) (i : Z) : Z :=
  match s with
  | [] => (-1)%Z
  | x :: s' => if Byte.eqb x c then i else find_from c s' (i + 1)%Z
  end.

Definition find (c : byte) (s : list byte) : Z := find_from c s 0%Z.

(** [s[:k]] for any integer [k]; a negative [k] counts from the end. *)
Definition upto_index {A} (k : Z) (s : list A) : list A :=
  if (k <? 0)%Z then upto (Z.to_nat (Z.of_nat (List.length s) + k)) s
  else upto (Z.to_nat k) s.

Definition colon : byte := x3a.

(** [BootpServer.build_pxe_options]; [None] is the [None] returned by the
    [except KeyError] clause. *)
Definition build_pxe_options (options : gmap N (list byte)) (server : list byte)
    : M (option (list byte)) :=
  match options !! 97%N with
  | None => (say ERROR "Missing options, cancelling" ;;; ret None)%py
  | Some uuid =>
    (o97 <- orraise struct_error (pack_tlv 97 uuid) ;;
     match options !! 60%N with
     | None => say ERROR "Missing options, cancelling" ;;; ret None
     | Some clientclass =>
       let clientclass := upto_index (find colon clientclass) clientclass in
       o60 <- orraise struct_error (pack_tlv 60 clientclass) ;;
       let srvstr := list_byte_of_string "Python" in
       let prompt := list_byte_of_string "Stupid PXE" in
       v6 <- orraise struct_error
               (pack_Bs [Z.of_N PXE_DISCOVERY_CONTROL; 1; 10]%Z) ;;
       v8 <- orraise struct_error
               (b ← pack_Bs [Z.of_N PXE_BOOT_SERVERS; 2 + 1 + 4]%Z;
                h ← pack_u 2 0; c ← pack_u 1 1;
                Some (b ++ h ++ c ++ pack_s 4 server)) ;;
       v9 <- orraise struct_error
               (b ← pack_Bs [Z.of_N PXE_BOOT_MENU;
                             2 + 1 + Z.of_nat (List.length srvstr)]%Z;
                h ← pack_u 2 0; c ← pack_u 1 (Z.of_nat (List.length srvstr));
                Some (b ++ h ++ c ++ srvstr)) ;;
       v10 <- orraise struct_error
               (b ← pack_Bs [Z.of_N PXE_MENU_PROMPT;
                             1 + Z.of_nat (List.length prompt);
                             Z.of_nat (List.length prompt)]%Z;
                Some (b ++ prompt)) ;;
       let vendor := v6 ++ v8 ++ v9 ++ v10 in
       o43 <- orraise struct_error (pack_tlv 43 vendor) ;;
       e <- orraise struct_error (pack_Bs [255; 0; 0]%Z) ;;
       ret (Some (o97 ++ o60 ++ o43 ++ e))
     end)%py
  end.

(** [BootpServer.build_dhcp_options] *)
Definition build_dhcp_options (clientname : list byte) : M (list byte) :=
  if negb (truthy clientname) then ret []
  else (o <- orraise struct_error (pack_tlv 12 clientname) ;; ret o)%py.

(** ** [BootpServer.handle] *)

(** [dhcp_msg_type == k], where [dhcp_msg_type] can be [None]. *)
Definition msg_is (dhcp_msg_type : option N) (k : N) : bool :=
  match dhcp_msg_type with
  | Some v => (v =? k)%N
  | None => false
  end.

(** The "basic state machine": [newstate] from [currentstate], [pxe] and
    [dhcp_msg_type]. *)
Definition next_state (currentstate : state) (pxe : bool)
    (dhcp_msg_type : option N) : state :=
  match currentstate with
  | ST_IDLE =>
    if pxe && msg_is dhcp_msg_type DHCP_DISCOVER then ST_PXE else currentstate
  | ST_PXE =>
    if negb pxe && msg_is dhcp_msg_type DHCP_REQUEST then ST_DHCP else currentstate
  | ST_DHCP =>
    if pxe then ST_PXE else currentstate
  end.

(** [self.states.setdefault(mac_str, default)] *)
Definition states_setdefault (mac_str : string) (default : state) : M state :=
  fun w =>
    match states w !! mac_str with
    | Some st => (w, Val st)
    | None => (World (uuidpool w) (ippool w) (<[mac_str := default]> (states w))
                     (log w) (sent w) (resolved w), Val default)
    end.

(** The local variables of [handle] that are set before the reply is
    constructed. *)
Record locals := Locals {
  options : gmap N (list byte);
  dhcp_msg_type : option N;
  mac_addr : list byte;
  gi_addr : list byte;
  mac_str : string;
  gi_str : string;
  uuid : option (list byte);
  pxe : bool;
  currentstate : state;
  newstate : state
}.

(** "update the UUID cache", "send the response", "update the current
    state". *)
Definition handle_send (e : env) (addr : string * N) (l : locals)
    (pkt extra_buf : list byte) : M unit :=
  ((if pxe l then set_uuidpool (<[mac_addr l := uuid l]>) else ret tt) ;;;
   (if truthy (gi_addr l)
    then sendto e (pkt ++ extra_buf) (gi_str l, 67%N)
    else sendto e (pkt ++ extra_buf) addr) ;;;
   if decide (currentstate l <> newstate l) then
     say INFO "Moving from state" ;;;
     set_states (<[mac_str l := newstate l]>)
   else ret tt)%py.

(** From [pkt = struct.pack(DHCPFormat, *buf)] to the choice of
    [extra_buf]. *)
Definition handle_build (e : env) (addr : string * N) (l : locals)
    (buf : bootp_buf) (dhcp_reply : N) : M unit :=
  (pkt <- orraise struct_error (pack_DHCPFormat buf) ;;
   o53 <- orraise struct_error
            (pack_Bs [Z.of_N DHCP_MSG; 1; Z.of_N dhcp_reply]%Z) ;;
   let pkt := pkt ++ o53 in
   server <- orraise (inet_aton_exn "10.40.13.161")
               (inet_aton "10.40.13.161") ;;
   o54 <- orraise struct_error
            (b ← pack_Bs [Z.of_N DHCP_SERVER; 4]%Z; Some (b ++ pack_s 4 server)) ;;
   let pkt := pkt ++ o54 in
   mask <- orraise (inet_aton_exn "255.255.255.224")
             (inet_aton "255.255.255.224") ;;
   o1 <- orraise struct_error
            (b ← pack_Bs [Z.of_N DHCP_IP_MASK; 4]%Z; Some (b ++ pack_s 4 mask)) ;;
   let pkt := pkt ++ o1 in
   o3 <- orraise struct_error
            (b ← pack_Bs [Z.of_N DHCP_IP_GATEWAY; 4]%Z; Some (b ++ pack_s 4 server)) ;;
   let pkt := pkt ++ o3 in
   let dns := get_bootp_default_dns (config e) in
   o6 <- (if truthy_text dns then
            dns <- (if String.eqb (lower dns) "auto" then
                      found <- get_dns_server e ;;
                      match found with
                      | Some d => if truthy_text d then ret d
                                  else orraise (socket_error inet_ntoa_call) (inet_ntoa server)
                      | None => orraise (socket_error inet_ntoa_call) (inet_ntoa server)
                      end
                    else ret dns) ;;
            dns <- orraise (inet_aton_exn dns) (inet_aton dns) ;;
            orraise struct_error
              (b ← pack_Bs [Z.of_N DHCP_IP_DNS; 4]%Z; Some (b ++ pack_s 4 dns))
          else ret []) ;;
   let pkt := pkt ++ o6 in
   o51 <- orraise struct_error
            (b ← pack_Bs [Z.of_N DHCP_LEASE_TIME; 4]%Z;
             t ← pack_u 4 (get_bootp_default_lease_time (config e));
             Some (b ++ t)) ;;
   let pkt := pkt ++ o51 in
   o255 <- orraise struct_error (pack_Bs [Z.of_N DHCP_END; 0]%Z) ;;
   let pkt := pkt ++ o255 in
   extra_buf <- (if pxe l then
                   x <- build_pxe_options (options l) server ;;
                   match x with
                   | None => stop
                   | Some x => if negb (truthy x) then stop else ret x
                   end
                 else build_dhcp_options []) ;;
   handle_send e addr l pkt extra_buf)%py.

(** From [if not dhcp_msg_type:] to the end of the [if]/[elif] chain on
    the message type.  [self.notify] is not an attribute of the class. *)
Definition handle_reply_type (e : env) (addr : string * N) (l : locals)
    (buf : bootp_buf) : M unit :=
  match dhcp_msg_type l with
  | None => (say WARN "No DHCP message type found, discarding request" ;;; stop)%py
  | Some 0%N => (say WARN "No DHCP message type found, discarding request" ;;; stop)%py
  | Some t =>
    (dhcp_reply <-
       (if (t =? DHCP_DISCOVER)%N then
          say DEBUG "DHCP DISCOVER" ;;; say INFO "Offering lease for MAC" ;;;
          ret DHCP_OFFER
        else if (t =? DHCP_REQUEST)%N then
          say DEBUG "DHCP REQUEST" ;;; say INFO "New lease for MAC" ;;;
          ret DHCP_ACK
        else if (t =? DHCP_RELEASE)%N then
          say INFO "DHCP RELEASE" ;;; raise AttributeError
        else if (t =? DHCP_INFORM)%N then
          say INFO "DHCP INFORM" ;;; stop
        else if (t =? DHCP_DECLINE)%N then
          say DEBUG "DHCP DECLINE" ;;; stop
        else
          say ERROR "Unmanaged DHCP message" ;;; stop) ;;
     handle_build e addr l buf dhcp_reply)%py
  end.

Definition set_OP (v : Z) (b : bootp_buf) : bootp_buf :=
  Buf v (BOOTP_HTYPE b) (BOOTP_HLEN b) (BOOTP_HOPS b) (BOOTP_XID b)
      (BOOTP_SECS b) (BOOTP_FLAGS b) (BOOTP_CIADDR b) (BOOTP_YIADDR b)
      (BOOTP_SIADDR b) (BOOTP_GIADDR b) (BOOTP_CHADDR b) (BOOTP_SNAME b)
      (BOOTP_FILE b) (BOOTP_VEND b).

Definition set_SECS (v : Z) (b : bootp_buf) : bootp_buf :=
  Buf (BOOTP_OP b) (BOOTP_HTYPE b) (BOOTP_HLEN b) (BOOTP_HOPS b) (BOOTP_XID b)
      v (BOOTP_FLAGS b) (BOOTP_CIADDR b) (BOOTP_YIADDR b)
      (BOOTP_SIADDR b) (BOOTP_GIADDR b) (BOOTP_CHADDR b) (BOOTP_SNAME b)
      (BOOTP_FILE b) (BOOTP_VEND b).

Definition set_FLAGS (v : Z) (b : bootp_buf) : bootp_buf :=
  Buf (BOOTP_OP b) (BOOTP_HTYPE b) (BOOTP_HLEN b) (BOOTP_HOPS b) (BOOTP_XID b)
      (BOOTP_SECS b) v (BOOTP_CIADDR b) (BOOTP_YIADDR b)
      (BOOTP_SIADDR b) (BOOTP_GIADDR b) (BOOTP_CHADDR b) (BOOTP_SNAME b)
      (BOOTP_FILE b) (BOOTP_VEND b).

Definition set_YIADDR (v : list byte) (b : bootp_buf) : bootp_buf :=
  Buf (BOOTP_OP b) (BOOTP_HTYPE b) (BOOTP_HLEN b) (BOOTP_HOPS b) (BOOTP_XID b)
      (BOOTP_SECS b) (BOOTP_FLAGS b) (BOOTP_CIADDR b) v
      (BOOTP_SIADDR b) (BOOTP_GIADDR b) (BOOTP_CHADDR b) (BOOTP_SNAME b)
      (BOOTP_FILE b) (BOOTP_VEND b).

Definition set_SIADDR (v : list byte) (b : bootp_buf) : bootp_buf :=
  Buf (BOOTP_OP b) (BOOTP_HTYPE b) (BOOTP_HLEN b) (BOOTP_HOPS b) (BOOTP_XID b)
      (BOOTP_SECS b) (BOOTP_FLAGS b) (BOOTP_CIADDR b) (BOOTP_YIADDR b)
      v (BOOTP_GIADDR b) (BOOTP_CHADDR b) (BOOTP_SNAME b)
      (BOOTP_FILE b) (BOOTP_VEND b).

Definition set_GIADDR (v : list byte) (b : bootp_buf) : bootp_buf :=
  Buf (BOOTP_OP b) (BOOTP_HTYPE b) (BOOTP_HLEN b) (BOOTP_HOPS b) (BOOTP_XID b)
      (BOOTP_SECS b) (BOOTP_FLAGS b) (BOOTP_CIADDR b) (BOOTP_YIADDR b)
      (BOOTP_SIADDR b) v (BOOTP_CHADDR b) (BOOTP_SNAME b)
      (BOOTP_FILE b) (BOOTP_VEND b).

Definition set_SNAME (v : list byte) (b : bootp_buf) : bootp_buf :=
  Buf (BOOTP_OP b) (BOOTP_HTYPE b) (BOOTP_HLEN b) (BOOTP_HOPS b) (BOOTP_XID b)
      (BOOTP_SECS b) (BOOTP_FLAGS b) (BOOTP_CIADDR b) (BOOTP_YIADDR b)
      (BOOTP_SIADDR b) (BOOTP_GIADDR b) (BOOTP_CHADDR b) v
      (BOOTP_FILE b) (BOOTP_VEND b).

Definition set_FILE (v : list byte) (b : bootp_buf) : bootp_buf :=
  Buf (BOOTP_OP b) (BOOTP_HTYPE b) (BOOTP_HLEN b) (BOOTP_HOPS b) (BOOTP_XID b)
      (BOOTP_SECS b) (BOOTP_FLAGS b) (BOOTP_CIADDR b) (BOOTP_YIADDR b)
      (BOOTP_SIADDR b) (BOOTP_GIADDR b) (BOOTP_CHADDR b) (BOOTP_SNAME b)
      v (BOOTP_VEND b).

Definition zero_address : list byte := [x00; x00; x00; x00].

(** The branch [if buf[BOOTP_CIADDR] == '\x00\x00\x00\x00':] ("client needs
    its address").  It yields the new [buf], the new [addr], and the value
    bound to [host_data]. *)
Definition handle_lease (e : env) (addr : string * N) (l : locals)
    (buf : bootp_buf) : M (bootp_buf * (string * N) * hostdata) :=
  (say DEBUG "Client needs its address" ;;;
   host_data <- get_host_data_for_mac e (mac_str l) ;;
   match host_data with
   | None => raise TypeError               (* [None['address']] *)
   | Some host_data =>
     let ipaddr := hd_address host_data in
     say DEBUG "IPADDR" ;;;
     if negb (truthy_text ipaddr) then
       say ERROR "Can't get IP address!" ;;; stop
     else
       pool <- get ippool ;;
       ip <- match pool !! mac_str l with
             | Some ip => say INFO "Lease for MAC already defined" ;;; ret ip
             | None => set_ippool (<[mac_str l := ipaddr]>) ;;; ret ipaddr
             end ;;
       if negb (truthy_text ip) then
         say ERROR "Can not find IP assigned to mac" ;;; stop
       else
         mask <- orraise (socket_error inet_aton_call) (iptoint (netconfig_mask e)) ;;
         ipint <- orraise (socket_error inet_aton_call) (iptoint ip) ;;
         let reply_broadcast := Z.land ipint mask in
         let reply_broadcast :=
           Z.lor reply_broadcast (Z.land (Z.lnot mask) (Z.shiftl 1 32 - 1)) in
         yiaddr <- orraise (inet_aton_exn ip) (inet_aton ip) ;;
         let buf := set_FLAGS BOOTP_FLAGS_NONE (set_SECS 0 (set_YIADDR yiaddr buf)) in
         bcast <- orraise struct_error (inttoip reply_broadcast) ;;
         let addr := (bcast, snd addr) in
         say DEBUG "Reply to" ;;;
         ret (buf, addr, host_data)
   end)%py.

(** "construct reply": from [buf[BOOTP_OP] = BOOTREPLY] to the assignment
    of [buf[BOOTP_FILE]].  In the [else] branch nothing is bound to
    [host_data]. *)
Definition handle_address (e : env) (addr : string * N) (l : locals)
    (buf : bootp_buf) : M unit :=
  (let buf := set_OP BOOTREPLY buf in
   say INFO "Client IP" ;;;
   r <- (if decide (BOOTP_CIADDR buf = zero_address) then
           r <- handle_lease e addr l buf ;;
           ret (fst (fst r), snd (fst r), Some (snd r))
         else
           let buf := set_YIADDR (BOOTP_CIADDR buf) buf in
           ip <- orraise (socket_error inet_ntoa_call) (inet_ntoa (BOOTP_YIADDR buf)) ;;
           ret (buf, addr, None)) ;;
   let buf := fst (fst r) in
   let addr := snd (fst r) in
   let host_data := snd r in
   siaddr <- orraise (inet_aton_exn (netconfig_address e))
               (inet_aton (netconfig_address e)) ;;
   let buf := set_SIADDR siaddr buf in
   buf <- (if truthy (gi_addr l) then
             say DEBUG "Reply via gateway" ;;;
             giaddr <- orraise (inet_aton_exn (gi_str l))
                         (inet_aton (gi_str l)) ;;
             ret (set_GIADDR giaddr buf)
           else ret buf) ;;
   match host_data with
   | None => raise UnboundLocalError
   | Some host_data =>
     let buf :=
       set_SNAME (list_byte_of_string
                    (join "." [hd_hostname host_data; hd_domain host_data])) buf in
     let file :=
       if truthy_text (hd_boot_file host_data) then hd_boot_file host_data
       else get_bootp_default_boot_file (config e) in
     let buf := set_FILE (list_byte_of_string file) buf in
     handle_reply_type e addr l buf
   end)%py.

(** From "Extras (DHCP options)" to the test of [simple_dhcp]. *)
Definition handle_request (e : env) (addr : string * N) (buf : bootp_buf)
    (options : gmap N (list byte)) : M unit :=
  (dhcp_msg_type <-
     match options !! 53%N with
     | None => ret None                    (* [except KeyError] *)
     | Some [] => raise IndexError         (* [options[53][0]] *)
     | Some (c :: _) => ret (Some (ord c))
     end ;;
   let mac_addr := upto 6 (BOOTP_CHADDR buf) in
   let gi_addr := upto 4 (BOOTP_GIADDR buf) in
   let mac_str := join ":" (map (fun x => fmt_02X (ord x)) mac_addr) in
   let gi_str := dotted gi_addr in
   say DEBUG "Gateway address" ;;;
   up <- (let cached :=
            pool <- get uuidpool ;;
            say INFO "PXE UUID not present in request" ;;;
            ret (default None (pool !! mac_addr), false) in
          match options !! 97%N with
          | Some v =>
            if Nat.eqb (List.length v) 17 then
              say INFO "PXE UUID has been received" ;;;
              ret (Some (from 1 v), true)
            else cached
          | None => cached
          end) ;;
   let uuid := fst up in
   let pxe := snd up in
   (match uuid with
    | Some u => if truthy u then say INFO "UUID is" else ret tt
    | None => ret tt
    end) ;;;
   currentstate <- states_setdefault mac_str ST_IDLE ;;
   let newstate := next_state currentstate pxe dhcp_msg_type in
   (if decide (newstate = ST_IDLE) then
      say INFO "Request ignored (idle state)" ;;;
      let sdhcp := get_bootp_allow_simple_dhcp (config e) in
      let simple_dhcp :=
        match sdhcp with
        | Some v => v && to_bool v
        | None => false
        end in
      if negb simple_dhcp then stop else ret tt
    else ret tt) ;;;
   handle_address e addr
     (Locals options dhcp_msg_type mac_addr gi_addr mac_str gi_str uuid pxe
             currentstate newstate) buf)%py.

(** The statements of [handle], in order; a [return] shows as [Stop]. *)
Definition handle_body (fuel : nat) (e : env) (addr : string * N)
    (data : list byte) : M unit :=
  (say INFO "Sender" ;;;
   (if Nat.ltb (List.length data) DHCPFormatSize
    then say ERROR "Cannot be a DHCP or BOOTP request - too small!"
    else ret tt) ;;;
   let tail := from DHCPFormatSize data in
   buf <- orraise struct_error (unpack_DHCPFormat (upto DHCPFormatSize data)) ;;
   if negb (BOOTP_OP buf =? BOOTREQUEST)%Z then
     say WARN "Not a BOOTREQUEST" ;;; stop
   else
     options <- parse_options fuel tail ;;
     match options with
     | None => say WARN "Error in option parsing, ignore request" ;;; stop
     | Some options => handle_request e addr buf options
     end)%py.

(** [BootpServer.handle(sock, addr, data)]: [Val tt] when the call returns
    (by a [return] or at the end of the body), [Exc] when an exception
    leaves it. *)
Definition handle (fuel : nat) (e : env) (addr : string * N)
    (data : list byte) : M unit :=
  fun w =>
    match handle_body fuel e addr data w with
    | (w', Stop) => (w', Val tt)
    | r => r
    end.

(** * Vocabulary of the properties *)

(** ** Logging and the option wire format *)

(** [relog ls w]: the world [w] after the lines [ls] were logged. *)
Definition relog (ls : list (level * string)) (w : world) : world :=
  World (uuidpool w) (ippool w) (states w) (log w ++ ls) (sent w) (resolved w).

(** The [socket.error] of a failed [sendto]. *)
Definition send_error : exn := socket_error sendto_call.

(** A command that does nothing but log: it ends in the world [relog ls w]
    for some lines [ls], and it does not raise the error of a failed
    send. *)
Definition logs_only {A} (m : M A) : Prop :=
  forall w, exists ls, fst (m w) = relog ls w /\ snd (m w) <> Exc send_error.

(** One turn of the [while] loop. *)
Definition parse_options_turn (fuel : nat) (tail : list byte)
    (dhcp_tags : gmap N (list byte)) : M (option (gmap N (list byte))) :=
  match tail with
  | [] => ret None
  | t0 :: rest =>
    if (ord t0 =? 0)%N then parse_options_loop fuel tail dhcp_tags
    else if (ord t0 =? 255)%N then ret (Some dhcp_tags)
    else
      match rest with
      | [] => raise IndexError
      | l0 :: body =>
        if negb (Nat.eqb (List.length (upto (N.to_nat (ord l0)) body))
                         (N.to_nat (ord l0)))
        then raise struct_error
        else
          match DHCP_OPTIONS !! ord t0 with
          | Some _ =>
            bind (say DEBUG " option")
                 (fun _ => parse_options_loop fuel (from (N.to_nat (ord l0)) body)
                             (<[ord t0 := upto (N.to_nat (ord l0)) body]> dhcp_tags))
          | None => bind (say ERROR "  unknown option") (fun _ => ret None)
          end
      end
  end.

(** The wire form of one option and of a sequence of options. *)
Definition encode_option (o : N * list byte) : list byte :=
  chr (fst o) :: chr (N.of_nat (List.length (snd o))) :: snd o.

Definition encode_options (os : list (N * list byte)) : list byte :=
  flat_map encode_option os.

(** An option the parser accepts and stores: its tag is in the table and is
    neither padding nor the end marker; its length fits the length byte. *)
Definition stored_option (o : N * list byte) : Prop :=
  is_Some (DHCP_OPTIONS !! fst o) /\ fst o <> 0%N /\ fst o <> 255%N
  /\ List.length (snd o) < 256.

(** The dictionary after these options were stored, in order. *)
Definition store_options (os : list (N * list byte))
    (tags : gmap N (list byte)) : gmap N (list byte) :=
  fold_left (fun m o => <[fst o := snd o]> m) os tags.

(** ** Sample requests

    A client with hardware address 00:11:22:33:44:55 that is configured as
    [node1.example.org], resolved to 10.0.0.42, on the network
    10.0.0.0/24. *)

Definition zeros (n : nat) : list byte := repeat x00 n.

Definition empty_world : world := World ∅ ∅ ∅ [] [] [].

Definition sample_mac : list byte := [x00; x11; x22; x33; x44; x55].

Definition sample_mac_str : string := "00:11:22:33:44:55".

(** The fixed record of a request with the given [op], [ciaddr] and
    [giaddr]. *)
Definition sample_header (op : byte) (ciaddr giaddr : list byte) : list byte :=
  [op; x01; x06; x00] ++ [xde; xad; xbe; xef] ++ [x00; x05] ++ [x80; x00]
  ++ ciaddr ++ zeros 4 ++ zeros 4 ++ giaddr ++ (sample_mac ++ zeros 10)
  ++ zeros 64 ++ zeros 128 ++ [x63; x82; x53; x63].

Definition sample_uuid : list byte := repeat x07 16.

(** Message type [t], class id [class_id], a 17-byte option 97, end. *)
Definition pxe_options (t : byte) (class_id : string) : list (N * list byte) :=
  [ (53%N, [t]); (60%N, list_byte_of_string class_id);
    (97%N, x00 :: sample_uuid) ].

Definition pxe_request (ciaddr giaddr : list byte) (t : byte)
    (class_id : string) : list byte :=
  sample_header x01 ciaddr giaddr
  ++ encode_options (pxe_options t class_id) ++ [xff].


(** A request that carries the message type only. *)
Definition plain_request (t : byte) : list byte :=
  sample_header x01 zero_address zero_address
  ++ encode_options [ (53%N, [t]) ] ++ [xff].

Definition sample_config (allow_simple_dhcp : option bool) : PyBootdConfig :=
  Config None None (Some "10.0.0.1") allow_simple_dhcp
    {[ sample_mac_str := Lease (Some "node1.example.org") (Some "pxelinux.0") ]}.

Definition sample_resolver (h : string) : option string :=
  if String.eqb h "node1.example.org" then Some "10.0.0.42" else None.

Definition sample_env (allow_simple_dhcp : option bool) (send_ok : bool) : env :=
  Env "10.0.0.1" "255.255.255.0" (sample_config allow_simple_dhcp)
      sample_resolver None (fun _ _ => send_ok).

Definition client_addr : string * N := ("0.0.0.0", 68%N).

Definition sample_locals : locals :=
  Locals (store_options (pxe_options x01 "PXEClient:Arch:00000") ∅)
         (Some DHCP_DISCOVER) sample_mac zero_address sample_mac_str
         "0.0.0.0" (Some sample_uuid) true ST_IDLE ST_PXE.

(** ** Outcomes of the stages of [handle] *)

(** The stored phase of a MAC; a MAC without entry is idle, as
    [setdefault(mac_str, ST_IDLE)] has it. *)
Definition phase (w : world) (mac : string) : state :=
  default ST_IDLE (states w !! mac).

(** Where [handle] sends the reply. *)
Definition reply_dest (addr : string * N) (l : locals) : string * N :=
  if truthy (gi_addr l) then (gi_str l, 67%N) else addr.

Definition commit_uuid (l : locals) (w : world) : world :=
  if pxe l then
    World (<[mac_addr l := uuid l]> (uuidpool w)) (ippool w) (states w)
          (log w) (sent w) (resolved w)
  else w.

Definition record_sent (d : list byte * (string * N)) (w : world) : world :=
  World (uuidpool w) (ippool w) (states w) (log w) (sent w ++ [d]) (resolved w).

Definition commit_state (l : locals) (w : world) : world :=
  if decide (currentstate l <> newstate l) then
    World (uuidpool w) (ippool w) (<[mac_str l := newstate l]> (states w))
          (log w ++ [(INFO, "Moving from state")]) (sent w) (resolved w)
  else w.

(** The call ended in [relog ls w] without a reply. *)
Definition quiet_end (w : world) (x : world * res unit) : Prop :=
  exists ls r, x = (relog ls w, r) /\ r <> Val tt /\ r <> Exc send_error.

Definition build_outcome (e : env) (addr : string * N) (l : locals)
    (buf : bootp_buf) (w : world) (x : world * res unit) : Prop :=
  quiet_end w x \/
  exists ls fixed rest extra_buf,
    pack_DHCPFormat buf = Some fixed /\
    (if pxe l then is_Some (options l !! 97%N) /\ is_Some (options l !! 60%N)
     else extra_buf = []) /\
    x = handle_send e addr l (fixed ++ rest) extra_buf (relog ls w).

Definition add_resolved (h : string) (w : world) : world :=
  World (uuidpool w) (ippool w) (states w) (log w) (sent w) (resolved w ++ [h]).

Definition add_lease (mac ip : string) (w : world) : world :=
  World (uuidpool w) (<[mac := ip]> (ippool w)) (states w) (log w) (sent w)
        (resolved w).

Definition prepared (w w1 : world) : Prop :=
  uuidpool w1 = uuidpool w /\ sent w1 = sent w /\
  (forall m, phase w1 m = phase w m) /\
  (forall m ip, ippool w !! m = Some ip -> ippool w1 !! m = Some ip) /\
  (exists hs, resolved w1 = resolved w ++ hs).

(** [get_host_data_for_mac]: no host data, or the data of the configured
    host after one call of the resolver. *)
Definition host_data_outcome (e : env) (mac : string) (w : world)
    (x : world * res (option hostdata)) : Prop :=
  (exists w1 r, x = (w1, r) /\ (forall hd, r <> Val (Some hd))
                /\ r <> Exc send_error /\ prepared w w1)
  \/ (exists ls h hd,
        x = (relog ls (add_resolved h w), Val (Some hd)) /\
        gethostbyname e h = Some (hd_address hd)).

(** [ippool[mac] = ip] unless [mac] has a lease. *)
Definition grant (mac ip : string) (w : world) : world :=
  match ippool w !! mac with
  | Some _ => w
  | None => add_lease mac ip w
  end.

Definition lease_outcome (e : env) (addr : string * N) (l : locals)
    (buf : bootp_buf) (w : world)
    (x : world * res (bootp_buf * (string * N) * hostdata)) : Prop :=
  (exists w1 r, x = (w1, r) /\ (forall v, r <> Val v)
                /\ r <> Exc send_error /\ prepared w w1)
  \/ (exists ls h ip yiaddr bcast hd,
        x = (relog ls (grant (mac_str l) ip (add_resolved h w)),
             Val (set_FLAGS BOOTP_FLAGS_NONE (set_SECS 0 (set_YIADDR yiaddr buf)),
                  (bcast, snd addr), hd)) /\
        gethostbyname e h = Some (hd_address hd) /\
        ip = default (hd_address hd) (ippool w !! mac_str l) /\
        inet_aton ip = Some yiaddr).

(** A call that ends without a reply, nothing committed. *)
Definition dropped (w : world) (x : world * res unit) : Prop :=
  exists w1 r, x = (w1, r) /\ r <> Val tt /\ r <> Exc send_error
               /\ prepared w w1.

(** A call that reaches the commit-and-send step: the client's address
    field was zero, the resolver was called once, the client holds a lease
    (the one it had, else the resolved address), and the reply offers the
    leased address. *)
Definition replied (e : env) (l : locals) (inbound : bootp_buf) (w : world)
    (x : world * res unit) : Prop :=
  exists w1 addr' h ipaddr ip buf' fixed rest extra_buf,
    prepared w w1 /\
    BOOTP_CIADDR inbound = zero_address /\
    resolved w1 = resolved w ++ [h] /\
    gethostbyname e h = Some ipaddr /\
    ip = default ipaddr (ippool w !! mac_str l) /\
    ippool w1 !! mac_str l = Some ip /\
    inet_aton ip = Some (BOOTP_YIADDR buf') /\
    pack_DHCPFormat buf' = Some fixed /\
    (if pxe l
     then is_Some (options l !! 97%N) /\ is_Some (options l !! 60%N)
     else extra_buf = []) /\
    x = handle_send e addr' l (fixed ++ rest) extra_buf w1.

Definition served (e : env) (l : locals) (inbound : bootp_buf) (w : world)
    (x : world * res unit) : Prop :=
  dropped w x \/ replied e l inbound w x.

(** [setdefault] adds an idle entry for a MAC that has none. *)
Definition touch (mac : string) (w : world) : world :=
  match states w !! mac with
  | Some _ => w
  | None => World (uuidpool w) (ippool w) (<[mac := ST_IDLE]> (states w))
                  (log w) (sent w) (resolved w)
  end.

(** The locals of [handle] as functions of the decoded record, the parsed
    options and the world at entry. *)
Definition request_pxe (opts : gmap N (list byte)) : bool :=
  match opts !! 97%N with
  | Some v => Nat.eqb (List.length v) 17
  | None => false
  end.

Definition request_msg_type (opts : gmap N (list byte)) : option N :=
  match opts !! 53%N with
  | Some (c :: _) => Some (ord c)
  | _ => None
  end.

Definition request_mac_str (buf : bootp_buf) : string :=
  join ":" (map (fun x => fmt_02X (ord x)) (upto 6 (BOOTP_CHADDR buf))).

Definition request_locals (buf : bootp_buf) (opts : gmap N (list byte))
    (w : world) : locals :=
  let mac_addr := upto 6 (BOOTP_CHADDR buf) in
  let gi_addr := upto 4 (BOOTP_GIADDR buf) in
  let currentstate := phase w (request_mac_str buf) in
  Locals opts (request_msg_type opts) mac_addr gi_addr (request_mac_str buf)
    (dotted gi_addr)
    (match opts !! 97%N with
     | Some v => if Nat.eqb (List.length v) 17 then Some (from 1 v)
                 else default None (uuidpool w !! mac_addr)
     | None => default None (uuidpool w !! mac_addr)
     end)
    (request_pxe opts) currentstate
    (next_state currentstate (request_pxe opts) (request_msg_type opts)).

(** The test on [newstate] and [simple_dhcp] lets the request through. *)
Definition gate_open (e : env) (l : locals) : Prop :=
  newstate l = ST_IDLE -> bootp_allow_simple_dhcp (config e) = Some true.

Definition request_outcome (e : env) (buf : bootp_buf)
    (opts : gmap N (list byte)) (w : world) (x : world * res unit) : Prop :=
  dropped w x
  \/ (gate_open e (request_locals buf opts w) /\
      replied e (request_locals buf opts w) buf w x).

(** Every call of [handle]: either nothing is committed and nothing is
    sent, or the datagram was a request whose options were parsed, the gate
    was open, and the call is the commit-and-send step. *)
Definition handled (fuel : nat) (e : env) (data : list byte) (w : world)
    (x : world * res unit) : Prop :=
  (exists w1 r, x = (w1, r) /\ r <> Exc send_error /\ prepared w w1)
  \/ (exists buf opts,
        unpack_DHCPFormat (upto DHCPFormatSize data) = Some buf /\
        BOOTP_OP buf = BOOTREQUEST /\
        snd (parse_options fuel (from DHCPFormatSize data) w) = Val (Some opts) /\
        gate_open e (request_locals buf opts w) /\
        replied e (request_locals buf opts w) buf w x).

(** The resolver now reports 10.0.0.77 for the sample host. *)
Definition moved_env : env :=
  Env "10.0.0.1" "255.255.255.0" (sample_config None)
      (fun h => if String.eqb h "node1.example.org" then Some "10.0.0.77" else None)
      None (fun _ _ => true).

(** ** The transition table, in the words of the specification *)

(** The transition table in the spec's words: current phase, [pxe_mode],
    message type; Discover is 1 and Request is 3. *)
Definition transition_table (s : state) (pxe_mode : bool)
    (msg_type : option N) : state :=
  match s, pxe_mode, msg_type with
  | ST_IDLE, true, Some 1%N => ST_PXE
  | ST_IDLE, _, _ => ST_IDLE
  | ST_PXE, false, Some 3%N => ST_DHCP
  | ST_PXE, _, _ => ST_PXE
  | ST_DHCP, true, _ => ST_PXE
  | ST_DHCP, false, _ => ST_DHCP
  end.

(** ** Plain DHCP *)

(** [simple_dhcp] of [handle]. *)
Definition simple_dhcp (e : env) : bool :=
  match get_bootp_allow_simple_dhcp (config e) with
  | Some v => v && to_bool v
  | None => false
  end.

(** The addresses written into the reply options by [handle]. *)
Definition hard_server : list byte := [x0a; x28; x0d; xa1].
Definition hard_mask : list byte := [xff; xff; xff; xe0].

(** Discover is answered by Offer, Request by Ack. *)
Definition offer_or_ack (t : N) : N :=
  if (t =? DHCP_DISCOVER)%N then DHCP_OFFER else DHCP_ACK.

(** ** Endings of an option stream *)

(** Where the parser stops after the options it stores. *)
Inductive ending :=
  | at_end_of_data | at_padding | at_end_marker
  | at_lone_tag | at_short_value | at_unknown_tag.

(** [stream_end r k]: the bytes [r] make the parser stop in the way [k]:
    no byte is left; a padding byte; the end marker; a tag without length
    byte; an option whose value is shorter than its length byte says; a
    complete option with a tag outside the table. *)
Inductive stream_end : list byte -> ending -> Prop :=
  | end_of_data : stream_end [] at_end_of_data
  | end_padding rest : stream_end (x00 :: rest) at_padding
  | end_marker rest : stream_end (xff :: rest) at_end_marker
  | end_lone_tag t :
      ord t <> 0%N -> ord t <> 255%N -> stream_end [t] at_lone_tag
  | end_short_value t l v :
      ord t <> 0%N -> ord t <> 255%N -> List.length v < N.to_nat (ord l) ->
      stream_end (t :: l :: v) at_short_value
  | end_unknown t v rest :
      DHCP_OPTIONS !! t = None -> (t < 256)%N -> List.length v < 256 ->
      stream_end (encode_option (t, v) ++ rest) at_unknown_tag.

(** What [parse_options] returns at each ending, [dhcp_tags] being the
    dictionary filled so far. *)
Definition ending_result (k : ending) (dhcp_tags : gmap N (list byte))
    : res (option (gmap N (list byte))) :=
  match k with
  | at_end_of_data => Val None
  | at_padding => Hang
  | at_end_marker => Val (Some dhcp_tags)
  | at_lone_tag => Exc IndexError
  | at_short_value => Exc struct_error
  | at_unknown_tag => Val None
  end.

Definition ending_log (k : ending) : list (level * string) :=
  match k with
  | at_unknown_tag => [(ERROR, "  unknown option")]
  | _ => []
  end.

(** The value stored for the tag [t] by a run of options: that of the last
    option with this tag. *)
Definition last_value (t : N) (os : list (N * list byte)) : option (list byte) :=
  snd <$> List.find (fun o => (fst o =? t)%N) (rev os).

(** ** The reply in detail *)

(** The option area that [handle] appends to the fixed record: message
    type, server, mask, gateway, the DNS option [o6] if there is one,
    lease time, end marker and one more zero byte. *)
Definition reply_options (dhcp_reply : N) (o6 : list byte) (lease_time : Z)
    : list byte :=
  [x35; x01; chr dhcp_reply] ++ ([x36; x04] ++ hard_server)
  ++ ([x01; x04] ++ hard_mask) ++ ([x03; x04] ++ hard_server)
  ++ o6 ++ ([x33; x04] ++ be_bytes 4 lease_time) ++ [xff; x00].

(** The DNS option of a reply: none, or tag 6 with one address. *)
Definition dns_option (o6 : list byte) : Prop :=
  o6 = [] \/ exists dns, List.length dns = 4 /\ o6 = [x06; x04] ++ dns.

(** The statements of [handle] from [dns = self.config.get_bootp_default_dns()]
    to the packing of the DNS option. *)
Definition dns_block (e : env) (server : list byte) : M (list byte) :=
  (if truthy_text (get_bootp_default_dns (config e)) then
     dns <- (if String.eqb (lower (get_bootp_default_dns (config e))) "auto" then
               found <- get_dns_server e ;;
               match found with
               | Some d => if truthy_text d then ret d
                           else orraise (socket_error inet_ntoa_call) (inet_ntoa server)
               | None => orraise (socket_error inet_ntoa_call) (inet_ntoa server)
               end
             else ret (get_bootp_default_dns (config e))) ;;
     dns <- orraise (inet_aton_exn dns) (inet_aton dns) ;;
     orraise struct_error
       (b ← pack_Bs [Z.of_N DHCP_IP_DNS; 4]%Z; Some (b ++ pack_s 4 dns))
   else ret [])%py.

(** The reply leaves through [handle_send]: the packed record, the option
    area, and the PXE options if the request is in PXE mode. *)
Definition built (e : env) (addr : string * N) (l : locals) (buf : bootp_buf)
    (dhcp_reply : N) (w : world) (x : world * res unit) : Prop :=
  exists ls fixed o6 extra_buf,
    pack_DHCPFormat buf = Some fixed /\ dns_option o6 /\
    (0 <= get_bootp_default_lease_time (config e) < 2 ^ 32)%Z /\
    (if pxe l
     then snd (build_pxe_options (options l) hard_server w) = Val (Some extra_buf)
          /\ extra_buf <> []
     else extra_buf = []) /\
    x = handle_send e addr l
          (fixed ++ reply_options dhcp_reply o6
                      (get_bootp_default_lease_time (config e)))
          extra_buf (relog ls w).

(** The dictionary [hostdata] that [get_host_data_for_mac] builds for a
    lease entry with host name and boot file, the host name resolving to
    [ipaddr]. *)
Definition host_data_of (hostname boot_file ipaddr : string) : hostdata :=
  {| hd_address := ipaddr;
     hd_hostname := hostname;
     hd_domain := join "." (tail (split_on "." (strip hostname)));
     hd_boot_file := boot_file |}.

(** The record of the reply, from the decoded request: [op] is the reply
    code, [secs] and [flags] are zero, the addresses offered and of the
    server are set, as are server name and boot file; every other field is
    that of the request. *)
Definition reply_record (buf : bootp_buf) (yiaddr siaddr sname file : list byte)
    : bootp_buf :=
  Buf BOOTREPLY (BOOTP_HTYPE buf) (BOOTP_HLEN buf) (BOOTP_HOPS buf)
      (BOOTP_XID buf) 0 BOOTP_FLAGS_NONE (BOOTP_CIADDR buf) yiaddr siaddr
      (BOOTP_GIADDR buf) (BOOTP_CHADDR buf) sname file (BOOTP_VEND buf).

(** [buf[BOOTP_SNAME]] and [buf[BOOTP_FILE]] as [handle] assigns them. *)
Definition sname_of (hostname : string) : list byte :=
  list_byte_of_string
    (join "." [hostname; join "." (tail (split_on "." (strip hostname)))]).

Definition file_of (e : env) (boot_file : string) : list byte :=
  list_byte_of_string
    (if truthy_text boot_file then boot_file
     else get_bootp_default_boot_file (config e)).

(** A call that reaches the commit-and-send step, with all that the reply
    is made of. *)
Definition answered (e : env) (l : locals) (buf : bootp_buf) (w : world)
    (x : world * res unit) : Prop :=
  exists w1 addr' t hostname boot_file ipaddr yiaddr siaddr fixed o6 extra_buf,
    prepared w w1 /\
    BOOTP_CIADDR buf = zero_address /\
    get_lease_for_mac (config e) (mac_str l)
    = Some (Lease (Some hostname) (Some boot_file)) /\
    truthy_text hostname = true /\
    gethostbyname e hostname = Some ipaddr /\
    inet_aton (default ipaddr (ippool w !! mac_str l)) = Some yiaddr /\
    inet_aton (netconfig_address e) = Some siaddr /\
    dhcp_msg_type l = Some t /\ (t = DHCP_DISCOVER \/ t = DHCP_REQUEST) /\
    pack_DHCPFormat
      (reply_record buf yiaddr siaddr (sname_of hostname) (file_of e boot_file))
    = Some fixed /\
    dns_option o6 /\
    (0 <= get_bootp_default_lease_time (config e) < 2 ^ 32)%Z /\
    (if pxe l
     then snd (build_pxe_options (options l) hard_server w) = Val (Some extra_buf)
          /\ extra_buf <> []
     else extra_buf = []) /\
    x = handle_send e addr' l
          (fixed ++ reply_options (offer_or_ack t) o6
                      (get_bootp_default_lease_time (config e)))
          extra_buf w1.

(** The record as [struct.pack] writes it: every string field cut or
    padded with zero bytes to the width of its format. *)
Definition on_wire (b : bootp_buf) : bootp_buf :=
  Buf (BOOTP_OP b) (BOOTP_HTYPE b) (BOOTP_HLEN b) (BOOTP_HOPS b) (BOOTP_XID b)
      (BOOTP_SECS b) (BOOTP_FLAGS b)
      (pack_s 4 (BOOTP_CIADDR b)) (pack_s 4 (BOOTP_YIADDR b))
      (pack_s 4 (BOOTP_SIADDR b)) (pack_s 4 (BOOTP_GIADDR b))
      (pack_s 16 (BOOTP_CHADDR b)) (pack_s 64 (BOOTP_SNAME b))
      (pack_s 128 (BOOTP_FILE b)) (pack_s 4 (BOOTP_VEND b)).

(** The PXE sub-options of the vendor option, and the option stream that
    [build_pxe_options] returns for the UUID option [uuid] and the class
    id [class_id]. *)
Definition vendor_options (server : list byte) : list (N * list byte) :=
  [ (PXE_DISCOVERY_CONTROL, [x0a]);
    (PXE_BOOT_SERVERS, [x00; x00; x01] ++ server);
    (PXE_BOOT_MENU, [x00; x00; x06] ++ list_byte_of_string "Python");
    (PXE_MENU_PROMPT, [x0a] ++ list_byte_of_string "Stupid PXE") ].

Definition pxe_stream (uuid class_id server : list byte) : list byte :=
  encode_options
    [ (97%N, uuid);
      (60%N, upto_index (find colon class_id) class_id);
      (43%N, encode_options (vendor_options server)) ]
  ++ [xff; x00; x00].

(** The options of a reply as a run of options. *)
Definition reply_option_list (dhcp_reply : N) (o6 : list byte) (lease_time : Z)
    : list (N * list byte) :=
  [ (DHCP_MSG, [chr dhcp_reply]); (DHCP_SERVER, hard_server);
    (DHCP_IP_MASK, hard_mask); (DHCP_IP_GATEWAY, hard_server) ]
  ++ match o6 with
     | [] => []
     | _ => [(DHCP_IP_DNS, from 2 o6)]
     end
  ++ [ (DHCP_LEASE_TIME, be_bytes 4 lease_time) ].

(** ** Working setups *)

(** The text that [handle] hands to [inet_aton] for the DNS option: the
    configured server or, when the configuration says [auto], the first
    name server of [/etc/resolv.conf] or, without one, the hard-coded
    server. *)
Definition dns_text (e : env) : string :=
  if String.eqb (lower (get_bootp_default_dns (config e))) "auto" then
    match resolv_conf e with
    | Some d => if truthy_text d then d else dotted hard_server
    | None => dotted hard_server
    end
  else get_bootp_default_dns (config e).

(** The DNS option of the reply, when it can be built: none if the
    configured text is empty. *)
Definition reply_dns (e : env) : option (list byte) :=
  if truthy_text (get_bootp_default_dns (config e)) then
    d ← inet_aton (dns_text e); Some ([x06; x04] ++ d)
  else Some [].

(** What follows the option area of the reply: in PXE mode the stream of
    [build_pxe_options], which needs options 97 and 60 of the request;
    nothing otherwise. *)
Definition reply_extra (pxe_mode : bool) (opts : gmap N (list byte))
    : option (list byte) :=
  if pxe_mode then
    uuid ← opts !! 97%N; class_id ← opts !! 60%N;
    Some (pxe_stream uuid class_id hard_server)
  else Some [].

(** Every value of the dictionary fits the length byte of an option. *)
Definition short_values (opts : gmap N (list byte)) : Prop :=
  forall t v, opts !! t = Some v -> List.length v < 256.

(** What the configuration and the surroundings must provide for a
    request of the client [mac] to be answered: a lease entry with a
    host name and a boot file, a host name that resolves, valid address
    texts for the lease, the netmask, the bound interface and the DNS
    server, a lease time that fits 32 bits, and a socket that sends. *)
Record plain_setup (e : env) (w : world) (mac hostname boot_file ipaddr : string)
    (yiaddr siaddr o6 : list byte) : Prop := {
  ps_lease : bootp_leases (config e) !! mac
             = Some (Lease (Some hostname) (Some boot_file));
  ps_hostname : truthy_text hostname = true;
  ps_resolve : gethostbyname e hostname = Some ipaddr;
  ps_ipaddr : truthy_text ipaddr = true;
  ps_ip : truthy_text (default ipaddr (ippool w !! mac)) = true;
  ps_yiaddr : inet_aton (default ipaddr (ippool w !! mac)) = Some yiaddr;
  ps_mask : is_Some (iptoint (netconfig_mask e));
  ps_address : inet_aton (netconfig_address e) = Some siaddr;
  ps_dns : reply_dns e = Some o6;
  ps_lease_time : (0 <= get_bootp_default_lease_time (config e) < 2 ^ 32)%Z;
  ps_send : forall pkt dest, sendto_ok e pkt dest = true
}.

(** * Properties *)

(** ** The monad, and commands that only write to the log *)

Lemma relog_nil w : relog [] w = w.
Proof. destruct w; unfold relog; simpl. by rewrite app_nil_r. Qed.

Lemma relog_relog a b w : relog b (relog a w) = relog (a ++ b) w.
Proof. unfold relog; simpl. by rewrite app_assoc. Qed.

Lemma say_relog l msg w : say l msg w = (relog [(l, msg)] w, Val tt).
Proof. reflexivity. Qed.

Lemma logs_only_ret {A} (a : A) : logs_only (ret a).
Proof. intros w. exists []. by rewrite relog_nil. Qed.

Lemma logs_only_raise {A} e : e <> send_error -> logs_only (@raise A e).
Proof.
  intros He w. exists []. rewrite relog_nil. split; [done|].
  cbn. congruence.
Qed.

Lemma logs_only_stop {A} : logs_only (@stop A).
Proof. intros w. exists []. by rewrite relog_nil. Qed.

Lemma logs_only_say l msg : logs_only (say l msg).
Proof. intros w. by exists [(l, msg)]. Qed.

Lemma logs_only_orraise {A} e (o : option A) :
  e <> send_error -> logs_only (orraise e o).
Proof. intros He. destruct o; [apply logs_only_ret | by apply logs_only_raise]. Qed.

Lemma logs_only_bind {A B} (m : M A) (k : A -> M B) :
  logs_only m -> (forall a, logs_only (k a)) -> logs_only (bind m k).
Proof.
  intros Hm Hk w. unfold bind.
  destruct (Hm w) as (ls & Hls & Hne). destruct (m w) as [w1 r].
  cbn [fst snd] in Hls, Hne. subst w1.
  destruct r as [a|e| |]; cbn [fst snd];
    try (exists ls; split; [done|]; first [done | intros [= ->]; by apply Hne]).
  destruct (Hk a (relog ls w)) as (ls' & Hls' & Hne').
  exists (ls ++ ls'). split; [by rewrite Hls', relog_relog | done].
Qed.

Lemma inet_aton_exn_not_send s : inet_aton_exn s <> send_error.
Proof. unfold inet_aton_exn. by destruct (has_nul s). Qed.

Create HintDb logs discriminated.
#[export] Hint Resolve logs_only_ret logs_only_raise logs_only_stop
  logs_only_say logs_only_orraise : logs.

#[export] Hint Extern 1 (_ <> send_error) => discriminate : logs.
#[export] Hint Resolve inet_aton_exn_not_send : logs.

Ltac logs_only :=
  repeat first
    [ apply logs_only_bind; [| intros ?]
    | progress auto with logs
    | match goal with
      | |- logs_only (match ?x with _ => _ end) => destruct x
      | |- logs_only (if ?b then _ else _) => destruct b
      end ].

(** The projections a logging command leaves alone. *)
Lemma relog_pools ls w :
  uuidpool (relog ls w) = uuidpool w /\ ippool (relog ls w) = ippool w /\
  states (relog ls w) = states w /\ sent (relog ls w) = sent w /\
  resolved (relog ls w) = resolved w.
Proof. done. Qed.

(** ** [parse_options] *)

Lemma parse_options_loop_S fuel tail tags :
  parse_options_loop (S fuel) tail tags = parse_options_turn fuel tail tags.
Proof. reflexivity. Qed.

Lemma logs_only_parse_options_loop fuel :
  forall tail tags, logs_only (parse_options_loop fuel tail tags).
Proof.
  induction fuel as [|fuel IH]; intros tail tags.
  - intros w. exists []. by rewrite relog_nil.
  - rewrite parse_options_loop_S. unfold parse_options_turn.
    destruct tail as [|t0 rest]; [auto with logs|].
    destruct (ord t0 =? 0)%N; [apply IH|].
    destruct (ord t0 =? 255)%N; [auto with logs|].
    destruct rest as [|l0 body]; [auto with logs|].
    destruct (negb _); [auto with logs|].
    destruct (DHCP_OPTIONS !! ord t0).
    + apply logs_only_bind; [auto with logs | intros _; apply IH].
    + apply logs_only_bind; [auto with logs | intros _; auto with logs].
Qed.

Lemma logs_only_parse_options fuel tail : logs_only (parse_options fuel tail).
Proof.
  unfold parse_options.
  apply logs_only_bind; [auto with logs | intros _].
  apply logs_only_parse_options_loop.
Qed.

(** What the parser returns does not depend on the world it runs in. *)
Lemma parse_options_loop_result fuel :
  forall tail tags w1 w2,
    snd (parse_options_loop fuel tail tags w1)
    = snd (parse_options_loop fuel tail tags w2).
Proof.
  induction fuel as [|fuel IH]; intros tail tags w1 w2; [done|].
  rewrite parse_options_loop_S. unfold parse_options_turn.
  destruct tail as [|t0 rest]; [done|].
  destruct (ord t0 =? 0)%N; [apply IH|].
  destruct (ord t0 =? 255)%N; [done|].
  destruct rest as [|l0 body]; [done|].
  destruct (negb _); [done|].
  destruct (DHCP_OPTIONS !! ord t0); [|done].
  unfold bind. rewrite !say_relog. apply IH.
Qed.

(** A padding byte at the head of [tail]: the loop tests [tail] again and
    again, whatever the fuel. *)
Lemma parse_options_loop_padding fuel :
  forall rest tags w,
    parse_options_loop fuel (x00 :: rest) tags w = (w, Hang).
Proof.
  induction fuel as [|fuel IH]; intros rest tags w; [done|].
  rewrite parse_options_loop_S. unfold parse_options_turn.
  change (ord x00 =? 0)%N with true. apply IH.
Qed.

Lemma ord_chr n : (n < 256)%N -> ord (chr n) = n.
Proof.
  intros Hn. unfold ord, chr.
  destruct (Byte.of_N n) as [b|] eqn:E.
  - by apply Byte.to_of_N.
  - apply Byte.of_N_None_iff in E. lia.
Qed.

Lemma chr_ord b : chr (ord b) = b.
Proof. unfold chr, ord. by rewrite Byte.of_to_N. Qed.

Lemma known_tag_lt t : is_Some (DHCP_OPTIONS !! t) -> (t < 256)%N.
Proof.
  intros [v Hv]. unfold DHCP_OPTIONS in Hv.
  apply elem_of_list_to_map_2 in Hv.
  apply list_elem_of_In in Hv. unfold DHCP_OPTIONS_table in Hv.
  repeat (destruct Hv as [Hv|Hv]; [inversion Hv; lia|]). destruct Hv.
Qed.

(** One complete option at the head of [tail]. *)
Lemma parse_options_loop_step fuel t v rest tags w :
  (t < 256)%N -> t <> 0%N -> t <> 255%N -> List.length v < 256 ->
  parse_options_loop (S fuel) (encode_option (t, v) ++ rest) tags w
  = match DHCP_OPTIONS !! t with
    | Some _ =>
      parse_options_loop fuel rest (<[t := v]> tags) (relog [(DEBUG, " option")] w)
    | None => (relog [(ERROR, "  unknown option")] w, Val None)
    end.
Proof.
  intros Ht H0 H255 Hv.
  rewrite parse_options_loop_S. unfold encode_option, fst, snd.
  change ((chr t :: chr (N.of_nat (List.length v)) :: v) ++ rest)
    with (chr t :: chr (N.of_nat (List.length v)) :: (v ++ rest)).
  unfold parse_options_turn.
  rewrite (ord_chr t Ht).
  destruct (N.eqb_spec t 0) as [|_]; [done|].
  destruct (N.eqb_spec t 255) as [|_]; [done|].
  rewrite ord_chr by lia. rewrite Nat2N.id.
  unfold upto, from.
  rewrite firstn_app, Nat.sub_diag, firstn_O, app_nil_r, firstn_all.
  rewrite Nat.eqb_refl. unfold negb.
  rewrite skipn_app, Nat.sub_diag, skipn_all, skipn_O, app_nil_l.
  by destruct (DHCP_OPTIONS !! t).
Qed.

Lemma parse_options_loop_stored os :
  forall fuel rest tags w,
    Forall stored_option os ->
    parse_options_loop (List.length os + fuel) (encode_options os ++ rest) tags w
    = parse_options_loop fuel rest (store_options os tags)
        (relog (repeat (DEBUG, " option") (List.length os)) w).
Proof.
  induction os as [|[t v] os IH]; intros fuel rest tags w Hos.
  - cbn [List.length repeat encode_options flat_map store_options fold_left
         Nat.add app]. by rewrite relog_nil.
  - apply Forall_cons in Hos as [(Hk & H0 & H255 & Hv) Hos].
    cbn [fst snd] in Hk, H0, H255, Hv.
    cbn [List.length repeat encode_options flat_map store_options fold_left
         Nat.add].
    rewrite <- app_assoc.
    rewrite parse_options_loop_step by (auto using known_tag_lt).
    destruct Hk as [d ->].
    fold (encode_options os). 
    change (fold_left (fun m o => <[fst o := snd o]> m) os (<[t := v]> tags))
      with (store_options os (<[t := v]> tags)).
    rewrite IH by done. rewrite relog_relog. done.
Qed.

(** ** Undersized datagrams *)

Lemma DHCPFormatSize_eq : DHCPFormatSize = 240.
Proof. reflexivity. Qed.

Lemma unpack_DHCPFormat_length s :
  is_Some (unpack_DHCPFormat s) <-> List.length s = DHCPFormatSize.
Proof.
  unfold unpack_DHCPFormat.
  destruct (Nat.eqb_spec (List.length s) DHCPFormatSize) as [E|E].
  - split; [done | by eexists].
  - split; [intros [? ?]; done | done].
Qed.

(** After the "too small" message there is no [return]: the handler goes on
    to [struct.unpack], which raises. *)
Lemma handle_short fuel e addr data w :
  List.length data < DHCPFormatSize ->
  handle fuel e addr data w
  = (relog [(INFO, "Sender");
            (ERROR, "Cannot be a DHCP or BOOTP request - too small!")] w,
     Exc struct_error).
Proof.
  intros Hlen. unfold handle, handle_body.
  unfold bind at 1. rewrite say_relog.
  apply Nat.ltb_lt in Hlen as Hlt. rewrite Hlt.
  unfold bind at 1. rewrite say_relog, relog_relog.
  unfold bind at 1.
  assert (unpack_DHCPFormat (upto DHCPFormatSize data) = None) as ->.
  { apply eq_None_not_Some. rewrite unpack_DHCPFormat_length.
    unfold upto. rewrite length_firstn. lia. }
  reflexivity.
Qed.

(** C5 (the code departs from the claim): a datagram shorter than the fixed
    DHCP record is logged as too small, nothing is sent and no pool is
    changed, but the handler does not return: [struct.error] leaves it.
    Every datagram shorter than the record has the form
    [upto (DHCPFormatSize - 1) data]. *)
Theorem handle_undersized_raises fuel e addr data w :
  handle fuel e addr (upto (DHCPFormatSize - 1) data) w
  = (relog [(INFO, "Sender");
            (ERROR, "Cannot be a DHCP or BOOTP request - too small!")] w,
     Exc struct_error).
Proof.
  apply handle_short. unfold upto. rewrite length_firstn.
  rewrite DHCPFormatSize_eq. lia.
Qed.

(** ** Option streams *)

(** C4 (the code departs from the claim): on a stream that starts with a
    padding byte, whatever follows it (an end marker included), the parser
    never returns: the padding branch does [continue] without consuming the
    byte. *)
Theorem parse_options_padding_hangs fuel rest w :
  parse_options fuel (x00 :: rest) w
  = (relog [(DEBUG, "Parsing DHCP options")] w, Hang).
Proof.
  unfold parse_options, bind. rewrite say_relog.
  apply parse_options_loop_padding.
Qed.

(** Without padding, a stream of stored options closed by the end marker is
    parsed to the dictionary of these options, whatever follows the
    marker. *)
Lemma parse_options_terminated fuel os trailing w :
  Forall stored_option os -> List.length os < fuel ->
  parse_options fuel (encode_options os ++ xff :: trailing) w
  = (relog ((DEBUG, "Parsing DHCP options")
            :: repeat (DEBUG, " option") (List.length os)) w,
     Val (Some (store_options os ∅))).
Proof.
  intros Hos Hfuel.
  replace fuel with (List.length os + S (fuel - S (List.length os))) by lia.
  unfold parse_options, bind. rewrite say_relog.
  rewrite parse_options_loop_stored by done.
  rewrite parse_options_loop_S. unfold parse_options_turn.
  change (ord xff =? 0)%N with false. change (ord xff =? 255)%N with true.
  unfold ret. by rewrite relog_relog.
Qed.

Lemma pad_is_known : is_Some (DHCP_OPTIONS !! 0%N).
Proof. by eexists. Qed.

Lemma end_is_known : is_Some (DHCP_OPTIONS !! 255%N).
Proof. by eexists. Qed.

Lemma parse_options_unknown fuel os t v rest w :
  Forall stored_option os -> DHCP_OPTIONS !! t = None -> (t < 256)%N ->
  List.length v < 256 -> List.length os < fuel ->
  parse_options fuel (encode_options os ++ encode_option (t, v) ++ rest) w
  = (relog ((DEBUG, "Parsing DHCP options")
            :: repeat (DEBUG, " option") (List.length os)
            ++ [(ERROR, "  unknown option")]) w,
     Val None).
Proof.
  intros Hos Ht Hlt Hv Hfuel.
  replace fuel with (List.length os + S (fuel - S (List.length os))) by lia.
  unfold parse_options, bind. rewrite say_relog.
  rewrite parse_options_loop_stored by done.
  rewrite parse_options_loop_step; try done.
  - rewrite Ht. by rewrite !relog_relog.
  - intros ->. destruct pad_is_known as [? E]. congruence.
  - intros ->. destruct end_is_known as [? E]. congruence.
Qed.

(** The head of [handle]: a datagram of at least the record size is split
    into the record and the option area. *)
Lemma handle_body_split fuel e addr hdr tail w :
  List.length hdr = DHCPFormatSize ->
  exists buf,
    unpack_DHCPFormat hdr = Some buf /\
    handle_body fuel e addr (hdr ++ tail) w
    = if negb (BOOTP_OP buf =? BOOTREQUEST)%Z
      then (relog [(INFO, "Sender"); (WARN, "Not a BOOTREQUEST")] w, Stop)
      else bind (parse_options fuel tail)
             (fun options =>
                match options with
                | None =>
                  bind (say WARN "Error in option parsing, ignore request")
                       (fun _ => stop)
                | Some options => handle_request e addr buf options
                end) (relog [(INFO, "Sender")] w).
Proof.
  intros Hlen.
  destruct (proj2 (unpack_DHCPFormat_length hdr) Hlen) as [buf Hbuf].
  exists buf. split; [done|].
  unfold handle_body.
  unfold bind at 1. rewrite say_relog.
  assert (Nat.ltb (List.length (hdr ++ tail)) DHCPFormatSize = false) as ->.
  { apply Nat.ltb_ge. rewrite length_app. lia. }
  unfold bind at 1. unfold ret at 1.
  unfold upto, from. rewrite <- Hlen.
  rewrite take_app_length, drop_app_length.
  rewrite Hbuf. unfold bind at 1, orraise, ret.
  destruct (negb (BOOTP_OP buf =? BOOTREQUEST)%Z); [|done].
  unfold bind. rewrite say_relog, relog_relog. done.
Qed.

(** X8: an option with a tag outside the table, after any number of stored
    options, none of them preceded by padding, and before anything else:
    the parser returns [None], nothing of the preceding options is kept,
    and the handler returns having done nothing but log. *)
Theorem unknown_option_drops_request fuel e addr hdr os t v rest w :
  List.length hdr = DHCPFormatSize ->
  Forall stored_option os ->
  DHCP_OPTIONS !! t = None -> (t < 256)%N -> List.length v < 256 ->
  List.length os < fuel ->
  let stream := encode_options os ++ encode_option (t, v) ++ rest in
  (exists ls, parse_options fuel stream w = (relog ls w, Val None)) /\
  (exists ls, handle fuel e addr (hdr ++ stream) w = (relog ls w, Val tt)) /\
  sent (fst (handle fuel e addr (hdr ++ stream) w)) = sent w.
Proof.
  intros Hlen Hos Ht Hlt Hv Hfuel stream.
  pose proof (parse_options_unknown fuel os t v rest) as Hparse.
  assert (exists ls, handle fuel e addr (hdr ++ stream) w = (relog ls w, Val tt))
    as [ls Hls].
  { unfold handle.
    destruct (handle_body_split fuel e addr hdr stream w Hlen) as (buf & _ & ->).
    destruct (negb _); [by eexists|].
    unfold bind at 1. unfold stream. rewrite Hparse by done.
    unfold bind, stop. rewrite say_relog, !relog_relog. by eexists. }
  split; [|split].
  - eexists. by apply Hparse.
  - by exists ls.
  - by rewrite Hls.
Qed.

(** ** The end of [handle]: commit and send *)

Lemma handle_send_run e addr l pkt extra_buf w :
  handle_send e addr l pkt extra_buf w
  = if sendto_ok e (pkt ++ extra_buf) (reply_dest addr l)
    then (commit_state l
            (record_sent (pkt ++ extra_buf, reply_dest addr l) (commit_uuid l w)),
          Val tt)
    else (commit_uuid l w, Exc (socket_error sendto_call)).
Proof.
  unfold handle_send, reply_dest, commit_state, commit_uuid, record_sent.
  unfold bind, set_uuidpool, set_states, sendto, say, ret.
  destruct (pxe l), (truthy (gi_addr l)); cbn [fst snd];
    match goal with
    | |- context [sendto_ok ?e ?p ?d] => destruct (sendto_ok e p d)
    end; cbn [fst snd]; try done;
    destruct (decide (currentstate l <> newstate l)); done.
Qed.

(** ** The stages of [handle] before the send

    Each stage either ends the call having done nothing but log, or hands
    over to the next stage in a world that differs by log lines only. *)

Lemma bind_assoc {A B C} (m : M A) (k1 : A -> M B) (k2 : B -> M C) w :
  bind (bind m k1) k2 w = bind m (fun a => bind (k1 a) k2) w.
Proof. unfold bind. destruct (m w) as [w1 [a|x| |]]; done. Qed.

Lemma bind_say {A} l msg (k : unit -> M A) w :
  bind (say l msg) k w = k tt (relog [(l, msg)] w).
Proof. reflexivity. Qed.

Lemma bind_orraise {A B} x (o : option A) (k : A -> M B) w :
  bind (orraise x o) k w
  = match o with Some a => k a w | None => (w, Exc x) end.
Proof. by destruct o. Qed.

Lemma bind_ret {A B} (a : A) (k : A -> M B) w : bind (ret a) k w = k a w.
Proof. reflexivity. Qed.

(** A logging command followed by [k]: the result of the command in some
    [relog ls w], then [k]. *)
Lemma bind_logs_only {A B} (m : M A) (k : A -> M B) w :
  logs_only m ->
  exists ls r,
    m w = (relog ls w, r) /\ r <> Exc send_error /\
    bind m k w = match r with
                 | Val a => k a (relog ls w)
                 | Exc x => (relog ls w, Exc x)
                 | Stop => (relog ls w, Stop)
                 | Hang => (relog ls w, Hang)
                 end.
Proof.
  intros Hm. destruct (Hm w) as (ls & Hls & Hne). unfold bind.
  destruct (m w) as [w1 r]. cbn [fst snd] in Hls, Hne. subst w1.
  exists ls, r. by destruct r.
Qed.

Lemma logs_only_get_dns_server e : logs_only (get_dns_server e).
Proof. unfold get_dns_server. logs_only. Qed.

Lemma logs_only_build_pxe_options opts server :
  logs_only (build_pxe_options opts server).
Proof. unfold build_pxe_options. logs_only. Qed.

Lemma logs_only_build_dhcp_options name : logs_only (build_dhcp_options name).
Proof. unfold build_dhcp_options. logs_only. Qed.

#[export] Hint Resolve logs_only_get_dns_server logs_only_build_pxe_options
  logs_only_build_dhcp_options : logs.

(** The PXE builder returns bytes only if options 97 and 60 are there. *)
Lemma build_pxe_options_Some opts server w x :
  snd (build_pxe_options opts server w) = Val (Some x) ->
  is_Some (opts !! 97%N) /\ is_Some (opts !! 60%N).
Proof.
  unfold build_pxe_options.
  destruct (opts !! 97%N) as [u|]; [|done].
  destruct (opts !! 60%N) as [c|]; [by eauto|].
  rewrite bind_orraise. by destruct (pack_tlv 97 u).
Qed.

Ltac not_send :=
  first [ done
        | intros [= ->]; congruence
        | let E := fresh in intros [= E]; by apply inet_aton_exn_not_send in E ].

Ltac quiet :=
  left; eexists _, _; split; [reflexivity|]; split; [done | not_send].

Ltac step_orraise :=
  rewrite bind_orraise;
  match goal with
  | |- context [match ?o with Some _ => _ | None => _ end] =>
    let v := fresh "v" in destruct o as [v|] eqn:?; [|quiet]
  end.

Lemma handle_build_run e addr l buf dhcp_reply w :
  build_outcome e addr l buf w (handle_build e addr l buf dhcp_reply w).
Proof.
  rewrite <- (relog_nil w) at 2. generalize (@nil (level * string)) as ls.
  intros ls. unfold handle_build.
  do 7 step_orraise.
  match goal with
  | |- context [bind ?m ?k ?w0] =>
    destruct (bind_logs_only m k w0) as (ls1 & r1 & _ & Hne1 & ->); [logs_only|]
  end.
  rewrite relog_relog.
  destruct r1 as [o6| | |]; [|quiet..].
  do 2 step_orraise.
  destruct (pxe l) eqn:Hpxe.
  - rewrite bind_assoc.
    match goal with
    | |- context [bind ?m ?k ?w0] =>
      destruct (bind_logs_only m k w0) as (ls2 & r2 & Hr2 & Hne2 & ->); [logs_only|]
    end.
    rewrite relog_relog.
    destruct r2 as [[x|]| | |]; [|quiet..].
    destruct (negb (truthy x)); [quiet|].
    rewrite bind_ret. right.
    eexists _, _, _, _. split; [eassumption|]. split.
    + rewrite Hpxe. eapply build_pxe_options_Some. by rewrite Hr2.
    + rewrite <- !app_assoc. reflexivity.
  - unfold build_dhcp_options. cbn [truthy negb]. rewrite bind_ret. right.
    eexists _, _, _, _. split; [eassumption|]. split.
    + by rewrite Hpxe.
    + rewrite <- !app_assoc. reflexivity.
Qed.

Lemma build_outcome_relog e addr l buf ls w x :
  build_outcome e addr l buf (relog ls w) x -> build_outcome e addr l buf w x.
Proof.
  intros [(ls' & r & -> & Hr) | (ls' & fixed & rest & extra & H1 & H2 & ->)].
  - left. exists (ls ++ ls'), r. by rewrite relog_relog.
  - right. exists (ls ++ ls'), fixed, rest, extra. by rewrite relog_relog.
Qed.

Lemma handle_reply_type_run e addr l buf w :
  build_outcome e addr l buf w (handle_reply_type e addr l buf w).
Proof.
  unfold handle_reply_type.
  destruct (dhcp_msg_type l) as [t|]; [|quiet].
  destruct t as [|p]; [quiet|].
  match goal with
  | |- context [bind ?m ?k ?w0] =>
    destruct (bind_logs_only m k w0) as (ls1 & r1 & _ & Hne1 & ->); [logs_only|]
  end.
  destruct r1 as [reply| | |]; [|quiet..].
  eapply build_outcome_relog, handle_build_run.
Qed.

Lemma prepared_refl w : prepared w w.
Proof. repeat split; auto. exists []. by rewrite app_nil_r. Qed.

Lemma prepared_relog ls w w1 : prepared w w1 -> prepared w (relog ls w1).
Proof. done. Qed.

Lemma prepared_add_resolved h w w1 :
  prepared w w1 -> prepared w (add_resolved h w1).
Proof.
  intros (H1 & H2 & H3 & H4 & hs & H5). repeat split; auto.
  exists (hs ++ [h]). cbn [add_resolved resolved]. by rewrite H5, app_assoc.
Qed.

Lemma prepared_add_lease mac ip w w1 :
  ippool w1 !! mac = None ->
  prepared w w1 -> prepared w (add_lease mac ip w1).
Proof.
  intros Hnone (H1 & H2 & H3 & H4 & H5). repeat split; auto.
  intros m ip0 Hm. cbn [add_lease ippool].
  destruct (decide (mac = m)) as [->|Hne].
  - apply H4 in Hm. congruence.
  - rewrite lookup_insert_ne by done. auto.
Qed.

Lemma add_resolved_relog h ls w :
  add_resolved h (relog ls w) = relog ls (add_resolved h w).
Proof. reflexivity. Qed.

Lemma add_lease_relog mac ip ls w :
  add_lease mac ip (relog ls w) = relog ls (add_lease mac ip w).
Proof. reflexivity. Qed.

Lemma bind_get {A B} (f : world -> A) (k : A -> M B) w :
  bind (get f) k w = k (f w) w.
Proof. reflexivity. Qed.

Lemma bind_set_ippool {B} f (k : unit -> M B) w :
  bind (set_ippool f) k w
  = k tt (World (uuidpool w) (f (ippool w)) (states w) (log w) (sent w)
                (resolved w)).
Proof. reflexivity. Qed.

Lemma bind_resolve {B} e h (k : option string -> M B) w :
  bind (resolve e h) k w = k (gethostbyname e h) (add_resolved h w).
Proof. reflexivity. Qed.

Lemma bind_raise {A B} x (k : A -> M B) w : bind (raise x) k w = (w, Exc x).
Proof. reflexivity. Qed.

Lemma bind_stop {A B} (k : A -> M B) w : bind stop k w = (w, Stop).
Proof. reflexivity. Qed.

Ltac prepared :=
  repeat first
    [ apply prepared_refl | apply prepared_relog | apply prepared_add_resolved ].

Ltac drop :=
  rewrite ?bind_say, ?bind_raise, ?bind_stop; unfold ret, raise, stop;
  left; eexists _, _; split; [reflexivity|]; split; [done|];
  split; [not_send | prepared].

Lemma get_host_data_for_mac_run e mac w :
  host_data_outcome e mac w (get_host_data_for_mac e mac w).
Proof.
  unfold get_host_data_for_mac. rewrite bind_say.
  destruct (get_lease_for_mac (config e) mac) as [lease|]; [|drop].
  destruct (negb _); [drop|].
  rewrite bind_say, bind_resolve.
  destruct (gethostbyname e _) as [ipaddr|] eqn:Hip; [|drop].
  rewrite bind_say.
  destruct (lease_boot_file lease) as [boot_file|]; [|drop].
  right. eexists _, _, {| hd_address := ipaddr |}.
  split; [|exact Hip].
  unfold ret.
  rewrite !add_resolved_relog, !relog_relog. reflexivity.
Qed.

Lemma prepared_trans w w1 w2 : prepared w w1 -> prepared w1 w2 -> prepared w w2.
Proof.
  intros (A1 & A2 & A3 & A4 & hs & A5) (B1 & B2 & B3 & B4 & hs' & B5).
  split; [congruence|]. split; [congruence|].
  split; [intros m; rewrite B3; apply A3|]. split; [auto|].
  exists (hs ++ hs'). by rewrite B5, A5, app_assoc.
Qed.

Lemma prepared_grant mac ip w w1 : prepared w w1 -> prepared w (grant mac ip w1).
Proof.
  intros H. unfold grant. destruct (ippool w1 !! mac) eqn:E; [done|].
  by apply prepared_add_lease.
Qed.

Lemma grant_lookup mac ip w :
  ippool (grant mac ip w) !! mac = Some (default ip (ippool w !! mac)).
Proof.
  unfold grant. destruct (ippool w !! mac) eqn:E; cbn [default]; [done|].
  cbn [add_lease ippool]. apply lookup_insert_eq.
Qed.

Lemma handle_lease_run e addr l buf w :
  lease_outcome e addr l buf w (handle_lease e addr l buf w).
Proof.
  unfold handle_lease. rewrite bind_say.
  destruct (get_host_data_for_mac_run e (mac_str l)
              (relog [(DEBUG, "Client needs its address")] w))
    as [(w1 & r & Hx & Hr & Hne & Hp) | (ls & h & hd & Hx & Hh)];
    unfold bind at 1; rewrite Hx.
  - assert (prepared w w1) by (eapply prepared_trans; [|exact Hp]; prepared).
    destruct r as [[hd|]| | |];
      [by destruct (Hr hd)
      | left; eexists _, _; (split; [reflexivity|]); (split; [done|]); (split; [not_send|assumption]) ..].
  - rewrite add_resolved_relog, relog_relog, bind_say, relog_relog.
    match goal with |- context [relog ?a (add_resolved _ _)] =>
      generalize a; intros ls0 end.
    assert (Hp : prepared w (add_resolved h w)) by prepared.
    destruct (negb (truthy_text (hd_address hd))).
    { rewrite bind_say. left. eexists _, _. split; [reflexivity|].
      split; [done|]. split; [not_send|]. prepared. }
    rewrite bind_get.
    change (ippool (relog ?ls (add_resolved ?h ?w))) with (ippool w).
    assert (Htail : forall ls1 ip w1,
      ip = default (hd_address hd) (ippool w !! mac_str l) ->
      w1 = grant (mac_str l) ip (add_resolved h w) ->
      forall k,
        (forall yiaddr bcast w2,
            k yiaddr bcast w2
            = (w2, Val (set_FLAGS BOOTP_FLAGS_NONE (set_SECS 0 (set_YIADDR yiaddr buf)),
                        (bcast, snd addr), hd))) ->
        lease_outcome e addr l buf w
          ((if negb (truthy_text ip)
            then bind (say ERROR "Can not find IP assigned to mac") (fun _ => stop)
            else
              bind (orraise (socket_error inet_aton_call) (iptoint (netconfig_mask e)))
                (fun mask0 =>
                 bind (orraise (socket_error inet_aton_call) (iptoint ip))
                   (fun ipint =>
                    bind (orraise (inet_aton_exn ip) (inet_aton ip))
                      (fun yiaddr =>
                       bind (orraise struct_error
                               (inttoip (Z.lor (Z.land ipint mask0)
                                   (Z.land (Z.lnot mask0) (Z.shiftl 1 32 - 1)))))
                         (fun bcast =>
                          bind (say DEBUG "Reply to")
                            (fun _ => k yiaddr bcast))))))
             (relog ls1 w1))).
    { intros ls1 ip w1 Hip -> k Hk.
      assert (prepared w (grant (mac_str l) ip (add_resolved h w)))
        by (apply prepared_grant; prepared).
      destruct (negb (truthy_text ip)).
      { rewrite bind_say. left. eexists _, _. split; [reflexivity|].
        split; [done|]. split; [not_send|]. by prepared. }
      do 4 (rewrite bind_orraise;
            match goal with
            | |- context [match ?o with Some _ => _ | None => _ end] =>
              let v := fresh "v" in
              destruct o as [v|] eqn:?;
                [| left; eexists _, _; split; [reflexivity|];
                   split; [done|]; split; [not_send | by prepared]]
            end).
      rewrite bind_say, relog_relog, Hk.
      right. eexists _, _, _, _, _, _. split; [reflexivity|]. done. }
    destruct (ippool w !! mac_str l) as [ip|] eqn:E.
    + rewrite bind_assoc, bind_say, bind_ret, relog_relog.
      apply (Htail _ ip (add_resolved h w) eq_refl) with
        (k := fun yiaddr bcast =>
                ret (set_FLAGS BOOTP_FLAGS_NONE (set_SECS 0 (set_YIADDR yiaddr buf)),
                     (bcast, snd addr), hd)); [|done].
      unfold grant. cbn [add_resolved ippool]. by rewrite E.
    + rewrite bind_assoc, bind_set_ippool, bind_ret.
      change (World _ _ _ _ _ _)
        with (relog ls0 (add_lease (mac_str l) (hd_address hd) (add_resolved h w))).
      apply (Htail _ (hd_address hd) _ eq_refl) with
        (k := fun yiaddr bcast =>
                ret (set_FLAGS BOOTP_FLAGS_NONE (set_SECS 0 (set_YIADDR yiaddr buf)),
                     (bcast, snd addr), hd)); [|done].
      unfold grant. cbn [add_resolved ippool]. by rewrite E.
Qed.

Lemma grant_resolved mac ip w : resolved (grant mac ip w) = resolved w.
Proof. unfold grant. by destruct (ippool w !! mac). Qed.

Lemma handle_address_run e addr l buf w :
  served e l buf w (handle_address e addr l buf w).
Proof.
  unfold handle_address. rewrite bind_say.
  change (BOOTP_CIADDR (set_OP BOOTREPLY buf)) with (BOOTP_CIADDR buf).
  destruct (decide (BOOTP_CIADDR buf = zero_address)) as [Hci|Hci].
  - rewrite bind_assoc.
    destruct (handle_lease_run e addr l (set_OP BOOTREPLY buf)
                (relog [(INFO, "Client IP")] w))
      as [(w1 & r & Hx & Hr & Hne & Hp) | (ls & h & ip & yi & bc & hd & Hx & Hh & Hip & Hyi)];
      unfold bind at 1; rewrite Hx.
    + assert (prepared w w1) by (eapply prepared_trans; [|exact Hp]; prepared).
      destruct r as [v| | |];
        [by destruct (Hr v)
        | left; eexists _, _; (split; [reflexivity|]); (split; [done|]); (split; [not_send|assumption]) ..].
    + rewrite bind_ret. cbn [fst snd].
      change (ippool (relog [(INFO, "Client IP")] w)) with (ippool w) in Hip.
      set (W := grant (mac_str l) ip (add_resolved h (relog [(INFO, "Client IP")] w))).
      assert (HpW : prepared w W) by (apply prepared_grant; prepared).
      assert (HrW : resolved W = resolved w ++ [h]) by apply grant_resolved.
      assert (HiW : ippool W !! mac_str l = Some ip).
      { unfold W. rewrite grant_lookup. f_equal.
        change (ippool (add_resolved h (relog [(INFO, "Client IP")] w)))
          with (ippool w).
        rewrite Hip. by destruct (ippool w !! mac_str l). }
      clearbody W.
      assert (Hrest : forall ls1 addr1 buf1,
                BOOTP_YIADDR buf1 = yi ->
                served e l buf w (handle_reply_type e addr1 l buf1 (relog ls1 W))).
      { intros ls1 addr1 buf1 Hb.
        destruct (handle_reply_type_run e addr1 l buf1 (relog ls1 W))
          as [(ls2 & r & -> & Hr)
             | (ls2 & fixed & rest & extra & Hf & Hpx & ->)].
        - left. eexists _, _. split; [reflexivity|]. destruct Hr as [Hr1 Hr2].
          split; [done|]. split; [not_send|]. by prepared.
        - right. exists (relog ls2 (relog ls1 W)), addr1, h, (hd_address hd), ip,
            buf1, fixed, rest, extra.
          rewrite Hb. repeat (split; [by prepared|]). done. }
      rewrite bind_orraise.
      destruct (inet_aton (netconfig_address e)) as [siaddr|];
        [| left; eexists _, _; split; [reflexivity|]; split; [done|]; split; [not_send | by prepared]].
      destruct (truthy (gi_addr l)).
      * rewrite bind_assoc, bind_say, bind_assoc, bind_orraise.
        destruct (inet_aton (gi_str l)) as [giaddr|];
          [| left; eexists _, _; split; [reflexivity|]; split; [done|]; split; [not_send | by prepared]].
        rewrite bind_ret, relog_relog. by apply Hrest.
      * rewrite bind_ret. by apply Hrest.
  - rewrite bind_assoc, bind_orraise.
    destruct (inet_ntoa _) as [ip|]; [|drop].
    rewrite bind_ret. cbn [fst snd].
    rewrite bind_orraise.
    destruct (inet_aton (netconfig_address e)) as [siaddr|]; [|drop].
    destruct (truthy (gi_addr l)).
    + rewrite bind_assoc, bind_say, bind_assoc, bind_orraise.
      destruct (inet_aton (gi_str l)) as [giaddr|]; [|drop].
      rewrite bind_ret. drop.
    + rewrite bind_ret. drop.
Qed.

Lemma states_setdefault_run mac w :
  states_setdefault mac ST_IDLE w = (touch mac w, Val (phase w mac)).
Proof.
  unfold states_setdefault, touch, phase.
  by destruct (states w !! mac).
Qed.

Lemma phase_touch mac w m : phase (touch mac w) m = phase w m.
Proof.
  unfold touch, phase. destruct (states w !! mac) eqn:E; [done|].
  cbn [states]. destruct (decide (mac = m)) as [->|Hne].
  - by rewrite lookup_insert_eq, E.
  - by rewrite lookup_insert_ne.
Qed.

Lemma prepared_touch mac w : prepared w (touch mac w).
Proof.
  unfold prepared.
  assert (uuidpool (touch mac w) = uuidpool w /\ sent (touch mac w) = sent w
          /\ ippool (touch mac w) = ippool w
          /\ resolved (touch mac w) = resolved w) as (-> & -> & -> & ->)
    by (unfold touch; by destruct (states w !! mac)).
  split; [done|]. split; [done|]. split; [apply phase_touch|].
  split; [done|]. exists []. by rewrite app_nil_r.
Qed.

Lemma served_from e l buf w w' x :
  prepared w w' -> ippool w' = ippool w -> resolved w' = resolved w ->
  served e l buf w' x -> served e l buf w x.
Proof.
  intros Hp Hi Hr
    [(w1 & r & -> & Hr1 & Hne & Hp1)
    | (w1 & addr' & h & ipaddr & ip & buf' & fixed & rest & extra
       & Hp1 & H1 & H2 & H3 & H4 & H5)].
  - left. exists w1, r. split; [done|]. split; [done|]. split; [done|].
    by eapply prepared_trans.
  - right. exists w1, addr', h, ipaddr, ip, buf', fixed, rest, extra.
    split; [by eapply prepared_trans|]. split; [done|].
    rewrite <- Hr, <- Hi. done.
Qed.

Lemma handle_request_run e addr buf opts w :
  request_outcome e buf opts w (handle_request e addr buf opts w).
Proof.
  unfold handle_request.
  assert (Htail : forall ls (up : option (list byte) * bool) mt,
    fst up = uuid (request_locals buf opts w) ->
    snd up = request_pxe opts -> mt = request_msg_type opts ->
    request_outcome e buf opts w
      (bind (match fst up with
             | Some u => if truthy u then say INFO "UUID is" else ret tt
             | None => ret tt
             end)
         (fun _ =>
            bind (states_setdefault
                    (join ":" (map (fun x => fmt_02X (ord x))
                                   (upto 6 (BOOTP_CHADDR buf)))) ST_IDLE)
              (fun cur =>
                 bind (if decide (next_state cur (snd up) mt = ST_IDLE) then
                         bind (say INFO "Request ignored (idle state)")
                           (fun _ =>
                              if negb match get_bootp_allow_simple_dhcp (config e) with
                                      | Some v => v && to_bool v
                                      | None => false
                                      end
                              then stop else ret tt)
                       else ret tt)
                   (fun _ =>
                      handle_address e addr
                        (Locals opts mt (upto 6 (BOOTP_CHADDR buf))
                           (upto 4 (BOOTP_GIADDR buf))
                           (join ":" (map (fun x => fmt_02X (ord x))
                                          (upto 6 (BOOTP_CHADDR buf))))
                           (dotted (upto 4 (BOOTP_GIADDR buf))) (fst up) (snd up)
                           cur (next_state cur (snd up) mt)) buf)))
         (relog ls w))).
  { intros ls [uu px] mt Huu Hpx Hmt. cbn [fst snd] in *.
    fold (request_mac_str buf).
    match goal with
    | |- context [bind ?m ?k0 ?w0] =>
      destruct (bind_logs_only m k0 w0) as (ls1 & r1 & _ & Hne1 & ->); [logs_only|]
    end.
    rewrite relog_relog.
    destruct r1 as [[]| | |]; [|drop..].
    unfold bind at 1. rewrite states_setdefault_run.
    change (phase (relog ?a w)) with (phase w).
    set (W := touch (request_mac_str buf) (relog (ls ++ ls1) w)).
    assert (HW : prepared w W) by (eapply prepared_trans; [|apply prepared_touch]; prepared).
    assert (HWi : ippool W = ippool w)
      by (unfold W, touch; by destruct (states _ !! _)).
    assert (HWr : resolved W = resolved w)
      by (unfold W, touch; by destruct (states _ !! _)).
    clearbody W.
    assert (Hgo : forall ls2, gate_open e (request_locals buf opts w) ->
              request_outcome e buf opts w
                (handle_address e addr
                   (Locals opts mt (upto 6 (BOOTP_CHADDR buf))
                      (upto 4 (BOOTP_GIADDR buf)) (request_mac_str buf)
                      (dotted (upto 4 (BOOTP_GIADDR buf))) uu px
                      (phase w (request_mac_str buf))
                      (next_state (phase w (request_mac_str buf)) px mt)) buf
                   (relog ls2 W))).
    { intros ls2 Hgate.
      destruct (served_from e (request_locals buf opts w) buf w (relog ls2 W)
                  (handle_address e addr (request_locals buf opts w) buf
                     (relog ls2 W))) as [Hd|Hr];
        [by prepared | done | done | apply handle_address_run | |];
        subst uu px mt; [by left | by right]. }
    destruct (decide (next_state (phase w (request_mac_str buf)) px mt = ST_IDLE))
      as [Hidle|Hidle].
    - rewrite bind_assoc, bind_say.
      destruct (bootp_allow_simple_dhcp (config e)) as [[|]|] eqn:Hflag;
        unfold get_bootp_allow_simple_dhcp; rewrite Hflag; cbn [andb to_bool negb].
      + rewrite bind_ret. apply Hgo. by intros _.
      + rewrite bind_stop. left. eexists _, _. split; [reflexivity|].
        split; [done|]. split; [not_send|]. by prepared.
      + rewrite bind_stop. left. eexists _, _. split; [reflexivity|].
        split; [done|]. split; [not_send|]. by prepared.
    - rewrite bind_ret. rewrite <- (relog_nil W). apply Hgo.
      intros Hn. subst px mt. by destruct Hidle. }
  destruct (opts !! 53%N) as [[|c v53]|] eqn:E53; [drop| |];
    rewrite bind_ret, bind_say;
    (destruct (opts !! 97%N) as [v|] eqn:E97;
      [destruct (Nat.eqb (List.length v) 17) eqn:E17|]);
    [ rewrite bind_assoc, bind_say, bind_ret, relog_relog
    | rewrite bind_assoc, bind_get, bind_assoc, bind_say, bind_ret, relog_relog
    | rewrite bind_assoc, bind_get, bind_assoc, bind_say, bind_ret, relog_relog
    | rewrite bind_assoc, bind_say, bind_ret, relog_relog
    | rewrite bind_assoc, bind_get, bind_assoc, bind_say, bind_ret, relog_relog
    | rewrite bind_assoc, bind_get, bind_assoc, bind_say, bind_ret, relog_relog ];
    apply Htail;
    unfold request_locals, request_pxe, request_msg_type; cbn [uuid fst snd];
    rewrite ?E97, ?E17, ?E53; reflexivity.
Qed.

Lemma parse_options_result fuel tail w1 w2 :
  snd (parse_options fuel tail w1) = snd (parse_options fuel tail w2).
Proof.
  unfold parse_options. rewrite !bind_say. apply parse_options_loop_result.
Qed.

Lemma handle_run fuel e addr data w :
  handled fuel e data w (handle fuel e addr data w).
Proof.
  unfold handle, handle_body.
  rewrite bind_say.
  match goal with
  | |- context [bind ?m ?k ?w0] =>
    destruct (bind_logs_only m k w0) as (ls1 & r1 & _ & Hne1 & ->); [logs_only|]
  end.
  rewrite relog_relog.
  destruct r1 as [[]| | |];
    [|left; eexists _, _; split; [reflexivity|]; split; [not_send | prepared] ..].
  rewrite bind_orraise.
  destruct (unpack_DHCPFormat (upto DHCPFormatSize data)) as [buf|] eqn:Hbuf;
    [|left; eexists _, _; split; [reflexivity|]; split; [not_send | prepared]].
  destruct (Z.eqb_spec (BOOTP_OP buf) BOOTREQUEST) as [Hop|Hop]; cbn [negb];
    [|rewrite bind_say;
      left; eexists _, _; split; [reflexivity|]; split; [not_send | prepared]].
  match goal with
  | |- context [bind ?m ?k ?w0] =>
    destruct (bind_logs_only m k w0) as (ls2 & r2 & Hr2 & Hne2 & ->);
      [apply logs_only_parse_options|]
  end.
  rewrite relog_relog.
  destruct r2 as [[opts|]| | |];
    [| rewrite bind_say;
       left; eexists _, _; split; [reflexivity|]; split; [not_send | prepared]
     | left; eexists _, _; split; [reflexivity|]; split; [not_send | prepared] ..].
  assert (Hparse : snd (parse_options fuel (from DHCPFormatSize data) w)
                   = Val (Some opts)).
  { erewrite parse_options_result. rewrite Hr2. reflexivity. }
  destruct (handle_request_run e addr buf opts
              (relog (([(INFO, "Sender")] ++ ls1) ++ ls2) w))
    as [(w1 & r & -> & Hr & Hne & Hp) | (Hgate & Hrep)].
  - left. exists w1, (match r with Stop => Val tt | _ => r end).
    split; [by destruct r|]. split; [by destruct r|].
    eapply prepared_trans; [|exact Hp]. prepared.
  - change (request_locals buf opts (relog ?a w))
      with (request_locals buf opts w) in *.
    destruct Hrep as (w1 & addr' & h & ipaddr & ip & buf' & fixed & rest & extra
                      & Hp & H1 & H2 & H3 & H4 & H5 & H6 & H7 & H8 & Hx).
    match goal with
    | |- handled _ _ _ _ ?x =>
      replace x with (handle_send e addr' (request_locals buf opts w)
                        (fixed ++ rest) extra w1)
        by (rewrite Hx, handle_send_run; by destruct (sendto_ok _ _ _))
    end.
    right. exists buf, opts. repeat (split; [done|]).
    exists w1, addr', h, ipaddr, ip, buf', fixed, rest, extra.
    split; [eapply prepared_trans; [|exact Hp]; prepared|].
    done.
Qed.

(** ** Where the reply goes *)

Lemma unpack_DHCPFormat_GIADDR s buf :
  unpack_DHCPFormat s = Some buf -> List.length (BOOTP_GIADDR buf) = 4.
Proof.
  unfold unpack_DHCPFormat.
  destruct (Nat.eqb_spec (List.length s) DHCPFormatSize) as [E|E]; [|done].
  intros [= <-]. cbn [BOOTP_GIADDR]. unfold slice, upto, from.
  rewrite length_firstn, length_skipn, E, DHCPFormatSize_eq. lia.
Qed.

Lemma truthy_length {A} (s : list A) : List.length s = 4 -> truthy (upto 4 s) = true.
Proof. by destruct s as [|? [|? [|? [|? [|? ?]]]]]. Qed.

Lemma upto_all {A} n (s : list A) : List.length s = n -> upto n s = s.
Proof. intros <-. apply firstn_all. Qed.

(** The destination of every reply is the relay-gateway field of the
    request at port 67, whatever the field holds: [gi_addr] is a four-byte
    string, which is true in [if gi_addr:]. *)
Lemma reply_dest_gateway addr s buf opts w :
  unpack_DHCPFormat s = Some buf ->
  reply_dest addr (request_locals buf opts w)
  = (dotted (BOOTP_GIADDR buf), 67%N).
Proof.
  intros Hbuf. apply unpack_DHCPFormat_GIADDR in Hbuf.
  unfold reply_dest, request_locals. cbn [gi_addr gi_str].
  rewrite truthy_length by done. by rewrite upto_all.
Qed.

(** X16: every reply goes to the relay-gateway field of the request, read as a
    dotted quad, at port 67, whatever the field holds: [if gi_addr:] tests
    a string of four bytes, which is true also when the bytes are zero, so
    the destination computed from the netmask and the lease is never
    used. *)
Lemma handle_sends_to_gateway fuel e addr data w :
  sent (fst (handle fuel e addr data w)) = sent w \/
  exists buf pkt,
    unpack_DHCPFormat (upto DHCPFormatSize data) = Some buf /\
    sent (fst (handle fuel e addr data w))
    = sent w ++ [(pkt, (dotted (BOOTP_GIADDR buf), 67%N))].
Proof.
  destruct (handle_run fuel e addr data w)
    as [(w1 & r & -> & _ & Hp) | (buf & opts & Hbuf & Hop & Hparse & Hgate & Hrep)].
  - left. apply Hp.
  - destruct Hrep as (w1 & addr' & h & ipaddr & ip & buf' & fixed & rest & extra
                      & Hp & _ & _ & _ & _ & _ & _ & _ & _ & ->).
    rewrite handle_send_run.
    rewrite (reply_dest_gateway _ _ _ _ _ Hbuf).
    destruct (sendto_ok _ _ _).
    + right. exists buf, ((fixed ++ rest) ++ extra). split; [done|].
      cbn [fst]. unfold commit_state, record_sent, commit_uuid.
      destruct Hp as (_ & <- & _).
      by destruct (decide _), (pxe _).
    + left. cbn [fst]. unfold commit_uuid.
      destruct Hp as (_ & <- & _). by destruct (pxe _).
Qed.

(** C1 (the code departs from the claim): a PXE DISCOVER whose client
    address and relay-gateway fields are both zero.  The lease branch
    computes the broadcast address 10.0.0.255 for the reply, and the reply
    is sent to the gateway field, 0.0.0.0, at port 67. *)
Theorem zero_gateway_reply_sent_to_gateway :
  let request := pxe_request zero_address zero_address x01 "PXEClient:Arch:00000" in
  let x := handle 10 (sample_env None true) client_addr request empty_world in
  snd x = Val tt /\
  map snd (sent (fst x)) = [("0.0.0.0", 67%N)] /\
  (exists buf,
     unpack_DHCPFormat (upto DHCPFormatSize request) = Some buf /\
     BOOTP_GIADDR buf = zero_address /\
     exists w1 buf1 hd,
       handle_lease (sample_env None true) client_addr sample_locals
         (set_OP BOOTREPLY buf) empty_world
       = (w1, Val (buf1, ("10.0.0.255", 68%N), hd))).
Proof.
  cbv zeta. split; [by vm_compute|]. split; [by vm_compute|].
  eexists. split; [by vm_compute|]. split; [by vm_compute|].
  eexists _, _, _. by vm_compute.
Qed.

(** ** Requests with a client address *)

(** X17: no request with a non-zero client address is answered: nothing is
    sent, the UUID cache and every phase are as they were, and no lease
    has changed. *)
Lemma handle_nonzero_ciaddr_sends_nothing fuel e addr data w buf :
  unpack_DHCPFormat (upto DHCPFormatSize data) = Some buf ->
  BOOTP_CIADDR buf <> zero_address ->
  prepared w (fst (handle fuel e addr data w)).
Proof.
  intros Hbuf Hci.
  destruct (handle_run fuel e addr data w)
    as [(w1 & r & -> & _ & Hp) | (buf0 & opts & Hbuf0 & _ & _ & _ & Hrep)]; [done|].
  destruct Hrep as (w1 & addr' & h & ipaddr & ip & buf' & fixed & rest & extra
                    & _ & Hzero & _).
  congruence.
Qed.

(** C7 (the code departs from the claim): a PXE DISCOVER from a client that
    already has the address 10.0.0.9.  The [else] branch copies the client
    address to the offered address and binds nothing to [host_data]; the
    next statement reads [host_data], so [UnboundLocalError] leaves the
    handler and no reply is sent. *)
Theorem nonzero_client_address_raises :
  let request :=
    pxe_request [x0a; x00; x00; x09] zero_address x01 "PXEClient:Arch:00000" in
  let x := handle 10 (sample_env None true) client_addr request empty_world in
  snd x = Exc UnboundLocalError /\ sent (fst x) = [].
Proof. by vm_compute. Qed.

(** ** The PXE class id *)

Lemma find_from_ge c s i : (find_from c s i = -1 \/ i <= find_from c s i)%Z.
Proof.
  revert i. induction s as [|x s IH]; intros i; cbn [find_from]; [by left|].
  destruct (Byte.eqb x c); [right; lia|].
  destruct (IH (i + 1)%Z); [by left | right; lia].
Qed.

(** No colon: [find] is [-1] and the slice drops the last byte. *)
Lemma class_id_without_colon v :
  ~ In colon v ->
  upto_index (find colon v) v = upto (List.length v - 1) v.
Proof.
  intros Hv.
  assert (forall i, find_from colon v i = (-1)%Z) as Hfind.
  { induction v as [|x v IH]; intros i; cbn [find_from]; [done|].
    destruct (Byte.eqb x colon) eqn:E.
    - apply Byte.byte_dec_bl in E. destruct Hv. by left.
    - apply IH. intros H. apply Hv. by right. }
  unfold find, upto_index. rewrite Hfind.
  change (-1 <? 0)%Z with true. cbv iota. f_equal. lia.
Qed.

(** A colon: the slice is what precedes the first one. *)
Lemma class_id_with_colon a b :
  ~ In colon a ->
  upto_index (find colon (a ++ colon :: b)) (a ++ colon :: b) = a.
Proof.
  intros Ha.
  assert (forall i, find_from colon (a ++ colon :: b) i
                    = (i + Z.of_nat (List.length a))%Z) as Hfind.
  { induction a as [|x a IH]; intros i.
    - cbn [app find_from List.length]. change (Byte.eqb colon colon) with true.
      cbv iota. lia.
    - cbn [app find_from List.length].
      destruct (Byte.eqb x colon) eqn:E.
      + apply Byte.byte_dec_bl in E. destruct Ha. by left.
      + rewrite IH by (intros H; apply Ha; by right). lia. }
  unfold find, upto_index. rewrite Hfind.
  destruct (Z.ltb_spec (0 + Z.of_nat (List.length a)) 0) as [?|_]; [lia|].
  unfold upto. replace (Z.to_nat (0 + Z.of_nat (List.length a))) with (List.length a) by lia.
  by rewrite take_app_length.
Qed.

(** X18: a PXE reply is sent only for a request that carries options 97 and
    60. *)
Lemma pxe_reply_needs_class_and_uuid fuel e addr data w opts :
  snd (parse_options fuel (from DHCPFormatSize data) w) = Val (Some opts) ->
  request_pxe opts = true ->
  sent (fst (handle fuel e addr data w)) <> sent w ->
  is_Some (opts !! 97%N) /\ is_Some (opts !! 60%N).
Proof.
  intros Hopts Hpxe Hsent.
  destruct (handle_run fuel e addr data w)
    as [(w1 & r & Hx & _ & Hp) | (buf & opts0 & _ & _ & Hparse & _ & Hrep)].
  - destruct Hsent. rewrite Hx. apply Hp.
  - assert (opts0 = opts) as -> by congruence.
    destruct Hrep as (w1 & addr' & h & ipaddr & ip & buf' & fixed & rest & extra
                      & _ & _ & _ & _ & _ & _ & _ & _ & Hpx & _).
    cbn [request_locals pxe options] in Hpx. by rewrite Hpxe in Hpx.
Qed.

(** C10 (the code departs from the claim): a PXE DISCOVER with the class id
    [PXEClient], which has no colon.  [find] returns [-1], the slice
    [clientclass[:-1]] drops the last byte, and the reply echoes
    [PXEClien] in option 60. *)
Theorem class_id_without_colon_is_cut :
  let class_id := list_byte_of_string "PXEClient" in
  let request := pxe_request zero_address zero_address x01 "PXEClient" in
  let x := handle 10 (sample_env None true) client_addr request empty_world in
  find colon class_id = (-1)%Z /\
  upto_index (find colon class_id) class_id = list_byte_of_string "PXEClien" /\
  snd x = Val tt /\
  map (fun d => slice (DHCPFormatSize + 35 + 19) 10 (fst d)) (sent (fst x))
  = [[x3c; x08] ++ list_byte_of_string "PXEClien"].
Proof. by vm_compute. Qed.

(** ** What is committed, and when *)

Lemma app_one_neq {A} (l : list A) (a : A) : l ++ [a] <> l.
Proof.
  intros H. apply (f_equal (@List.length A)) in H.
  rewrite length_app in H. cbn in H. lia.
Qed.

Lemma sent_commit l d w :
  sent (commit_state l (record_sent d (commit_uuid l w))) = sent w ++ [d].
Proof.
  unfold commit_state, record_sent, commit_uuid.
  by destruct (decide _), (pxe l).
Qed.

Lemma phase_commit_uuid l w m : phase (commit_uuid l w) m = phase w m.
Proof. unfold commit_uuid. by destruct (pxe l). Qed.

Lemma phase_record_sent l d w m :
  phase (record_sent d (commit_uuid l w)) m = phase w m.
Proof. unfold record_sent, commit_uuid. by destruct (pxe l). Qed.

Lemma states_commit_state l w :
  currentstate l = phase w (mac_str l) ->
  forall m, phase (commit_state l w) m
            = if decide (m = mac_str l) then newstate l else phase w m.
Proof.
  intros Hcur m. unfold commit_state.
  destruct (decide (currentstate l <> newstate l)) as [Hne|Heq].
  - unfold phase. cbn [states].
    destruct (decide (m = mac_str l)) as [->|Hm].
    + by rewrite lookup_insert_eq.
    + by rewrite lookup_insert_ne.
  - destruct (decide (m = mac_str l)) as [->|Hm]; [|done].
    apply dec_stable in Heq. congruence.
Qed.

Lemma uuidpool_commit_state l w :
  uuidpool (commit_state l w) = uuidpool w.
Proof. unfold commit_state. by destruct (decide _). Qed.

(** Without a datagram sent, no stored phase has changed. *)
Lemma phase_kept_without_send fuel e addr data w :
  sent (fst (handle fuel e addr data w)) = sent w ->
  forall m, phase (fst (handle fuel e addr data w)) m = phase w m.
Proof.
  destruct (handle_run fuel e addr data w)
    as [(w1 & r & Hx & Hne & Hp) | (buf & opts & Hbuf & _ & Hparse & _ & Hrep)].
  - rewrite Hx. cbn [fst]. by destruct Hp as (_ & _ & Hph & _).
  - destruct Hrep as (w1 & addr' & h & ipaddr & ip & buf' & fixed & rest & extra
                      & Hp & _ & _ & _ & _ & _ & _ & _ & _ & ->).
    destruct Hp as (Hu & Hs & Hph & _).
    rewrite handle_send_run. destruct (sendto_ok _ _ _); cbn [fst snd].
    + rewrite sent_commit, Hs. intros H. by apply app_one_neq in H.
    + intros _ m. by rewrite phase_commit_uuid.
Qed.




(** ** Leases *)

Lemma pack_b_length v l : pack_b v = Some l -> List.length l = 1.
Proof. unfold pack_b. destruct (_ && _); [|done]. by intros [= <-]. Qed.

Lemma be_bytes_length n : forall v, List.length (be_bytes n v) = n.
Proof.
  induction n as [|n IH]; intros v; cbn [be_bytes]; [done|].
  rewrite length_app, IH. cbn. lia.
Qed.

Lemma pack_u_length n v l : pack_u n v = Some l -> List.length l = n.
Proof.
  unfold pack_u. destruct (_ && _); [|done]. intros [= <-].
  apply be_bytes_length.
Qed.

Lemma pack_s_length n s : List.length (pack_s n s) = n.
Proof.
  unfold pack_s, upto. rewrite length_app, length_firstn, repeat_length. lia.
Qed.

Lemma pack_s_exact n s : List.length s = n -> pack_s n s = s.
Proof.
  intros <-. unfold pack_s, upto.
  by rewrite firstn_all, Nat.sub_diag, app_nil_r.
Qed.

(** The offered address is at offset 16 of the packed record. *)
Lemma pack_DHCPFormat_YIADDR b fixed rest :
  pack_DHCPFormat b = Some fixed ->
  slice 16 4 (fixed ++ rest) = pack_s 4 (BOOTP_YIADDR b).
Proof.
  unfold pack_DHCPFormat. intros H.
  destruct (pack_b (BOOTP_OP b)) as [op|] eqn:E1; [|done].
  destruct (pack_b (BOOTP_HTYPE b)) as [htype|] eqn:E2; [|done].
  destruct (pack_b (BOOTP_HLEN b)) as [hlen|] eqn:E3; [|done].
  destruct (pack_b (BOOTP_HOPS b)) as [hops|] eqn:E4; [|done].
  destruct (pack_u 4 (BOOTP_XID b)) as [xid|] eqn:E5; [|done].
  destruct (pack_u 2 (BOOTP_SECS b)) as [secs|] eqn:E6; [|done].
  destruct (pack_u 2 (BOOTP_FLAGS b)) as [flags|] eqn:E7; [|done].
  cbn in H. injection H as <-.
  apply pack_b_length in E1, E2, E3, E4. apply pack_u_length in E5, E6, E7.
  pose proof (pack_s_length 4 (BOOTP_CIADDR b)) as E8.
  pose proof (pack_s_length 4 (BOOTP_YIADDR b)) as E9.
  unfold slice, upto, from. rewrite <- !app_assoc.
  do 8 (rewrite drop_app_ge by lia;
        match goal with
        | |- context [drop ?n _] =>
          let n' := eval cbn in n in
          first [ rewrite E1 | rewrite E2 | rewrite E3 | rewrite E4
                | rewrite E5 | rewrite E6 | rewrite E7 | rewrite E8 ]
        end; cbn [Nat.sub]).
  rewrite drop_0. by rewrite take_app_length' by done.
Qed.

Lemma inet_aton_parts_length dots :
  forall cp parts s,
    List.length parts + dots = 3 ->
    inet_aton_parts dots cp parts = Some s -> List.length s = 4.
Proof.
  induction dots as [|dots IH]; intros cp parts s Hn;
    (destruct cp as [|c cp0]; cbn [inet_aton_parts]; [done|]);
    (destruct (negb (is_digit c)); [done|]);
    destruct (strtoul (String c cp0)) as [val rest];
    (destruct (4294967295 <? val)%N; [done|]).
  - destruct rest as [|c' rest'];
      [|destruct (Ascii.eqb_spec c' ".") as [->|Hc]; [done|]; destruct c' as [[] [] [] [] [] [] [] []]; try done];
      (destruct (negb _); [done|]);
      (destruct (_ <? _)%N; [done|]);
      intros [= <-]; rewrite length_app, length_map, be_bytes_length; lia.
  - destruct rest as [|c' rest'];
      [|destruct (Ascii.eqb_spec c' ".") as [->|Hc];
        [destruct (255 <? val)%N; [done|]; apply IH; rewrite length_app; cbn; lia|];
        destruct c' as [[] [] [] [] [] [] [] []]; try done];
      (destruct (negb _); [done|]);
      (destruct (_ <? _)%N; [done|]);
      intros [= <-]; rewrite length_app, length_map, be_bytes_length; lia.
Qed.

Lemma inet_aton_length ip s : inet_aton ip = Some s -> List.length s = 4.
Proof.
  unfold inet_aton. destruct (has_nul ip); [done|].
  by apply inet_aton_parts_length.
Qed.

(** C6, the counterexample: two PXE DISCOVERs in a row from the same
    client.  The lease recorded at the first is used at the second, and the
    resolver has been called at both. *)
Lemma resolver_called_at_each_request :
  let request := pxe_request zero_address zero_address x01 "PXEClient:Arch:00000" in
  let x1 := handle 10 (sample_env None true) client_addr request empty_world in
  let x2 := handle 10 (sample_env None true) client_addr request (fst x1) in
  ippool (fst x1) !! sample_mac_str = Some "10.0.0.42" /\
  resolved (fst x1) = ["node1.example.org"] /\
  snd x2 = Val tt /\
  resolved (fst x2) = ["node1.example.org"; "node1.example.org"].
Proof. by vm_compute. Qed.

(** ** The session state machine *)

Lemma next_state_table s pxe_mode msg_type :
  next_state s pxe_mode msg_type = transition_table s pxe_mode msg_type.
Proof.
  destruct s, pxe_mode, msg_type as [[|[[[]|[]|]|[[]|[]|]|]]|]; reflexivity.
Qed.

(** C2: a MAC without entry is idle; [newstate] is the entry of the
    transition table; the stored phase of a client changes only when a
    reply to its request has been sent, and then it is the table's entry
    for its phase before, the PXE mode and the message type of the
    request; the phase of every other MAC stays. *)
Theorem phase_follows_table fuel e addr data w :
  let x := handle fuel e addr data w in
  (forall mac, states w !! mac = None -> phase w mac = ST_IDLE) /\
  (forall s pxe_mode msg_type,
     next_state s pxe_mode msg_type = transition_table s pxe_mode msg_type) /\
  (sent (fst x) = sent w -> forall mac, phase (fst x) mac = phase w mac) /\
  (sent (fst x) <> sent w ->
   exists buf opts,
     unpack_DHCPFormat (upto DHCPFormatSize data) = Some buf /\
     snd (parse_options fuel (from DHCPFormatSize data) w) = Val (Some opts) /\
     forall mac,
       phase (fst x) mac
       = if decide (mac = request_mac_str buf)
         then transition_table (phase w mac) (request_pxe opts)
                (request_msg_type opts)
         else phase w mac).
Proof.
  cbv zeta.
  split; [intros mac H; unfold phase; by rewrite H|].
  split; [apply next_state_table|].
  split; [apply phase_kept_without_send|].
  destruct (handle_run fuel e addr data w)
    as [(w1 & r & Hx & Hne & Hp) | (buf & opts & Hbuf & _ & Hparse & _ & Hrep)].
  - rewrite Hx. cbn [fst]. destruct Hp as (_ & Hs & _). by intros H.
  - destruct Hrep as (w1 & addr' & h & ipaddr & ip & buf' & fixed & rest & extra
                      & Hp & _ & _ & _ & _ & _ & _ & _ & _ & ->).
    destruct Hp as (Hu & Hs & Hph & _).
    rewrite handle_send_run. destruct (sendto_ok _ _ _); cbn [fst snd].
    + intros _. exists buf, opts. split; [done|]. split; [done|].
      intros mac. rewrite states_commit_state.
      * cbn [request_locals mac_str newstate].
        destruct (decide (mac = request_mac_str buf)) as [->|Hne'].
        -- apply next_state_table.
        -- by rewrite phase_record_sent.
      * cbn [request_locals mac_str currentstate].
        by rewrite phase_record_sent.
    + intros H. destruct H. unfold commit_uuid. by destruct (pxe _).
Qed.

(** The sample request with a message type followed by option 200, which
    is not in the table: it is dropped. *)
Lemma unknown_option_drops_request_witness :
  let hdr := sample_header x01 zero_address zero_address in
  let stream :=
    encode_options [(53%N, [x01])] ++ encode_option (200%N, [x01; x02]) ++ [xff] in
  (exists ls, parse_options 10 stream empty_world = (relog ls empty_world, Val None)) /\
  (exists ls, handle 10 (sample_env None true) client_addr (hdr ++ stream) empty_world
              = (relog ls empty_world, Val tt)) /\
  sent (fst (handle 10 (sample_env None true) client_addr (hdr ++ stream) empty_world))
  = sent empty_world.
Proof.
  apply (unknown_option_drops_request 10 (sample_env None true) client_addr
           (sample_header x01 zero_address zero_address)
           [(53%N, [x01])] 200%N [x01; x02] [xff] empty_world).
  - reflexivity.
  - repeat constructor; cbn; try lia. by eexists.
  - reflexivity.
  - lia.
  - cbn. lia.
  - cbn. lia.
Defined.

(** The sample PXE DISCOVER from a client that was never seen: its phase
    goes from idle to PXE. *)
Lemma phase_follows_table_witness :
  let request := pxe_request zero_address zero_address x01 "PXEClient:Arch:00000" in
  let x := handle 10 (sample_env None true) client_addr request empty_world in
  phase empty_world sample_mac_str = ST_IDLE /\
  phase (fst x) sample_mac_str = ST_PXE.
Proof.
  intros request x.
  destruct (phase_follows_table 10 (sample_env None true) client_addr request
              empty_world) as (Hnew & _ & _ & Hsent).
  split; [by apply Hnew|].
  destruct Hsent as (buf & opts & Hbuf & Hopts & Hphase).
  { vm_compute. discriminate. }
  vm_compute in Hbuf. injection Hbuf as <-.
  vm_compute in Hopts. injection Hopts as <-.
  etransitivity; [apply (Hphase sample_mac_str)|]. vm_compute. reflexivity.
Defined.

(** ** The idle test *)

Lemma touch_relog mac ls w : touch mac (relog ls w) = relog ls (touch mac w).
Proof.
  unfold touch. cbn [relog states]. by destruct (states w !! mac).
Qed.

(** [handle_request] up to the reply construction: the request stops at the
    idle test, or goes on to [handle_address] with the locals of the
    request, in a world that differs by log lines and the [setdefault]. *)
Lemma handle_request_gate e addr buf opts w :
  opts !! 53%N <> Some [] ->
  exists ls,
    handle_request e addr buf opts w
    = if decide (newstate (request_locals buf opts w) = ST_IDLE) then
        if simple_dhcp e then
          handle_address e addr (request_locals buf opts w) buf
            (relog (ls ++ [(INFO, "Request ignored (idle state)")])
               (touch (request_mac_str buf) w))
        else
          (relog (ls ++ [(INFO, "Request ignored (idle state)")])
             (touch (request_mac_str buf) w), Stop)
      else
        handle_address e addr (request_locals buf opts w) buf
          (relog ls (touch (request_mac_str buf) w)).
Proof.
  intros H53. unfold handle_request.
  assert (Htail : forall ls (up : option (list byte) * bool) mt,
    fst up = uuid (request_locals buf opts w) ->
    snd up = request_pxe opts -> mt = request_msg_type opts ->
    exists ls',
      bind (match fst up with
            | Some u => if truthy u then say INFO "UUID is" else ret tt
            | None => ret tt
            end)
        (fun _ =>
           bind (states_setdefault
                   (join ":" (map (fun x => fmt_02X (ord x))
                                  (upto 6 (BOOTP_CHADDR buf)))) ST_IDLE)
             (fun cur =>
                bind (if decide (next_state cur (snd up) mt = ST_IDLE) then
                        bind (say INFO "Request ignored (idle state)")
                          (fun _ =>
                             if negb match get_bootp_allow_simple_dhcp (config e) with
                                     | Some v => v && to_bool v
                                     | None => false
                                     end
                             then stop else ret tt)
                      else ret tt)
                  (fun _ =>
                     handle_address e addr
                       (Locals opts mt (upto 6 (BOOTP_CHADDR buf))
                          (upto 4 (BOOTP_GIADDR buf))
                          (join ":" (map (fun x => fmt_02X (ord x))
                                         (upto 6 (BOOTP_CHADDR buf))))
                          (dotted (upto 4 (BOOTP_GIADDR buf))) (fst up) (snd up)
                          cur (next_state cur (snd up) mt)) buf)))
        (relog ls w)
      = if decide (newstate (request_locals buf opts w) = ST_IDLE) then
          if simple_dhcp e then
            handle_address e addr (request_locals buf opts w) buf
              (relog (ls' ++ [(INFO, "Request ignored (idle state)")])
                 (touch (request_mac_str buf) w))
          else
            (relog (ls' ++ [(INFO, "Request ignored (idle state)")])
               (touch (request_mac_str buf) w), Stop)
        else
          handle_address e addr (request_locals buf opts w) buf
            (relog ls' (touch (request_mac_str buf) w))).
  { intros ls [uu px] mt Huu Hpx Hmt. cbn [fst snd] in *.
    fold (request_mac_str buf).
    assert (exists ls1,
              forall B (k : unit -> M B),
                bind (match uu with
                      | Some u => if truthy u then say INFO "UUID is" else ret tt
                      | None => ret tt
                      end) k (relog ls w) = k tt (relog (ls ++ ls1) w))
      as [ls1 Hlog].
    { destruct uu as [u|]; [destruct (truthy u)|].
      - exists [(INFO, "UUID is")]. intros B k. by rewrite bind_say, relog_relog.
      - exists []. intros B k. by rewrite bind_ret, app_nil_r.
      - exists []. intros B k. by rewrite bind_ret, app_nil_r. }
    rewrite Hlog. unfold bind at 1. rewrite states_setdefault_run, touch_relog.
    change (phase (relog ?a w)) with (phase w).
    exists (ls ++ ls1). subst uu px mt.
    change (newstate (request_locals buf opts w))
      with (next_state (phase w (request_mac_str buf)) (request_pxe opts)
              (request_msg_type opts)).
    destruct (decide (next_state _ _ _ = ST_IDLE)).
    - rewrite bind_assoc, bind_say, relog_relog. fold (simple_dhcp e).
      destruct (simple_dhcp e); cbn [negb]; [by rewrite bind_ret | by rewrite bind_stop].
    - by rewrite bind_ret. }
  destruct (opts !! 53%N) as [[|c v53]|] eqn:E53; [done| |];
    rewrite bind_ret, bind_say;
    (destruct (opts !! 97%N) as [v|] eqn:E97;
      [destruct (Nat.eqb (List.length v) 17) eqn:E17|]);
    [ rewrite bind_assoc, bind_say, bind_ret, relog_relog
    | rewrite bind_assoc, bind_get, bind_assoc, bind_say, bind_ret, relog_relog
    | rewrite bind_assoc, bind_get, bind_assoc, bind_say, bind_ret, relog_relog
    | rewrite bind_assoc, bind_say, bind_ret, relog_relog
    | rewrite bind_assoc, bind_get, bind_assoc, bind_say, bind_ret, relog_relog
    | rewrite bind_assoc, bind_get, bind_assoc, bind_say, bind_ret, relog_relog ];
    apply Htail;
    unfold request_locals, request_pxe, request_msg_type; cbn [uuid fst snd];
    rewrite ?E97, ?E17, ?E53; reflexivity.
Qed.

(** ** Ranges *)

Lemma ord_bound b : (ord b < 256)%N.
Proof. unfold ord. pose proof (Byte.to_N_bounded b). lia. Qed.

Lemma be_value_bound s :
  (0 <= be_value s < 256 ^ Z.of_nat (List.length s))%Z.
Proof.
  unfold be_value.
  assert (forall acc n, (0 <= n)%Z -> (0 <= acc < 256 ^ n)%Z ->
            (0 <= fold_left (fun a b => (a * 256 + Z.of_N (ord b))%Z) s acc
             < 256 ^ (n + Z.of_nat (List.length s)))%Z) as H.
  { induction s as [|b s IH]; intros acc n Hn Hacc; cbn [fold_left List.length].
    - by rewrite Z.add_0_r.
    - replace (n + Z.of_nat (S (List.length s)))%Z
        with ((n + 1) + Z.of_nat (List.length s))%Z by lia.
      apply IH; [lia|]. rewrite Z.pow_add_r by lia.
      pose proof (ord_bound b). lia. }
  apply (H 0%Z 0%Z); [lia|]. cbn. lia.
Qed.

Lemma lt_pow2_log2 a n : (0 < n)%Z -> (0 <= a < 2 ^ n)%Z -> (Z.log2 a < n)%Z.
Proof.
  intros Hn [H0 Ha]. destruct (Z.eq_dec a 0%Z) as [->|Hne]; [by cbn|].
  apply Z.log2_lt_pow2; lia.
Qed.

Lemma log2_lt_pow2' a n : (0 < n)%Z -> (0 <= a)%Z -> (Z.log2 a < n)%Z -> (a < 2 ^ n)%Z.
Proof.
  intros Hn H0 Ha. destruct (Z.eq_dec a 0%Z) as [->|Hne].
  - apply Z.pow_pos_nonneg; lia.
  - apply Z.log2_lt_pow2; lia.
Qed.

(** The broadcast address computed by [handle] is a 32-bit number. *)
Lemma broadcast_bound ip mask :
  (0 <= ip < 2 ^ 32)%Z -> (0 <= mask < 2 ^ 32)%Z ->
  (0 <= Z.lor (Z.land ip mask) (Z.land (Z.lnot mask) (Z.shiftl 1 32 - 1))
   < 2 ^ 32)%Z.
Proof.
  intros Hip Hmask.
  change (Z.shiftl 1 32 - 1)%Z with (Z.ones 32).
  rewrite Z.land_ones by lia.
  pose proof (Z.mod_pos_bound (Z.lnot mask) (2 ^ 32)) as Hb.
  assert (0 <= Z.land ip mask)%Z as Ha0 by (apply Z.land_nonneg; lia).
  assert (Z.log2 (Z.land ip mask) < 32)%Z as Ha.
  { pose proof (Z.log2_land ip mask). pose proof (lt_pow2_log2 ip 32).
    lia. }
  split; [apply Z.lor_nonneg; lia|].
  apply log2_lt_pow2'; [lia | apply Z.lor_nonneg; lia |].
  rewrite Z.log2_lor by lia.
  pose proof (lt_pow2_log2 (Z.lnot mask mod 2 ^ 32) 32). lia.
Qed.

Lemma iptoint_bound ip v : iptoint ip = Some v -> (0 <= v < 2 ^ 32)%Z.
Proof.
  unfold iptoint. destruct (inet_aton ip) as [s|] eqn:E; [|done].
  intros [= <-]. apply inet_aton_length in E.
  pose proof (be_value_bound s) as H. rewrite E in H. exact H.
Qed.

Lemma inttoip_Some v : (0 <= v < 2 ^ 32)%Z -> is_Some (inttoip v).
Proof.
  intros Hv. unfold inttoip, pack_u.
  assert ((0 <=? v) && (v <? 256 ^ Z.of_nat 4) = true)%Z as ->.
  { apply andb_true_iff. split; [apply Z.leb_le | apply Z.ltb_lt]; lia. }
  cbn [mbind option_bind]. unfold inet_ntoa.
  rewrite be_bytes_length. by eexists.
Qed.

Lemma pack_b_unpack_b b : pack_b (unpack_b b) = Some [b].
Proof. by destruct b. Qed.

(** ** Dotted-quad text *)

(** A number written by [fmt_d], then a dot. *)
Lemma inet_aton_parts_fmt_d b dots rest parts :
  inet_aton_parts (S dots) (String.append (fmt_d (ord b)) (String "." rest)) parts
  = inet_aton_parts dots rest (parts ++ [ord b]).
Proof. by destruct b. Qed.

(** A number written by [fmt_d] at the end, after three others. *)
Lemma inet_aton_parts_last d dots p1 p2 p3 :
  inet_aton_parts dots (fmt_d (ord d)) [p1; p2; p3]
  = Some [chr p1; chr p2; chr p3; d].
Proof. destruct dots; by destruct d. Qed.

Lemma has_nul_fmt_d b rest :
  has_nul (String.append (fmt_d (ord b)) rest) = has_nul rest.
Proof. by destruct b. Qed.

(** [inet_aton] reads back what [dotted] writes for four bytes. *)
Lemma inet_aton_dotted s : List.length s = 4 -> inet_aton (dotted s) = Some s.
Proof.
  destruct s as [|a [|b [|c [|d [|? ?]]]]]; try done. intros _.
  unfold inet_aton.
  change (dotted [a; b; c; d])
    with (String.append (fmt_d (ord a))
            (String "."
               (String.append (fmt_d (ord b))
                  (String "."
                     (String.append (fmt_d (ord c))
                        (String "." (fmt_d (ord d)))))))).
  assert (has_nul
            (String.append (fmt_d (ord a))
               (String "."
                  (String.append (fmt_d (ord b))
                     (String "."
                        (String.append (fmt_d (ord c))
                           (String "." (fmt_d (ord d)))))))) = false) as ->.
  { rewrite has_nul_fmt_d. cbn [has_nul N_of_ascii N.eqb orb].
    rewrite has_nul_fmt_d. cbn [has_nul N_of_ascii N.eqb orb].
    rewrite has_nul_fmt_d. cbn [has_nul N_of_ascii N.eqb orb].
    by destruct d. }
  rewrite !inet_aton_parts_fmt_d. cbn [app].
  rewrite inet_aton_parts_last. by rewrite !chr_ord.
Qed.

(** ** Packing the reply *)

Lemma unpack_DHCPFormat_CHADDR s buf :
  unpack_DHCPFormat s = Some buf -> List.length (BOOTP_CHADDR buf) = 16.
Proof.
  unfold unpack_DHCPFormat.
  destruct (Nat.eqb_spec (List.length s) DHCPFormatSize) as [E|E]; [|done].
  intros [= <-]. cbn [BOOTP_CHADDR]. unfold slice, upto, from.
  rewrite length_firstn, length_skipn, E, DHCPFormatSize_eq. lia.
Qed.

Lemma request_mac_str_truthy s buf :
  unpack_DHCPFormat s = Some buf -> truthy_text (request_mac_str buf) = true.
Proof.
  intros H%unpack_DHCPFormat_CHADDR. unfold request_mac_str.
  destruct (BOOTP_CHADDR buf) as [|c1 [|c2 [|c3 [|c4 [|c5 [|c6 rest]]]]]];
    try done; cbn in H; lia.
Qed.

Lemma pack_reply_type r :
  r = DHCP_OFFER \/ r = DHCP_ACK ->
  pack_Bs [Z.of_N DHCP_MSG; 1%Z; Z.of_N r] = Some [x35; x01; chr r].
Proof. by intros [-> | ->]. Qed.

Lemma inet_aton_hard_server : inet_aton "10.40.13.161" = Some hard_server.
Proof. reflexivity. Qed.

Lemma inet_aton_hard_mask : inet_aton "255.255.255.224" = Some hard_mask.
Proof. reflexivity. Qed.

Lemma pack_address_option tag (a : list byte) :
  tag = DHCP_SERVER \/ tag = DHCP_IP_MASK \/ tag = DHCP_IP_GATEWAY
  \/ tag = DHCP_IP_DNS ->
  List.length a = 4 ->
  (pack_Bs [Z.of_N tag; 4%Z] ≫= fun b => Some (b ++ pack_s 4 a))
  = Some ([chr tag; x04] ++ a).
Proof.
  intros Ht Ha. rewrite (pack_s_exact 4 a Ha).
  by destruct Ht as [-> | [-> | [-> | ->]]].
Qed.

Lemma pack_lease_time_option t :
  (0 <= t < 2 ^ 32)%Z ->
  (pack_Bs [Z.of_N DHCP_LEASE_TIME; 4%Z]
     ≫= fun b => pack_u 4 t ≫= fun t' => Some (b ++ t'))
  = Some ([x33; x04] ++ be_bytes 4 t).
Proof.
  intros Ht. unfold pack_u at 1.
  assert ((0 <=? t) && (t <? 256 ^ Z.of_nat 4) = true)%Z as ->.
  { apply andb_true_iff. split; [apply Z.leb_le | apply Z.ltb_lt]; lia. }
  reflexivity.
Qed.

(** The reply record built from a decoded request can be packed. *)
Lemma pack_reply_record s buf yiaddr siaddr giaddr sname file :
  unpack_DHCPFormat s = Some buf ->
  is_Some (pack_DHCPFormat
             (set_FILE file (set_SNAME sname (set_GIADDR giaddr
                (set_SIADDR siaddr (set_FLAGS BOOTP_FLAGS_NONE (set_SECS 0
                   (set_YIADDR yiaddr (set_OP BOOTREPLY buf))))))))).
Proof.
  unfold unpack_DHCPFormat.
  destruct (Nat.eqb_spec (List.length s) DHCPFormatSize) as [E|E]; [|done].
  intros [= <-]. unfold pack_DHCPFormat.
  cbn [set_FILE set_SNAME set_GIADDR set_SIADDR set_FLAGS set_SECS set_YIADDR
       set_OP BOOTP_OP BOOTP_HTYPE BOOTP_HLEN BOOTP_HOPS BOOTP_XID BOOTP_SECS
       BOOTP_FLAGS BOOTP_CIADDR BOOTP_YIADDR BOOTP_SIADDR BOOTP_GIADDR
       BOOTP_CHADDR BOOTP_SNAME BOOTP_FILE BOOTP_VEND].
  change (pack_b BOOTREPLY) with (Some [x02]).
  rewrite !pack_b_unpack_b.
  change (pack_u 2 0) with (Some [x00; x00]).
  change (pack_u 2 BOOTP_FLAGS_NONE) with (Some [x00; x00]).
  assert (is_Some (pack_u 4 (be_value (slice 4 4 s)))) as [xid ->].
  { unfold pack_u.
    pose proof (be_value_bound (slice 4 4 s)) as Hb.
    assert (List.length (slice 4 4 s) = 4) as Hl.
    { unfold slice, upto, from.
      rewrite length_firstn, length_skipn, E, DHCPFormatSize_eq. lia. }
    rewrite Hl in Hb.
    assert ((0 <=? be_value (slice 4 4 s))
            && (be_value (slice 4 4 s) <? 256 ^ Z.of_nat 4) = true)%Z as ->.
    { apply andb_true_iff. split; [apply Z.leb_le | apply Z.ltb_lt]; lia. }
    by eexists. }
  cbn [mbind option_bind]. by eexists.
Qed.

Lemma handle_reply_type_plain e addr l buf w t :
  dhcp_msg_type l = Some t -> t = DHCP_DISCOVER \/ t = DHCP_REQUEST ->
  exists ls,
    handle_reply_type e addr l buf w
    = handle_build e addr l buf (offer_or_ack t) (relog ls w).
Proof.
  intros Ht [-> | ->]; unfold handle_reply_type; rewrite Ht;
    cbv [DHCP_DISCOVER DHCP_REQUEST N.eqb Pos.eqb offer_or_ack];
    rewrite !bind_assoc, bind_say, bind_assoc, bind_say, bind_ret, relog_relog;
    by eexists.
Qed.

Lemma handle_gate fuel e addr hdr tail w buf opts :
  unpack_DHCPFormat hdr = Some buf -> BOOTP_OP buf = BOOTREQUEST ->
  snd (parse_options fuel tail w) = Val (Some opts) ->
  opts !! 53%N <> Some [] ->
  exists ls,
    handle_body fuel e addr (hdr ++ tail) w
    = if decide (newstate (request_locals buf opts w) = ST_IDLE) then
        if simple_dhcp e then
          handle_address e addr (request_locals buf opts w) buf
            (relog (ls ++ [(INFO, "Request ignored (idle state)")])
               (touch (request_mac_str buf) w))
        else
          (relog (ls ++ [(INFO, "Request ignored (idle state)")])
             (touch (request_mac_str buf) w), Stop)
      else
        handle_address e addr (request_locals buf opts w) buf
          (relog ls (touch (request_mac_str buf) w)).
Proof.
  intros Hbuf Hop Hparse H53.
  assert (Hlen : List.length hdr = DHCPFormatSize)
    by (apply unpack_DHCPFormat_length; by eexists).
  destruct (handle_body_split fuel e addr hdr tail w Hlen) as (buf0 & Hbuf0 & ->).
  assert (buf0 = buf) as -> by congruence.
  rewrite Hop. cbn [Z.eqb BOOTREQUEST Pos.eqb negb].
  destruct (bind_logs_only (parse_options fuel tail)
              (fun options =>
                 match options with
                 | None =>
                   bind (say WARN "Error in option parsing, ignore request")
                        (fun _ => stop)
                 | Some options => handle_request e addr buf options
                 end) (relog [(INFO, "Sender")] w)
              (logs_only_parse_options fuel tail))
    as (ls1 & r & Hr & _ & ->).
  assert (r = Val (Some opts)) as ->.
  { rewrite <- Hparse, (parse_options_result fuel tail w (relog [(INFO, "Sender")] w)).
    by rewrite Hr. }
  rewrite relog_relog.
  destruct (handle_request_gate e addr buf opts
              (relog ([(INFO, "Sender")] ++ ls1) w) H53) as [ls2 ->].
  change (request_locals buf opts (relog ?a w)) with (request_locals buf opts w).
  rewrite touch_relog, !relog_relog.
  exists (([(INFO, "Sender")] ++ ls1) ++ ls2).
  by rewrite <- !app_assoc.
Qed.


Lemma touch_pools mac w :
  uuidpool (touch mac w) = uuidpool w /\ ippool (touch mac w) = ippool w /\
  sent (touch mac w) = sent w /\ resolved (touch mac w) = resolved w.
Proof. unfold touch. by destruct (states w !! mac). Qed.

Lemma grant_pools mac ip w :
  uuidpool (grant mac ip w) = uuidpool w /\ states (grant mac ip w) = states w /\
  sent (grant mac ip w) = sent w.
Proof. unfold grant. by destruct (ippool w !! mac). Qed.

(** ** The shape of an option stream *)

Lemma ord_inj b c : ord b = ord c -> b = c.
Proof. intros H. rewrite <- (chr_ord b), <- (chr_ord c). by rewrite H. Qed.

Lemma encode_options_app os1 os2 :
  encode_options (os1 ++ os2) = encode_options os1 ++ encode_options os2.
Proof. unfold encode_options. apply flat_map_app. Qed.

Lemma encode_options_cons o os :
  encode_options (o :: os) = encode_option o ++ encode_options os.
Proof. reflexivity. Qed.

Lemma encode_options_length os :
  2 * List.length os <= List.length (encode_options os).
Proof.
  induction os as [|o os IH]; [cbn; lia|].
  rewrite encode_options_cons, length_app. unfold encode_option at 1.
  cbn [List.length]. lia.
Qed.

(** Every byte string is a run of stored options followed by one of the
    six endings. *)
Lemma stream_split n :
  forall tail, List.length tail <= n ->
    exists os r k, Forall stored_option os /\ tail = encode_options os ++ r
                   /\ stream_end r k.
Proof.
  induction n as [|n IH]; intros tail Hn.
  - destruct tail; [|cbn in Hn; lia].
    exists [], [], at_end_of_data.
    split; [constructor|]. split; [done | constructor].
  - destruct tail as [|t0 rest].
    { exists [], [], at_end_of_data.
      split; [constructor|]. split; [done | constructor]. }
    destruct (N.eq_dec (ord t0) 0%N) as [E0|E0].
    { exists [], (t0 :: rest), at_padding. split; [constructor|]. split; [done|].
      assert (t0 = x00) as -> by (by apply ord_inj). constructor. }
    destruct (N.eq_dec (ord t0) 255%N) as [E255|E255].
    { exists [], (t0 :: rest), at_end_marker. split; [constructor|]. split; [done|].
      assert (t0 = xff) as -> by (by apply ord_inj). constructor. }
    destruct rest as [|l0 body].
    { exists [], [t0], at_lone_tag.
      split; [constructor|]. split; [done|]. by constructor. }
    destruct (Nat.lt_ge_cases (List.length body) (N.to_nat (ord l0))) as [Hs|Hl].
    { exists [], (t0 :: l0 :: body), at_short_value.
      split; [constructor|]. split; [done|]. by constructor. }
    assert (Hv : List.length (upto (N.to_nat (ord l0)) body) = N.to_nat (ord l0)).
    { unfold upto. rewrite length_firstn. lia. }
    assert (Hl0 : chr (N.of_nat (List.length (upto (N.to_nat (ord l0)) body))) = l0).
    { rewrite Hv, N2Nat.id. apply chr_ord. }
    assert (Hsplit : t0 :: l0 :: body
                     = encode_option (ord t0, upto (N.to_nat (ord l0)) body)
                       ++ from (N.to_nat (ord l0)) body).
    { unfold encode_option. cbn [fst snd]. rewrite chr_ord, Hl0.
      cbn [app]. unfold upto, from. by rewrite firstn_skipn. }
    pose proof (ord_bound l0) as Hb.
    destruct (DHCP_OPTIONS !! ord t0) as [d|] eqn:Hk.
    + destruct (IH (from (N.to_nat (ord l0)) body)) as (os & r & k & Hos & Hr & He).
      { unfold from. rewrite length_skipn. cbn in Hn. lia. }
      exists ((ord t0, upto (N.to_nat (ord l0)) body) :: os), r, k.
      split; [|split; [|done]].
      * constructor; [|done]. unfold stored_option. cbn [fst snd].
        rewrite Hk, Hv. split; [by eexists|]. split; [done|]. split; [done|]. lia.
      * rewrite encode_options_cons, <- app_assoc, <- Hr. exact Hsplit.
    + exists [], (t0 :: l0 :: body), at_unknown_tag.
      split; [constructor|]. split; [done|].
      rewrite Hsplit. constructor; [done | apply ord_bound | rewrite Hv; lia].
Qed.

(** What one more turn of the loop does at each ending. *)
Lemma parse_options_loop_end fuel r k tags w :
  stream_end r k ->
  parse_options_loop (S fuel) r tags w
  = (relog (ending_log k) w, ending_result k tags).
Proof.
  intros He. destruct He as [|rest|rest|t H0 H255|t l v H0 H255 Hv|t v rest Hk Ht Hv];
    cbn [ending_log ending_result]; rewrite ?relog_nil.
  - reflexivity.
  - apply parse_options_loop_padding.
  - reflexivity.
  - apply N.eqb_neq in H0, H255.
    rewrite parse_options_loop_S. unfold parse_options_turn. by rewrite H0, H255.
  - apply N.eqb_neq in H0, H255.
    rewrite parse_options_loop_S. unfold parse_options_turn. rewrite H0, H255.
    assert (Nat.eqb (List.length (upto (N.to_nat (ord l)) v)) (N.to_nat (ord l))
            = false) as ->; [|done].
    apply Nat.eqb_neq. unfold upto. rewrite length_firstn. lia.
  - assert (t <> 0%N) as H0.
    { intros ->. destruct pad_is_known as [? E]. congruence. }
    assert (t <> 255%N) as H255.
    { intros ->. destruct end_is_known as [? E]. congruence. }
    by rewrite (parse_options_loop_step fuel t v rest tags w Ht H0 H255 Hv), Hk.
Qed.

(** The parser on a run of stored options followed by an ending. *)
Lemma parse_options_stream fuel os r k w :
  Forall stored_option os -> stream_end r k -> List.length os < fuel ->
  parse_options fuel (encode_options os ++ r) w
  = (relog ((DEBUG, "Parsing DHCP options")
            :: repeat (DEBUG, " option") (List.length os) ++ ending_log k) w,
     ending_result k (store_options os ∅)).
Proof.
  intros Hos He Hfuel.
  replace fuel with (List.length os + S (fuel - S (List.length os))) by lia.
  unfold parse_options, bind. rewrite say_relog.
  rewrite parse_options_loop_stored by done.
  rewrite (parse_options_loop_end _ r k) by done.
  by rewrite !relog_relog.
Qed.

(** Every byte string, with fuel for each of its bytes. *)
Lemma parse_options_classified fuel tail w :
  List.length tail < fuel ->
  exists os r k,
    Forall stored_option os /\ tail = encode_options os ++ r /\ stream_end r k /\
    parse_options fuel tail w
    = (relog ((DEBUG, "Parsing DHCP options")
              :: repeat (DEBUG, " option") (List.length os) ++ ending_log k) w,
       ending_result k (store_options os ∅)).
Proof.
  intros Hfuel.
  destruct (stream_split (List.length tail) tail) as (os & r & k & Hos & -> & He);
    [done|].
  exists os, r, k. split; [done|]. split; [done|]. split; [done|].
  apply parse_options_stream; [done | done |].
  pose proof (encode_options_length os). rewrite length_app in Hfuel. lia.
Qed.

Lemma stored_short fuel os (r : list byte) :
  List.length (encode_options os ++ r) < fuel -> List.length os < fuel.
Proof.
  pose proof (encode_options_length os). rewrite length_app. lia.
Qed.

Lemma ending_result_Some k tags m :
  ending_result k tags = Val (Some m) -> k = at_end_marker /\ m = tags.
Proof. destruct k; cbn; try done. by intros [= ->]. Qed.

Lemma ending_result_Hang k tags : ending_result k tags = Hang -> k = at_padding.
Proof. by destruct k. Qed.

Lemma ending_result_None k tags :
  ending_result k tags = Val None -> k = at_end_of_data \/ k = at_unknown_tag.
Proof. destruct k; cbn; try done; auto. Qed.

Lemma ending_result_Exc k tags x :
  ending_result k tags = Exc x ->
  (k = at_lone_tag /\ x = IndexError) \/ (k = at_short_value /\ x = struct_error).
Proof. destruct k; cbn; try done; intros [= <-]; auto. Qed.

Lemma store_options_snoc os o tags :
  store_options (os ++ [o]) tags = <[fst o := snd o]> (store_options os tags).
Proof. unfold store_options. by rewrite fold_left_app. Qed.

Lemma store_options_lookup os t :
  store_options os ∅ !! t = last_value t os.
Proof.
  induction os as [|o os IH] using rev_ind; [done|].
  rewrite store_options_snoc. unfold last_value.
  rewrite rev_app_distr. cbn [rev app List.find].
  destruct (N.eqb_spec (fst o) t) as [->|Hne].
  - by rewrite lookup_insert_eq.
  - rewrite lookup_insert_ne by done. exact IH.
Qed.

(** The head of [handle] on a request whose options the parser does not
    turn into a dictionary. *)
Lemma handle_unparsed fuel e addr hdr tail w buf r :
  unpack_DHCPFormat hdr = Some buf -> BOOTP_OP buf = BOOTREQUEST ->
  snd (parse_options fuel tail w) = r -> (forall m, r <> Val (Some m)) ->
  exists ls,
    handle fuel e addr (hdr ++ tail) w
    = (relog ls w,
       match r with
       | Val _ => Val tt
       | Exc x => Exc x
       | Stop => Val tt
       | Hang => Hang
       end).
Proof.
  intros Hbuf Hop Hr Hno.
  assert (Hlen : List.length hdr = DHCPFormatSize).
  { apply unpack_DHCPFormat_length. by eexists. }
  destruct (handle_body_split fuel e addr hdr tail w Hlen) as (buf' & Hbuf' & Hbody).
  assert (buf' = buf) as -> by congruence.
  unfold handle. rewrite Hbody, Hop. cbn [Z.eqb BOOTREQUEST Pos.eqb negb].
  unfold bind at 1.
  rewrite (parse_options_result fuel tail w (relog [(INFO, "Sender")] w)) in Hr.
  destruct (logs_only_parse_options fuel tail (relog [(INFO, "Sender")] w))
    as (ls & Hls & _).
  destruct (parse_options fuel tail (relog [(INFO, "Sender")] w)) as [w1 r1].
  cbn [fst snd] in Hr, Hls. subst w1 r1. rewrite relog_relog.
  destruct r as [[m|]|x| |].
  - by destruct (Hno m).
  - unfold bind. rewrite say_relog, relog_relog. unfold stop. by eexists.
  - by eexists.
  - by eexists.
  - by eexists.
Qed.

(** X1: [parse_options] returns a dictionary exactly on the streams made of
    stored options and the end marker, whatever follows the marker; the
    dictionary is the one these options fill. *)
Theorem parse_options_dictionary fuel tail w m :
  List.length tail < fuel ->
  snd (parse_options fuel tail w) = Val (Some m) <->
  exists os trailing,
    Forall stored_option os /\ tail = encode_options os ++ xff :: trailing /\
    m = store_options os ∅.
Proof.
  intros Hfuel. split.
  - destruct (parse_options_classified fuel tail w Hfuel)
      as (os & r & k & Hos & -> & He & ->).
    cbn [snd]. intros H. apply ending_result_Some in H as [-> ->].
    inversion He; subst. by exists os, rest.
  - intros (os & trailing & Hos & -> & ->).
    rewrite (parse_options_stream fuel os (xff :: trailing) at_end_marker);
      [done | done | constructor | by eapply stored_short].
Qed.

Lemma parse_options_dictionary_witness :
  snd (parse_options 10 (encode_options [(53%N, [x01]); (53%N, [x03])] ++ [xff; x07])
         empty_world)
  = Val (Some (store_options [(53%N, [x01]); (53%N, [x03])] ∅)).
Proof.
  apply (parse_options_dictionary 10); [cbn; lia|].
  exists [(53%N, [x01]); (53%N, [x03])], [x07].
  split; [|split; reflexivity].
  repeat constructor; cbn; try lia; by eexists.
Defined.

(** X2: in the dictionary returned for a terminated stream, a tag is bound to
    the value of its last occurrence before the end marker, and only the
    tags that occur are bound. *)
Theorem parse_options_last_value fuel os trailing w :
  Forall stored_option os -> List.length os < fuel ->
  exists ls m,
    parse_options fuel (encode_options os ++ xff :: trailing) w
    = (relog ls w, Val (Some m)) /\
    forall t, m !! t = last_value t os.
Proof.
  intros Hos Hfuel.
  rewrite (parse_options_stream fuel os (xff :: trailing) at_end_marker);
    [|done|constructor|done].
  eexists _, _. split; [reflexivity|]. apply store_options_lookup.
Qed.

Lemma parse_options_last_value_witness :
  exists ls m,
    parse_options 10 (encode_options [(53%N, [x01]); (53%N, [x03])] ++ [xff; x07])
      empty_world
    = (relog ls empty_world, Val (Some m)) /\
    m !! 53%N = Some [x03] /\ m !! 60%N = None.
Proof.
  destruct (parse_options_last_value 10 [(53%N, [x01]); (53%N, [x03])] [x07]
              empty_world) as (ls & m & H & Hm).
  - repeat constructor; cbn; try lia; by eexists.
  - cbn. lia.
  - exists ls, m. split; [exact H|]. split; apply Hm.
Defined.

(** X3: [parse_options] keeps running exactly when, after the options it has
    stored, the next tag is a padding byte. *)
Theorem parse_options_hangs_iff fuel tail w :
  List.length tail < fuel ->
  snd (parse_options fuel tail w) = Hang <->
  exists os rest,
    Forall stored_option os /\ tail = encode_options os ++ x00 :: rest.
Proof.
  intros Hfuel. split.
  - destruct (parse_options_classified fuel tail w Hfuel)
      as (os & r & k & Hos & -> & He & ->).
    cbn [snd]. intros H. apply ending_result_Hang in H as ->.
    inversion He; subst. by exists os, rest.
  - intros (os & rest & Hos & ->).
    rewrite (parse_options_stream fuel os (x00 :: rest) at_padding);
      [done | done | constructor | by eapply stored_short].
Qed.

Lemma parse_options_hangs_iff_witness :
  snd (parse_options 10 (encode_options [(53%N, [x01])] ++ [x00; xff]) empty_world)
  = Hang.
Proof.
  apply (parse_options_hangs_iff 10); [cbn; lia|].
  exists [(53%N, [x01])], [xff]. split; [|reflexivity].
  repeat constructor; cbn; try lia; by eexists.
Defined.

(** X4: [parse_options] returns [None] exactly when, after the options it has
    stored, the data end without end marker or a complete option has a tag
    outside the table. *)
Theorem parse_options_none_iff fuel tail w :
  List.length tail < fuel ->
  snd (parse_options fuel tail w) = Val None <->
  exists os,
    Forall stored_option os /\
    (tail = encode_options os \/
     exists t v rest,
       DHCP_OPTIONS !! t = None /\ (t < 256)%N /\ List.length v < 256 /\
       tail = encode_options os ++ encode_option (t, v) ++ rest).
Proof.
  intros Hfuel. split.
  - destruct (parse_options_classified fuel tail w Hfuel)
      as (os & r & k & Hos & -> & He & ->).
    cbn [snd]. intros H. exists os. split; [done|].
    apply ending_result_None in H as [-> | ->]; inversion He; subst.
    + left. by rewrite app_nil_r.
    + right. by exists t, v, rest.
  - intros (os & Hos & [-> | (t & v & rest & Hk & Ht & Hv & ->)]).
    + rewrite <- (app_nil_r (encode_options os)).
      rewrite <- (app_nil_r (encode_options os)) in Hfuel.
      rewrite (parse_options_stream fuel os [] at_end_of_data);
        [done | done | constructor | by eapply stored_short].
    + rewrite (parse_options_stream fuel os _ at_unknown_tag);
        [done | done | by constructor | by eapply stored_short].
Qed.

Lemma parse_options_none_iff_witness :
  snd (parse_options 10 (encode_options [(53%N, [x01])]) empty_world) = Val None.
Proof.
  apply (parse_options_none_iff 10); [cbn; lia|].
  exists [(53%N, [x01])]. split; [|by left].
  repeat constructor; cbn; try lia; by eexists.
Defined.

(** X6: a datagram that has the fixed record and an option area of stored
    options without end marker: [handle] returns having done nothing but
    log. *)
Theorem handle_missing_end_marker fuel e addr hdr os w :
  List.length hdr = DHCPFormatSize -> Forall stored_option os ->
  List.length os < fuel ->
  exists ls,
    handle fuel e addr (hdr ++ encode_options os) w = (relog ls w, Val tt).
Proof.
  intros Hlen Hos Hfuel.
  destruct (proj2 (unpack_DHCPFormat_length hdr) Hlen) as [buf Hbuf].
  destruct (Z.eq_dec (BOOTP_OP buf) BOOTREQUEST) as [Hop|Hop].
  - destruct (handle_unparsed fuel e addr hdr (encode_options os) w buf (Val None)
                Hbuf Hop) as [ls Hls]; [|done|by exists ls].
    rewrite <- (app_nil_r (encode_options os)).
    by rewrite (parse_options_stream fuel os [] at_end_of_data);
      [| | constructor |].
  - destruct (handle_body_split fuel e addr hdr (encode_options os) w Hlen)
      as (buf' & Hbuf' & Hbody).
    assert (buf' = buf) as -> by congruence.
    unfold handle. rewrite Hbody.
    apply Z.eqb_neq in Hop. rewrite Hop. cbn [negb]. by eexists.
Qed.

Lemma handle_missing_end_marker_witness :
  exists ls,
    handle 10 (sample_env None true) client_addr
      (sample_header x01 zero_address zero_address
       ++ encode_options (pxe_options x01 "PXEClient:Arch:00000")) empty_world
    = (relog ls empty_world, Val tt).
Proof.
  apply (handle_missing_end_marker 10).
  - reflexivity.
  - repeat constructor; cbn; try lia; by eexists.
  - cbn. lia.
Defined.

(** X5: [parse_options] raises exactly when, after the options it has stored,
    a tag is the last byte ([IndexError]) or the value of an option is
    shorter than its length byte says ([struct.error]). *)
Theorem parse_options_raises_iff fuel tail w x :
  List.length tail < fuel ->
  snd (parse_options fuel tail w) = Exc x <->
  exists os,
    Forall stored_option os /\
    ((x = IndexError /\
      exists t, ord t <> 0%N /\ ord t <> 255%N /\ tail = encode_options os ++ [t])
     \/
     (x = struct_error /\
      exists t l v, ord t <> 0%N /\ ord t <> 255%N /\
                    List.length v < N.to_nat (ord l) /\
                    tail = encode_options os ++ t :: l :: v)).
Proof.
  intros Hfuel. split.
  - destruct (parse_options_classified fuel tail w Hfuel)
      as (os & r & k & Hos & -> & He & ->).
    cbn [snd]. intros H. exists os. split; [done|].
    apply ending_result_Exc in H as [[-> ->] | [-> ->]]; inversion He; subst.
    + left. split; [done|]. by exists t.
    + right. split; [done|]. by exists t, l, v.
  - intros (os & Hos & [[-> (t & H0 & H255 & ->)]
                       | [-> (t & l & v & H0 & H255 & Hv & ->)]]).
    + rewrite (parse_options_stream fuel os _ at_lone_tag);
        [done | done | by constructor | by eapply stored_short].
    + rewrite (parse_options_stream fuel os _ at_short_value);
        [done | done | by constructor | by eapply stored_short].
Qed.

Lemma parse_options_raises_iff_witness :
  snd (parse_options 10 (encode_options [(53%N, [x01])] ++ [x3c; x09; x50; x58])
         empty_world)
  = Exc struct_error.
Proof.
  apply (parse_options_raises_iff 10); [cbn; lia|].
  exists [(53%N, [x01])]. split.
  - repeat constructor; cbn; try lia; by eexists.
  - right. split; [reflexivity|].
    exists x3c, x09, [x50; x58].
    split; [discriminate|]. split; [discriminate|]. split; [cbn; lia | reflexivity].
Defined.

(** X7: a request whose option area is cut inside an option: the exception of
    the parser leaves [handle]; nothing but the log has changed. *)
Theorem handle_truncated_option fuel e addr hdr tail w buf x :
  unpack_DHCPFormat hdr = Some buf -> BOOTP_OP buf = BOOTREQUEST ->
  snd (parse_options fuel tail w) = Exc x ->
  exists ls, handle fuel e addr (hdr ++ tail) w = (relog ls w, Exc x).
Proof.
  intros Hbuf Hop Hx.
  by destruct (handle_unparsed fuel e addr hdr tail w buf (Exc x) Hbuf Hop Hx)
    as [ls Hls]; [|exists ls].
Qed.

Lemma handle_truncated_option_witness :
  exists ls,
    handle 10 (sample_env None true) client_addr
      (sample_header x01 zero_address zero_address
       ++ encode_options [(53%N, [x01])] ++ [x3c]) empty_world
    = (relog ls empty_world, Exc IndexError).
Proof.
  assert (exists buf, unpack_DHCPFormat (sample_header x01 zero_address zero_address)
                      = Some buf /\ BOOTP_OP buf = BOOTREQUEST)
    as (buf & Hbuf & Hop) by (eexists; split; vm_compute; reflexivity).
  apply (handle_truncated_option 10 _ _ _ _ _ buf IndexError Hbuf Hop).
  vm_compute. reflexivity.
Defined.

(** ** The reply in detail *)

Lemma build_pxe_options_result opts server w1 w2 :
  snd (build_pxe_options opts server w1) = snd (build_pxe_options opts server w2).
Proof.
  unfold build_pxe_options.
  destruct (opts !! 97%N) as [u|]; [|done].
  rewrite !bind_orraise. destruct (pack_tlv 97 u); [|done].
  destruct (opts !! 60%N) as [c|]; [|done].
  repeat (rewrite !bind_orraise;
          match goal with
          | |- context [match ?o with Some _ => _ | None => _ end] =>
            destruct o; [|done]
          end).
  done.
Qed.

Lemma dns_block_run e w :
  exists ls r,
    dns_block e hard_server w = (relog ls w, r) /\ r <> Exc send_error /\
    match r with
    | Val o6 => dns_option o6
    | Stop => False
    | _ => True
    end.
Proof.
  unfold dns_block.
  destruct (truthy_text (get_bootp_default_dns (config e))).
  2:{ exists [], (Val []). rewrite relog_nil. split; [done|]. split; [done|].
      by left. }
  assert (Htail : forall ls dns,
    exists ls' r,
      bind (orraise (inet_aton_exn dns) (inet_aton dns))
        (fun dns0 =>
           orraise struct_error
             (pack_Bs [Z.of_N DHCP_IP_DNS; 4%Z] ≫= fun b => Some (b ++ pack_s 4 dns0)))
        (relog ls w) = (relog ls' w, r) /\ r <> Exc send_error /\
      match r with
      | Val o6 => dns_option o6
      | Stop => False
      | _ => True
      end).
  { intros ls dns. rewrite bind_orraise.
    destruct (inet_aton dns) as [d|] eqn:Hd.
    - rewrite (pack_address_option DHCP_IP_DNS d) by (auto || by eapply inet_aton_length).
      eexists _, _. split; [reflexivity|]. split; [done|].
      right. exists d. split; [by eapply inet_aton_length | done].
    - eexists _, _. split; [reflexivity|]. split; [not_send | done]. }
  destruct (String.eqb (lower (get_bootp_default_dns (config e))) "auto").
  - rewrite bind_assoc. unfold get_dns_server.
    destruct (resolv_conf e) as [d|].
    + rewrite bind_assoc, bind_say, bind_ret.
      destruct (truthy_text d).
      * rewrite bind_ret. apply Htail.
      * change (orraise (socket_error inet_ntoa_call) (inet_ntoa hard_server))
          with (@ret string "10.40.13.161").
        rewrite bind_ret. apply Htail.
    + rewrite bind_assoc, bind_say, bind_ret.
      change (orraise (socket_error inet_ntoa_call) (inet_ntoa hard_server))
        with (@ret string "10.40.13.161").
      rewrite bind_ret. apply Htail.
  - rewrite bind_ret.
    pose proof (Htail [] (get_bootp_default_dns (config e))) as H.
    by rewrite relog_nil in H.
Qed.

Lemma pack_lease_time_inv t v :
  (pack_Bs [Z.of_N DHCP_LEASE_TIME; 4%Z]
     ≫= fun b => pack_u 4 t ≫= fun t' => Some (b ++ t')) = Some v ->
  (0 <= t < 2 ^ 32)%Z /\ v = [x33; x04] ++ be_bytes 4 t.
Proof.
  intros H.
  assert (Ht : (0 <= t < 2 ^ 32)%Z).
  { unfold pack_u in H at 1.
    destruct ((0 <=? t) && (t <? 256 ^ Z.of_nat 4))%Z eqn:E.
    - apply andb_true_iff in E as [E1%Z.leb_le E2%Z.ltb_lt]. lia.
    - change (pack_Bs [Z.of_N DHCP_LEASE_TIME; 4%Z]) with (Some [x33; x04]) in H.
      done. }
  split; [done|]. rewrite (pack_lease_time_option t Ht) in H. congruence.
Qed.

Lemma handle_build_detail e addr l buf r w :
  r = DHCP_OFFER \/ r = DHCP_ACK ->
  quiet_end w (handle_build e addr l buf r w)
  \/ built e addr l buf r w (handle_build e addr l buf r w).
Proof.
  intros Hr.
  enough (forall ls,
             quiet_end w (handle_build e addr l buf r (relog ls w))
             \/ built e addr l buf r w (handle_build e addr l buf r (relog ls w)))
    as H by (specialize (H []); by rewrite relog_nil in H).
  intros ls. unfold handle_build.
  step_orraise. rename v into fixed.
  rewrite bind_orraise, (pack_reply_type r Hr).
  rewrite bind_orraise, inet_aton_hard_server.
  rewrite bind_orraise, (pack_address_option DHCP_SERVER hard_server) by auto.
  rewrite bind_orraise, inet_aton_hard_mask.
  rewrite bind_orraise, (pack_address_option DHCP_IP_MASK hard_mask) by auto.
  rewrite bind_orraise, (pack_address_option DHCP_IP_GATEWAY hard_server) by auto.
  fold (dns_block e hard_server).
  destruct (dns_block_run e (relog ls w)) as (ls1 & r1 & Hd & Hne & Ho6).
  assert (Hb : forall B (k : list byte -> M B),
             bind (dns_block e hard_server) k (relog ls w)
             = match r1 with
               | Val a => k a (relog (ls ++ ls1) w)
               | Exc x => (relog (ls ++ ls1) w, Exc x)
               | Stop => (relog (ls ++ ls1) w, Stop)
               | Hang => (relog (ls ++ ls1) w, Hang)
               end).
  { intros B k. unfold bind. rewrite Hd, relog_relog. by destruct r1. }
  rewrite Hb. clear Hb.
  destruct r1 as [o6| | |]; [| quiet | done | quiet].
  step_orraise.
  match goal with H : _ = Some v |- _ => apply pack_lease_time_inv in H as [Ht ->] end.
  rewrite bind_orraise.
  change (pack_Bs [Z.of_N DHCP_END; 0%Z]) with (Some [xff; x00]).
  destruct (pxe l) eqn:Hpxe.
  - rewrite bind_assoc.
    match goal with
    | |- context [bind ?m ?k ?w0] =>
      destruct (bind_logs_only m k w0) as (ls2 & r2 & Hr2 & Hne2 & ->); [logs_only|]
    end.
    rewrite relog_relog.
    destruct r2 as [[x|]| | |]; [|quiet..].
    destruct x as [|x0 x]; [quiet|]. cbn [truthy negb].
    rewrite bind_ret. right.
    exists ((ls ++ ls1) ++ ls2), fixed, o6, (x0 :: x).
    split; [done|]. split; [done|]. split; [done|]. rewrite Hpxe. split.
    + split; [|done].
      rewrite (build_pxe_options_result _ _ _ (relog (ls ++ ls1) w)).
      by rewrite Hr2.
    + unfold reply_options. rewrite <- !app_assoc. reflexivity.
  - unfold build_dhcp_options. cbn [truthy negb]. rewrite bind_ret. right.
    exists (ls ++ ls1), fixed, o6, []. rewrite Hpxe.
    split; [done|]. split; [done|]. split; [done|]. split; [done|].
    unfold reply_options. rewrite <- !app_assoc. reflexivity.
Qed.

Lemma quiet_end_relog ls w x : quiet_end (relog ls w) x -> quiet_end w x.
Proof.
  intros (ls' & r & -> & Hr). exists (ls ++ ls'), r. by rewrite relog_relog.
Qed.

Lemma built_relog e addr l buf r ls w x :
  built e addr l buf r (relog ls w) x -> built e addr l buf r w x.
Proof.
  intros (ls' & fixed & o6 & extra & H1 & H2 & H3 & H4 & ->).
  exists (ls ++ ls'), fixed, o6, extra. rewrite relog_relog.
  split; [done|]. split; [done|]. split; [done|]. split; [|done].
  destruct (pxe l); [|done].
  by rewrite (build_pxe_options_result _ _ w (relog ls w)).
Qed.

Lemma handle_reply_type_detail e addr l buf w :
  quiet_end w (handle_reply_type e addr l buf w)
  \/ exists t,
       dhcp_msg_type l = Some t /\ (t = DHCP_DISCOVER \/ t = DHCP_REQUEST) /\
       built e addr l buf (offer_or_ack t) w (handle_reply_type e addr l buf w).
Proof.
  destruct (dhcp_msg_type l) as [t|] eqn:Ht.
  2:{ unfold handle_reply_type. rewrite Ht, bind_say. quiet. }
  destruct (decide (t = DHCP_DISCOVER \/ t = DHCP_REQUEST)) as [Htt|Htt].
  - destruct (handle_reply_type_plain e addr l buf w t Ht Htt) as [ls ->].
    assert (Hoa : offer_or_ack t = DHCP_OFFER \/ offer_or_ack t = DHCP_ACK)
      by (destruct Htt as [-> | ->]; [by left | by right]).
    destruct (handle_build_detail e addr l buf (offer_or_ack t) (relog ls w) Hoa)
      as [Hq|Hb].
    + left. by eapply quiet_end_relog.
    + right. exists t. split; [done|]. split; [done|]. by eapply built_relog.
  - unfold handle_reply_type. rewrite Ht.
    destruct t as [|p]; [rewrite bind_say; quiet|].
    destruct (N.eqb_spec (N.pos p) DHCP_DISCOVER) as [E|_]; [by destruct Htt; left|].
    destruct (N.eqb_spec (N.pos p) DHCP_REQUEST) as [E|_]; [by destruct Htt; right|].
    destruct (N.pos p =? DHCP_RELEASE)%N;
      [rewrite bind_assoc, bind_say, bind_raise; quiet|].
    destruct (N.pos p =? DHCP_INFORM)%N;
      [rewrite bind_assoc, bind_say, bind_stop; quiet|].
    destruct (N.pos p =? DHCP_DECLINE)%N;
      [rewrite bind_assoc, bind_say, bind_stop; quiet|].
    rewrite bind_assoc, bind_say, bind_stop. quiet.
Qed.

(** [get_host_data_for_mac] returns host data only for a lease entry with
    a host name and a boot file whose host name resolves. *)
Lemma get_host_data_for_mac_Some e mac w hd :
  snd (get_host_data_for_mac e mac w) = Val (Some hd) ->
  exists hostname boot_file ipaddr,
    get_lease_for_mac (config e) mac
    = Some (Lease (Some hostname) (Some boot_file)) /\
    truthy_text hostname = true /\ gethostbyname e hostname = Some ipaddr /\
    hd = host_data_of hostname boot_file ipaddr.
Proof.
  unfold get_host_data_for_mac. rewrite bind_say.
  destruct (get_lease_for_mac (config e) mac) as [[[hostname|] bf]|]; [| |done].
  2:{ cbn [lease_hostname truthy_text negb]. by rewrite bind_say. }
  cbn [lease_hostname lease_boot_file].
  destruct (truthy_text hostname) eqn:Hh; cbn [negb]; [|by rewrite bind_say].
  rewrite bind_say, bind_resolve.
  destruct (gethostbyname e hostname) as [ipaddr|] eqn:Hip; [|by rewrite bind_say].
  rewrite bind_say. destruct bf as [boot_file|]; [|done].
  intros [= <-]. by exists hostname, boot_file, ipaddr.
Qed.

Lemma get_host_data_for_mac_result e mac w1 w2 :
  snd (get_host_data_for_mac e mac w1) = snd (get_host_data_for_mac e mac w2).
Proof.
  unfold get_host_data_for_mac. rewrite !bind_say.
  destruct (get_lease_for_mac (config e) mac) as [lease|]; [|done].
  destruct (negb _); [by rewrite !bind_say|].
  rewrite !bind_say, !bind_resolve.
  destruct (gethostbyname e _); [|by rewrite !bind_say].
  rewrite !bind_say. by destruct (lease_boot_file lease).
Qed.

(** The host data that [handle_lease] hands on are those of
    [get_host_data_for_mac]. *)
Lemma handle_lease_host_data e addr l buf w b a hd :
  snd (handle_lease e addr l buf w) = Val (b, a, hd) ->
  snd (get_host_data_for_mac e (mac_str l) w) = Val (Some hd).
Proof.
  unfold handle_lease. rewrite bind_say.
  rewrite (get_host_data_for_mac_result e (mac_str l) w
             (relog [(DEBUG, "Client needs its address")] w)).
  unfold bind at 1.
  destruct (get_host_data_for_mac e (mac_str l) _) as [w1 [[hd'|]| | |]];
    cbn [snd]; try done.
  rewrite bind_say.
  destruct (negb (truthy_text (hd_address hd'))); [by rewrite bind_say|].
  rewrite bind_get.
  assert (Htail : forall (m : M string) w2,
    snd (bind m (fun ip =>
           if negb (truthy_text ip)
           then bind (say ERROR "Can not find IP assigned to mac") (fun _ => stop)
           else
             bind (orraise (socket_error inet_aton_call) (iptoint (netconfig_mask e)))
               (fun mask0 =>
                bind (orraise (socket_error inet_aton_call) (iptoint ip))
                  (fun ipint =>
                   bind (orraise (inet_aton_exn ip) (inet_aton ip))
                     (fun yiaddr =>
                      bind (orraise struct_error
                              (inttoip (Z.lor (Z.land ipint mask0)
                                  (Z.land (Z.lnot mask0) (Z.shiftl 1 32 - 1)))))
                        (fun bcast =>
                         bind (say DEBUG "Reply to")
                           (fun _ =>
                            ret (set_FLAGS BOOTP_FLAGS_NONE
                                   (set_SECS 0 (set_YIADDR yiaddr buf)),
                                 (bcast, snd addr), hd'))))))) w2)
    = Val (b, a, hd) -> Val (Some hd') = Val (Some hd)).
  { intros m w2. unfold bind at 1. destruct (m w2) as [w3 [ip| | |]]; try done.
    destruct (negb (truthy_text ip)); [by rewrite bind_say|].
    do 4 (rewrite bind_orraise;
          match goal with
          | |- context [match ?o with Some _ => _ | None => _ end] =>
            destruct o; [|done]
          end).
    rewrite bind_say. by intros [= _ _ ->]. }
  apply Htail.
Qed.

Lemma reply_record_sets buf yiaddr siaddr sname file :
  set_FILE file (set_SNAME sname (set_GIADDR (BOOTP_GIADDR buf)
    (set_SIADDR siaddr (set_FLAGS BOOTP_FLAGS_NONE (set_SECS 0
       (set_YIADDR yiaddr (set_OP BOOTREPLY buf)))))))
  = reply_record buf yiaddr siaddr sname file.
Proof. reflexivity. Qed.

Lemma handle_address_detail e addr l s buf w :
  unpack_DHCPFormat s = Some buf ->
  gi_addr l = upto 4 (BOOTP_GIADDR buf) -> gi_str l = dotted (gi_addr l) ->
  dropped w (handle_address e addr l buf w)
  \/ answered e l buf w (handle_address e addr l buf w).
Proof.
  intros Hbuf Hgi Hgs.
  destruct (decide (BOOTP_CIADDR buf = zero_address)) as [Hci|Hci].
  2:{ destruct (handle_address_run e addr l buf w) as [Hd|Hr]; [by left|].
      destruct Hr as (? & ? & ? & ? & ? & ? & ? & ? & ? & _ & Hz & _). done. }
  assert (Hgl : List.length (BOOTP_GIADDR buf) = 4)
    by (by eapply unpack_DHCPFormat_GIADDR).
  assert (Hgi' : gi_addr l = BOOTP_GIADDR buf) by (by rewrite Hgi, upto_all).
  unfold handle_address. rewrite bind_say.
  change (BOOTP_CIADDR (set_OP BOOTREPLY buf)) with (BOOTP_CIADDR buf).
  destruct (decide (BOOTP_CIADDR buf = zero_address)) as [_|]; [|done].
  rewrite bind_assoc.
  pose proof (handle_lease_host_data e addr l (set_OP BOOTREPLY buf)
                (relog [(INFO, "Client IP")] w)) as Hhd.
  destruct (handle_lease_run e addr l (set_OP BOOTREPLY buf)
              (relog [(INFO, "Client IP")] w))
    as [(w1 & r & Hx & Hr & Hne & Hp)
       | (ls & h & ip & yi & bc & hd & Hx & Hh & Hip & Hyi)].
  - assert (Hb : forall B (k : _ -> M B),
               bind (handle_lease e addr l (set_OP BOOTREPLY buf)) k
                 (relog [(INFO, "Client IP")] w)
               = match r with
                 | Val a => k a w1
                 | Exc x => (w1, Exc x)
                 | Stop => (w1, Stop)
                 | Hang => (w1, Hang)
                 end).
    { intros B k. unfold bind. rewrite Hx. by destruct r. }
    rewrite Hb. clear Hb.
    assert (prepared w w1) by (eapply prepared_trans; [|exact Hp]; prepared).
    destruct r as [v| | |];
      [by destruct (Hr v)
      | left; eexists _, _; (split; [reflexivity|]); (split; [done|]);
        (split; [not_send|assumption]) ..].
  - rewrite Hx in Hhd. cbn [snd] in Hhd.
    specialize (Hhd _ _ _ eq_refl).
    rewrite (get_host_data_for_mac_result e (mac_str l) _ w) in Hhd.
    apply get_host_data_for_mac_Some in Hhd
      as (hostname & boot_file & ipaddr & Hlease & Hhost & Hres & ->).
    cbn [host_data_of hd_address] in Hip.
    change (ippool (relog [(INFO, "Client IP")] w)) with (ippool w) in Hip.
    assert (Hb : forall B (k : _ -> M B),
               bind (handle_lease e addr l (set_OP BOOTREPLY buf)) k
                 (relog [(INFO, "Client IP")] w)
               = k (set_FLAGS BOOTP_FLAGS_NONE
                      (set_SECS 0 (set_YIADDR yi (set_OP BOOTREPLY buf))),
                    (bc, snd addr), host_data_of hostname boot_file ipaddr)
                   (relog ls (grant (mac_str l) ip
                                (add_resolved h (relog [(INFO, "Client IP")] w))))).
    { intros B k. unfold bind. by rewrite Hx. }
    rewrite Hb. clear Hb.
    rewrite bind_ret. cbn [fst snd].
    set (W := grant (mac_str l) ip (add_resolved h (relog [(INFO, "Client IP")] w))).
    assert (HpW : prepared w W) by (apply prepared_grant; prepared).
    clearbody W.
    rewrite bind_orraise.
    destruct (inet_aton (netconfig_address e)) as [siaddr|] eqn:Hsi;
      [| left; eexists _, _; split; [reflexivity|]; split; [done|];
         split; [not_send | by prepared]].
    assert (truthy (gi_addr l) = true) as ->
      by (rewrite Hgi; by apply truthy_length).
    rewrite bind_assoc, bind_say, bind_assoc, bind_orraise, Hgs, Hgi',
      (inet_aton_dotted _ Hgl), bind_ret, relog_relog.
    cbn [hd_hostname hd_domain hd_boot_file host_data_of].
    fold (sname_of hostname). fold (file_of e boot_file).
    rewrite reply_record_sets.
    match goal with
    | |- context [handle_reply_type e ?a l ?b ?w0] =>
      destruct (handle_reply_type_detail e a l b w0) as [Hq | (t & Ht & Htt & Hb)]
    end.
    + left. destruct Hq as (ls2 & r & -> & Hr1 & Hr2).
      eexists _, _. split; [reflexivity|]. split; [done|].
      split; [not_send|]. by prepared.
    + right. destruct Hb as (ls2 & fixed & o6 & extra & H1 & H2 & H3 & H4 & ->).
      eexists _, (bc, snd addr), t, hostname, boot_file, ipaddr, yi, siaddr,
        fixed, o6, extra.
      split; [|split; [done|]; split; [done|]; split; [done|]; split; [done|];
               split; [by rewrite <- Hip|]; split; [done|]; split; [done|];
               split; [done|]; split; [done|]; split; [done|]; split; [done|];
               split; [|reflexivity]].
      * by prepared.
      * destruct (pxe l); [|done].
        by rewrite (build_pxe_options_result _ _ w
                      (relog (ls ++ [(DEBUG, "Reply via gateway")]) W)).
Qed.

Lemma dropped_from w w' x : prepared w w' -> dropped w' x -> dropped w x.
Proof.
  intros Hp (w1 & r & -> & Hr & Hne & Hp1).
  exists w1, r. split; [done|]. split; [done|]. split; [done|].
  by eapply prepared_trans.
Qed.

Lemma answered_from e l buf w w' x :
  prepared w w' -> ippool w' = ippool w ->
  answered e l buf w' x -> answered e l buf w x.
Proof.
  intros Hp Hi
    (w1 & addr' & t & hostname & boot_file & ipaddr & yiaddr & siaddr & fixed
     & o6 & extra & Hp1 & H1 & H2 & H3 & H4 & H5 & H6 & H7 & H8 & H9 & H10
     & H11 & H12 & ->).
  exists w1, addr', t, hostname, boot_file, ipaddr, yiaddr, siaddr, fixed, o6,
    extra.
  split; [by eapply prepared_trans|].
  rewrite <- Hi.
  repeat (split; [done|]). split; [|done].
  destruct (pxe l); [|done].
  by rewrite (build_pxe_options_result _ _ w w').
Qed.

Lemma touch_ippool mac w : ippool (touch mac w) = ippool w.
Proof. unfold touch. by destruct (states w !! mac). Qed.

Lemma handle_request_detail e addr s buf opts w :
  unpack_DHCPFormat s = Some buf ->
  dropped w (handle_request e addr buf opts w)
  \/ answered e (request_locals buf opts w) buf w
       (handle_request e addr buf opts w).
Proof.
  intros Hbuf.
  destruct (decide (opts !! 53%N = Some [])) as [E53|E53].
  { unfold handle_request. rewrite E53. drop. }
  destruct (handle_request_gate e addr buf opts w E53) as [ls ->].
  assert (Hgo : forall ls',
    dropped w (handle_address e addr (request_locals buf opts w) buf
                 (relog ls' (touch (request_mac_str buf) w)))
    \/ answered e (request_locals buf opts w) buf w
         (handle_address e addr (request_locals buf opts w) buf
            (relog ls' (touch (request_mac_str buf) w)))).
  { intros ls'.
    assert (Hp : prepared w (relog ls' (touch (request_mac_str buf) w)))
      by (apply prepared_relog, prepared_touch).
    destruct (handle_address_detail e addr (request_locals buf opts w) s buf
                (relog ls' (touch (request_mac_str buf) w)) Hbuf eq_refl eq_refl)
      as [Hd|Ha].
    - left. by eapply dropped_from.
    - right. eapply answered_from; [exact Hp| |exact Ha]. apply touch_ippool. }
  destruct (decide _); [destruct (simple_dhcp e)|]; [apply Hgo| |apply Hgo].
  left. eexists _, _. split; [reflexivity|]. split; [done|]. split; [done|].
  apply prepared_relog, prepared_touch.
Qed.

(** The head of [handle] on a request whose options are parsed. *)
Lemma handle_parsed fuel e addr hdr tail w buf opts :
  unpack_DHCPFormat hdr = Some buf -> BOOTP_OP buf = BOOTREQUEST ->
  snd (parse_options fuel tail w) = Val (Some opts) ->
  exists ls,
    handle_body fuel e addr (hdr ++ tail) w
    = handle_request e addr buf opts (relog ls w).
Proof.
  intros Hbuf Hop Hr.
  assert (Hlen : List.length hdr = DHCPFormatSize).
  { apply unpack_DHCPFormat_length. by eexists. }
  destruct (handle_body_split fuel e addr hdr tail w Hlen) as (buf' & Hbuf' & ->).
  assert (buf' = buf) as -> by congruence.
  rewrite Hop. cbn [Z.eqb BOOTREQUEST Pos.eqb negb].
  unfold bind at 1.
  rewrite (parse_options_result fuel tail w (relog [(INFO, "Sender")] w)) in Hr.
  destruct (logs_only_parse_options fuel tail (relog [(INFO, "Sender")] w))
    as (ls & Hls & _).
  destruct (parse_options fuel tail (relog [(INFO, "Sender")] w)) as [w1 r1].
  cbn [fst snd] in Hr, Hls. subst w1 r1. rewrite relog_relog. by eexists.
Qed.

(** Every call of [handle]: nothing is committed and nothing is sent, or
    the call ends in the commit-and-send step with a reply made as
    [answered] says. *)
Lemma handle_detail fuel e addr data w :
  (exists w1 r, handle fuel e addr data w = (w1, r) /\ r <> Exc send_error
                /\ prepared w w1)
  \/ (exists buf opts,
        unpack_DHCPFormat (upto DHCPFormatSize data) = Some buf /\
        BOOTP_OP buf = BOOTREQUEST /\
        snd (parse_options fuel (from DHCPFormatSize data) w) = Val (Some opts) /\
        answered e (request_locals buf opts w) buf w (handle fuel e addr data w)).
Proof.
  destruct (handle_run fuel e addr data w)
    as [H | (buf & opts & Hbuf & Hop & Hparse & _ & _)]; [by left|].
  destruct (handle_parsed fuel e addr _ _ w buf opts Hbuf Hop Hparse) as [ls Hbody].
  unfold upto, from in Hbody. rewrite firstn_skipn in Hbody.
  unfold handle. rewrite Hbody.
  destruct (handle_request_detail e addr _ buf opts (relog ls w) Hbuf)
    as [(w1 & r & -> & Hr & Hne & Hp) | Ha].
  - left. exists w1, (match r with Stop => Val tt | _ => r end).
    split; [by destruct r|]. split; [by destruct r|].
    eapply prepared_trans; [|exact Hp]. prepared.
  - right. exists buf, opts. repeat (split; [done|]).
    change (request_locals buf opts (relog ls w))
      with (request_locals buf opts w) in Ha.
    apply (answered_from e _ buf w (relog ls w)) in Ha; [|by prepared|done].
    destruct Ha as (w1 & addr' & t & hostname & boot_file & ipaddr & yiaddr
                    & siaddr & fixed & o6 & extra & Hrest).
    exists w1, addr', t, hostname, boot_file, ipaddr, yiaddr, siaddr, fixed, o6,
      extra.
    destruct Hrest as (H0 & H1 & H2 & H3 & H4 & H5 & H6 & H7 & H8 & H9 & H10
                       & H11 & H12 & ->).
    repeat (split; [done|]).
    rewrite handle_send_run. by destruct (sendto_ok _ _ _).
Qed.

(** ** The fixed record on the wire *)

Lemma be_value_snoc s b :
  be_value (s ++ [b]) = (be_value s * 256 + Z.of_N (ord b))%Z.
Proof. unfold be_value. by rewrite fold_left_app. Qed.

Lemma be_value_be_bytes n :
  forall v, (0 <= v < 256 ^ Z.of_nat n)%Z -> be_value (be_bytes n v) = v.
Proof.
  induction n as [|n IH]; intros v Hv.
  - cbn in *. lia.
  - cbn [be_bytes]. rewrite be_value_snoc.
    assert (Hm : (0 <= v mod 256 < 256)%Z) by (apply Z.mod_pos_bound; lia).
    rewrite ord_chr by lia. rewrite Z2N.id by lia.
    rewrite IH.
    + pose proof (Z.div_mod v 256). lia.
    + rewrite Nat2Z.inj_succ, Z.pow_succ_r in Hv by lia.
      split; [apply Z.div_pos; lia|]. apply Z.div_lt_upper_bound; lia.
Qed.

Lemma be_bytes_be_value s :
  be_bytes (List.length s) (be_value s) = s.
Proof.
  induction s as [|b s IH] using rev_ind; [done|].
  rewrite length_app, Nat.add_comm. cbn [List.length Nat.add be_bytes].
  rewrite be_value_snoc.
  pose proof (ord_bound b) as Hb.
  assert (((be_value s * 256 + Z.of_N (ord b)) / 256 = be_value s)%Z) as ->.
  { rewrite Z.add_comm, Z.div_add by lia. rewrite Z.div_small by lia. lia. }
  assert (((be_value s * 256 + Z.of_N (ord b)) mod 256 = Z.of_N (ord b))%Z) as ->.
  { rewrite Z.add_comm, Z.mod_add by lia. apply Z.mod_small. lia. }
  by rewrite IH, N2Z.id, chr_ord.
Qed.

Lemma pack_u_be_value n s :
  List.length s = n -> pack_u n (be_value s) = Some s.
Proof.
  intros <-. unfold pack_u. pose proof (be_value_bound s) as Hb.
  assert ((0 <=? be_value s) && (be_value s <? 256 ^ Z.of_nat (List.length s))
          = true)%Z as ->.
  { apply andb_true_iff. split; [apply Z.leb_le | apply Z.ltb_lt]; lia. }
  by rewrite be_bytes_be_value.
Qed.

Lemma pack_u_Some n v s :
  pack_u n v = Some s ->
  (0 <= v < 256 ^ Z.of_nat n)%Z /\ s = be_bytes n v.
Proof.
  unfold pack_u.
  destruct ((0 <=? v) && (v <? 256 ^ Z.of_nat n))%Z eqn:E; [|done].
  apply andb_true_iff in E as [E1%Z.leb_le E2%Z.ltb_lt]. by intros [= <-].
Qed.

Lemma pack_b_Some v s :
  pack_b v = Some s ->
  (-128 <= v <= 127)%Z /\ s = [chr (Z.to_N (v mod 256))].
Proof.
  unfold pack_b. destruct ((-128 <=? v) && (v <=? 127))%Z eqn:E; [|done].
  apply andb_true_iff in E as [E1%Z.leb_le E2%Z.leb_le]. by intros [= <-].
Qed.

Lemma unpack_b_chr v :
  (-128 <= v <= 127)%Z -> unpack_b (chr (Z.to_N (v mod 256))) = v.
Proof.
  intros Hv. unfold unpack_b.
  assert (Hm : (0 <= v mod 256 < 256)%Z) by (apply Z.mod_pos_bound; lia).
  rewrite ord_chr by lia. rewrite Z2N.id by lia.
  destruct (Z.ltb_spec (v mod 256) 128) as [H|H].
  - destruct (Z.le_gt_cases 0 v) as [H0|H0].
    + apply Z.mod_small. lia.
    + rewrite <- (Z.mod_add v 1 256) in H by lia.
      rewrite Z.mod_small in H by lia. lia.
  - destruct (Z.le_gt_cases 0 v) as [H0|H0].
    + rewrite Z.mod_small in H by lia. lia.
    + rewrite <- (Z.mod_add v 1 256) by lia.
      rewrite Z.mod_small by lia. lia.
Qed.

Lemma slice_length {A} i n (s : list A) :
  i + n <= List.length s -> List.length (slice i n s) = n.
Proof. intros H. unfold slice, upto, from. rewrite length_firstn, length_skipn. lia. Qed.

Lemma slice_from {A} i n (s : list A) :
  slice i n s ++ from (i + n) s = from i s.
Proof.
  unfold slice, upto, from. rewrite <- (firstn_skipn n (skipn i s)) at 2.
  f_equal. by rewrite skipn_skipn, Nat.add_comm.
Qed.

Lemma slice_one i (s : list byte) :
  i < List.length s -> [nth i s x00] = slice i 1 s.
Proof.
  revert i. induction s as [|a s IH]; intros i Hi; [cbn in Hi; lia|].
  destruct i as [|i]; [by destruct s|].
  cbn [nth]. rewrite IH by (cbn in Hi; lia). reflexivity.
Qed.

(** Decoding loses nothing: packing the decoded record gives the bytes
    back. *)
Lemma unpack_pack s b :
  unpack_DHCPFormat s = Some b -> pack_DHCPFormat b = Some s.
Proof.
  unfold unpack_DHCPFormat.
  destruct (Nat.eqb_spec (List.length s) DHCPFormatSize) as [E|E]; [|done].
  rewrite DHCPFormatSize_eq in E.
  intros [= <-]. unfold pack_DHCPFormat.
  cbn [BOOTP_OP BOOTP_HTYPE BOOTP_HLEN BOOTP_HOPS BOOTP_XID BOOTP_SECS
       BOOTP_FLAGS BOOTP_CIADDR BOOTP_YIADDR BOOTP_SIADDR BOOTP_GIADDR
       BOOTP_CHADDR BOOTP_SNAME BOOTP_FILE BOOTP_VEND].
  rewrite !pack_b_unpack_b.
  rewrite !pack_u_be_value by (apply slice_length; lia).
  rewrite !pack_s_exact by (apply slice_length; lia).
  cbn [mbind option_bind]. f_equal.
  rewrite !slice_one by lia.
  assert (slice 236 4 s = from 236 s) as ->.
  { rewrite <- (slice_from 236 4 s).
    unfold from at 1. rewrite skipn_all2 by (cbn; lia). by rewrite app_nil_r. }
  change 236 with (108 + 128). rewrite slice_from.
  change 108 with (44 + 64). rewrite slice_from.
  change 44 with (28 + 16). rewrite slice_from.
  change 28 with (24 + 4). rewrite slice_from.
  change 24 with (20 + 4). rewrite slice_from.
  change 20 with (16 + 4). rewrite slice_from.
  change 16 with (12 + 4). rewrite slice_from.
  change 12 with (10 + 2). rewrite slice_from.
  change 10 with (8 + 2). rewrite slice_from.
  change 8 with (4 + 4). rewrite slice_from.
  change 4 with (3 + 1). rewrite slice_from.
  change 3 with (2 + 1). rewrite slice_from.
  change 2 with (1 + 1). rewrite slice_from.
  change 1 with (0 + 1). rewrite slice_from.
  reflexivity.
Qed.

Lemma slice_piece (pre p post : list byte) i n :
  List.length pre = i -> List.length p = n -> slice i n (pre ++ p ++ post) = p.
Proof.
  intros <- <-. unfold slice, upto, from.
  rewrite drop_app_length. by rewrite take_app_length.
Qed.

Lemma slice_last (pre p : list byte) i n :
  List.length pre = i -> List.length p = n -> slice i n (pre ++ p) = p.
Proof.
  intros Hi Hn. rewrite <- (app_nil_r p) at 1. by apply slice_piece.
Qed.

(** Decoding a datagram given by its fifteen pieces. *)
Lemma unpack_pieces o0 o1 o2 o3 xid secs flags ci yi si gi ch sn fi ve :
  List.length xid = 4 -> List.length secs = 2 -> List.length flags = 2 ->
  List.length ci = 4 -> List.length yi = 4 -> List.length si = 4 ->
  List.length gi = 4 -> List.length ch = 16 -> List.length sn = 64 ->
  List.length fi = 128 -> List.length ve = 4 ->
  let s := [o0; o1; o2; o3] ++ xid ++ secs ++ flags ++ ci ++ yi ++ si ++ gi
           ++ ch ++ sn ++ fi ++ ve in
  List.length s = DHCPFormatSize /\
  unpack_DHCPFormat s
  = Some (Buf (unpack_b o0) (unpack_b o1) (unpack_b o2) (unpack_b o3)
              (be_value xid) (be_value secs) (be_value flags)
              ci yi si gi ch sn fi ve).
Proof.
  intros L5 L6 L7 L8 L9 L10 L11 L12 L13 L14 L15 s.
  assert (Hlen : List.length s = DHCPFormatSize).
  { unfold s.
    rewrite !length_app, L5, L6, L7, L8, L9, L10, L11, L12, L13, L14, L15.
    reflexivity. }
  split; [exact Hlen|].
  unfold unpack_DHCPFormat. rewrite Hlen, Nat.eqb_refl. f_equal.
  assert (H4 : slice 4 4 s = xid) by (by apply (slice_piece [o0; o1; o2; o3])).
  assert (H8 : slice 8 2 s = secs).
  { apply (slice_piece ([o0; o1; o2; o3] ++ xid) secs); [|done].
    rewrite length_app, L5. reflexivity. }
  assert (H10 : slice 10 2 s = flags).
  { unfold s. rewrite 2!app_assoc. apply slice_piece; [|done].
    rewrite !length_app, L5, L6. reflexivity. }
  assert (H12 : slice 12 4 s = ci).
  { unfold s. rewrite 3!app_assoc. apply slice_piece; [|done].
    rewrite !length_app, L5, L6, L7. reflexivity. }
  assert (H16 : slice 16 4 s = yi).
  { unfold s. rewrite 4!app_assoc. apply slice_piece; [|done].
    rewrite !length_app, L5, L6, L7, L8. reflexivity. }
  assert (H20 : slice 20 4 s = si).
  { unfold s. rewrite 5!app_assoc. apply slice_piece; [|done].
    rewrite !length_app, L5, L6, L7, L8, L9. reflexivity. }
  assert (H24 : slice 24 4 s = gi).
  { unfold s. rewrite 6!app_assoc. apply slice_piece; [|done].
    rewrite !length_app, L5, L6, L7, L8, L9, L10. reflexivity. }
  assert (H28 : slice 28 16 s = ch).
  { unfold s. rewrite 7!app_assoc. apply slice_piece; [|done].
    rewrite !length_app, L5, L6, L7, L8, L9, L10, L11. reflexivity. }
  assert (H44 : slice 44 64 s = sn).
  { unfold s. rewrite 8!app_assoc. apply slice_piece; [|done].
    rewrite !length_app, L5, L6, L7, L8, L9, L10, L11, L12. reflexivity. }
  assert (H108 : slice 108 128 s = fi).
  { unfold s. rewrite 9!app_assoc. apply slice_piece; [|done].
    rewrite !length_app, L5, L6, L7, L8, L9, L10, L11, L12, L13. reflexivity. }
  assert (H236 : slice 236 4 s = ve).
  { unfold s. rewrite 10!app_assoc. apply slice_last; [|done].
    rewrite !length_app, L5, L6, L7, L8, L9, L10, L11, L12, L13, L14.
    reflexivity. }
  rewrite H4, H8, H10, H12, H16, H20, H24, H28, H44, H108, H236.
  reflexivity.
Qed.

(** What is packed decodes to the record on the wire, and has the size of
    the format. *)
Lemma pack_unpack b s :
  pack_DHCPFormat b = Some s ->
  List.length s = DHCPFormatSize /\ unpack_DHCPFormat s = Some (on_wire b).
Proof.
  unfold pack_DHCPFormat. intros H.
  destruct (pack_b (BOOTP_OP b)) as [op|] eqn:E1; [|done].
  destruct (pack_b (BOOTP_HTYPE b)) as [htype|] eqn:E2; [|done].
  destruct (pack_b (BOOTP_HLEN b)) as [hlen|] eqn:E3; [|done].
  destruct (pack_b (BOOTP_HOPS b)) as [hops|] eqn:E4; [|done].
  destruct (pack_u 4 (BOOTP_XID b)) as [xid|] eqn:E5; [|done].
  destruct (pack_u 2 (BOOTP_SECS b)) as [secs|] eqn:E6; [|done].
  destruct (pack_u 2 (BOOTP_FLAGS b)) as [flags|] eqn:E7; [|done].
  cbn [mbind option_bind] in H. injection H as <-.
  apply pack_b_Some in E1 as [R1 ->], E2 as [R2 ->], E3 as [R3 ->], E4 as [R4 ->].
  apply pack_u_Some in E5 as [R5 ->], E6 as [R6 ->], E7 as [R7 ->].
  destruct (unpack_pieces
              (chr (Z.to_N (BOOTP_OP b mod 256)))
              (chr (Z.to_N (BOOTP_HTYPE b mod 256)))
              (chr (Z.to_N (BOOTP_HLEN b mod 256)))
              (chr (Z.to_N (BOOTP_HOPS b mod 256)))
              (be_bytes 4 (BOOTP_XID b)) (be_bytes 2 (BOOTP_SECS b))
              (be_bytes 2 (BOOTP_FLAGS b))
              (pack_s 4 (BOOTP_CIADDR b)) (pack_s 4 (BOOTP_YIADDR b))
              (pack_s 4 (BOOTP_SIADDR b)) (pack_s 4 (BOOTP_GIADDR b))
              (pack_s 16 (BOOTP_CHADDR b)) (pack_s 64 (BOOTP_SNAME b))
              (pack_s 128 (BOOTP_FILE b)) (pack_s 4 (BOOTP_VEND b)))
    as [Hlen Hun];
    try apply be_bytes_length; try apply pack_s_length.
  split; [exact Hlen|].
  etransitivity; [exact Hun|].
  rewrite !unpack_b_chr by done. rewrite !be_value_be_bytes by done.
  reflexivity.
Qed.

Lemma pack_u_1 n : n < 256 -> pack_u 1 (Z.of_nat n) = Some [chr (N.of_nat n)].
Proof.
  intros Hn. unfold pack_u.
  assert ((0 <=? Z.of_nat n) && (Z.of_nat n <? 256 ^ Z.of_nat 1) = true)%Z as ->.
  { apply andb_true_iff. split; [apply Z.leb_le | apply Z.ltb_lt]; lia. }
  cbn [be_bytes app]. rewrite Z.mod_small by lia.
  by rewrite <- nat_N_Z, N2Z.id.
Qed.

Lemma pack_tlv_encode tag v :
  (tag < 256)%N -> List.length v < 256 ->
  pack_tlv tag v = Some (encode_option (tag, v)).
Proof.
  intros Ht Hv. unfold pack_tlv.
  rewrite (pack_u_1 (List.length v) Hv).
  assert (pack_u 1 (Z.of_N tag) = Some [chr tag]) as ->.
  { rewrite <- (N2Nat.id tag), nat_N_Z. rewrite pack_u_1 by lia.
    by rewrite N2Nat.id. }
  reflexivity.
Qed.

Lemma upto_index_length {A} k (s : list A) :
  List.length (upto_index k s) <= List.length s.
Proof.
  unfold upto_index, upto. destruct (k <? 0)%Z; rewrite length_firstn; lia.
Qed.

(** [build_pxe_options] on a dictionary that has options 97 and 60. *)
Lemma build_pxe_options_stream opts uuid class_id server w :
  opts !! 97%N = Some uuid -> opts !! 60%N = Some class_id ->
  List.length uuid < 256 -> List.length class_id < 256 ->
  List.length server = 4 ->
  build_pxe_options opts server w
  = (w, Val (Some (pxe_stream uuid class_id server))).
Proof.
  intros H97 H60 Hu Hc Hs. unfold build_pxe_options. rewrite H97, H60.
  rewrite bind_orraise, (pack_tlv_encode 97 uuid) by (done || lia).
  rewrite bind_orraise, (pack_tlv_encode 60) by
    (done || (pose proof (upto_index_length (find colon class_id) class_id); lia)).
  rewrite bind_orraise.
  change (pack_Bs [Z.of_N PXE_DISCOVERY_CONTROL; 1%Z; 10%Z])
    with (Some [x06; x01; x0a]).
  cbv beta iota. rewrite bind_orraise.
  change (pack_Bs [Z.of_N PXE_BOOT_SERVERS; (2 + 1 + 4)%Z]) with (Some [x08; x07]).
  change (pack_u 2 0) with (Some [x00; x00]).
  change (pack_u 1 1) with (Some [x01]).
  cbn [mbind option_bind]. rewrite (pack_s_exact 4 server Hs).
  rewrite bind_orraise.
  change (pack_Bs [Z.of_N PXE_BOOT_MENU;
                   (2 + 1 + Z.of_nat (List.length (list_byte_of_string "Python")))%Z])
    with (Some [x09; x09]).
  change (pack_u 1 (Z.of_nat (List.length (list_byte_of_string "Python"))))
    with (Some [x06]).
  cbn [mbind option_bind].
  rewrite bind_orraise.
  change (pack_Bs [Z.of_N PXE_MENU_PROMPT;
                   (1 + Z.of_nat (List.length (list_byte_of_string "Stupid PXE")))%Z;
                   Z.of_nat (List.length (list_byte_of_string "Stupid PXE"))])
    with (Some [x0a; x0b; x0a]).
  cbn [mbind option_bind].
  rewrite bind_orraise, (pack_tlv_encode 43)
    by (done || (rewrite !length_app, Hs; cbn; lia)).
  rewrite bind_orraise.
  change (pack_Bs [255%Z; 0%Z; 0%Z]) with (Some [xff; x00; x00]).
  unfold ret, pxe_stream. do 3 f_equal.
  unfold encode_options at 1. cbn [flat_map]. rewrite app_nil_r, <- !app_assoc.
  do 3 f_equal.
  unfold vendor_options, encode_options, encode_option.
  cbn [flat_map fst snd app List.length]. rewrite !length_app, Hs.
  reflexivity.
Qed.

(** More fuel does not change what the parser returns. *)
Lemma parse_options_loop_more fuel :
  forall tail tags w,
    snd (parse_options_loop fuel tail tags w) <> Hang ->
    parse_options_loop (S fuel) tail tags w = parse_options_loop fuel tail tags w.
Proof.
  induction fuel as [|fuel IH]; intros tail tags w Hn; [done|].
  rewrite (parse_options_loop_S (S fuel)).
  rewrite parse_options_loop_S in Hn |- *.
  unfold parse_options_turn in *.
  destruct tail as [|t0 rest]; [done|].
  destruct (ord t0 =? 0)%N; [by apply IH|].
  destruct (ord t0 =? 255)%N; [done|].
  destruct rest as [|l0 body]; [done|].
  destruct (negb _); [done|].
  destruct (DHCP_OPTIONS !! ord t0); [|done].
  rewrite !bind_say in Hn |- *. by apply IH.
Qed.

Lemma parse_options_more fuel n tail w :
  snd (parse_options fuel tail w) <> Hang ->
  parse_options (n + fuel) tail w = parse_options fuel tail w.
Proof.
  intros Hn. unfold parse_options in *. rewrite !bind_say in Hn |- *.
  induction n as [|n IH]; [done|].
  cbn [Nat.add]. rewrite parse_options_loop_more; [done|]. by rewrite IH.
Qed.

(** A dictionary returned by the parser is that of a run of stored
    options, whatever the fuel. *)
Lemma parse_options_Some_stored fuel tail w m :
  snd (parse_options fuel tail w) = Val (Some m) ->
  exists os trailing,
    Forall stored_option os /\ tail = encode_options os ++ xff :: trailing /\
    m = store_options os ∅.
Proof.
  intros H.
  assert (Hm : snd (parse_options (S (List.length tail) + fuel) tail w)
               = Val (Some m)).
  { rewrite parse_options_more; [done|]. by rewrite H. }
  assert (Hf : List.length tail < S (List.length tail) + fuel) by lia.
  destruct (parse_options_classified _ tail w Hf)
    as (os & r & k & Hos & Ht & He & Hp).
  rewrite Hp in Hm. cbn [snd] in Hm.
  apply ending_result_Some in Hm as [-> ->]. inversion He; subst.
  by exists os, rest.
Qed.

Lemma last_value_In t os v : last_value t os = Some v -> In (t, v) os.
Proof.
  unfold last_value. destruct (List.find _ _) as [[t' v']|] eqn:E; [|done].
  intros [= <-]. apply find_some in E as [Hin Ht]. cbn [fst] in Ht.
  apply N.eqb_eq in Ht as ->. by apply in_rev.
Qed.

Lemma parsed_value fuel tail w m t v :
  snd (parse_options fuel tail w) = Val (Some m) -> m !! t = Some v ->
  stored_option (t, v).
Proof.
  intros (os & trailing & Hos & _ & ->)%parse_options_Some_stored Hv.
  rewrite store_options_lookup in Hv. apply last_value_In in Hv.
  by eapply (proj1 (List.Forall_forall _ _) Hos).
Qed.

(** The record decoded from a datagram is already as on the wire. *)
Lemma on_wire_unpacked s b : unpack_DHCPFormat s = Some b -> on_wire b = b.
Proof.
  intros H. pose proof (unpack_pack s b H) as Hp.
  apply pack_unpack in Hp as [_ Hu]. congruence.
Qed.

(** What an answered call leaves in [sent]. *)
Lemma answered_sent e l buf w x :
  answered e l buf w x ->
  sent (fst x) <> sent w ->
  exists t hostname boot_file ipaddr yiaddr siaddr fixed o6 extra_buf dest,
    get_lease_for_mac (config e) (mac_str l)
    = Some (Lease (Some hostname) (Some boot_file)) /\
    gethostbyname e hostname = Some ipaddr /\
    inet_aton (default ipaddr (ippool w !! mac_str l)) = Some yiaddr /\
    inet_aton (netconfig_address e) = Some siaddr /\
    dhcp_msg_type l = Some t /\ (t = DHCP_DISCOVER \/ t = DHCP_REQUEST) /\
    pack_DHCPFormat
      (reply_record buf yiaddr siaddr (sname_of hostname) (file_of e boot_file))
    = Some fixed /\
    dns_option o6 /\
    (if pxe l
     then snd (build_pxe_options (options l) hard_server w) = Val (Some extra_buf)
     else extra_buf = []) /\
    snd x = Val tt /\
    sent (fst x)
    = sent w ++ [((fixed ++ reply_options (offer_or_ack t) o6
                              (get_bootp_default_lease_time (config e)))
                  ++ extra_buf, dest)].
Proof.
  intros (w1 & addr' & t & hostname & boot_file & ipaddr & yiaddr & siaddr
          & fixed & o6 & extra & Hp & H1 & H2 & H3 & H4 & H5 & H6 & H7 & H8
          & H9 & H10 & H11 & H12 & ->) Hsent.
  destruct Hp as (_ & Hs & _).
  rewrite handle_send_run in Hsent |- *.
  destruct (sendto_ok _ _ _); cbn [fst snd] in *.
  2:{ destruct Hsent. unfold commit_uuid. by destruct (pxe l). }
  exists t, hostname, boot_file, ipaddr, yiaddr, siaddr, fixed, o6, extra,
    (reply_dest addr' l).
  repeat (split; [done|]).
  split; [destruct (pxe l); [by destruct H12 | done]|]. split; [done|].
  by rewrite sent_commit, Hs.
Qed.

(** Every call of [handle] that sends a datagram. *)
Lemma handle_sent fuel e addr data w :
  sent (fst (handle fuel e addr data w)) <> sent w ->
  exists buf opts,
    unpack_DHCPFormat (upto DHCPFormatSize data) = Some buf /\
    BOOTP_OP buf = BOOTREQUEST /\
    snd (parse_options fuel (from DHCPFormatSize data) w) = Val (Some opts) /\
    answered e (request_locals buf opts w) buf w (handle fuel e addr data w).
Proof.
  intros Hsent.
  destruct (handle_detail fuel e addr data w)
    as [(w1 & r & Hx & _ & Hp) | H]; [|done].
  destruct Hsent. rewrite Hx. apply Hp.
Qed.

Lemma reply_options_encoded r o6 t :
  dns_option o6 ->
  reply_options r o6 t
  = encode_options (reply_option_list r o6 t) ++ [xff; x00]
  /\ Forall stored_option (reply_option_list r o6 t).
Proof.
  assert (Hk : forall k v, In k [DHCP_MSG; DHCP_SERVER; DHCP_IP_MASK;
                                 DHCP_IP_GATEWAY; DHCP_IP_DNS; DHCP_LEASE_TIME] ->
                           List.length v < 256 -> stored_option (k, v)).
  { intros k v Hin Hv. unfold stored_option. cbn [fst snd].
    repeat (destruct Hin as [<-|Hin];
            [split; [by eexists|]; split; [done|]; split; [done|]; exact Hv|]).
    destruct Hin. }
  pose proof (be_bytes_length 4 t) as Ht.
  intros [-> | (dns & Hd & ->)]; unfold reply_options, reply_option_list.
  - split.
    + unfold encode_options, encode_option, hard_server, hard_mask.
      cbn [flat_map fst snd app List.length]. rewrite Ht.
      repeat first [rewrite <- app_assoc | progress cbn [app]]. reflexivity.
    + cbn [app].
      repeat (apply List.Forall_cons;
              [apply Hk; cbn; try rewrite Ht; auto 10; lia|]).
      apply List.Forall_nil.
  - unfold from. cbn [app skipn]. split.
    + unfold encode_options, encode_option, hard_server, hard_mask.
      cbn [flat_map fst snd app List.length]. rewrite !drop_0, Ht, Hd.
      repeat first [rewrite <- app_assoc | progress cbn [app]]. reflexivity.
    + rewrite drop_0.
      repeat (apply List.Forall_cons;
              [apply Hk; cbn; try rewrite Ht; try rewrite Hd; auto 10; lia|]).
      apply List.Forall_nil.
Qed.

(** X19: a datagram sent by [handle] answers a DISCOVER by an OFFER and a
    REQUEST by an ACK, and nothing else is answered.  It is made of the
    packed record, the option area (message type, server, mask, gateway,
    DNS if any, lease time, end marker), and, in PXE mode only, the PXE
    options built from options 97 and 60 of the request. *)
Theorem reply_layout fuel e addr data w :
  let x := handle fuel e addr data w in
  sent (fst x) <> sent w ->
  exists opts t fixed o6 extra_buf dest,
    snd (parse_options fuel (from DHCPFormatSize data) w) = Val (Some opts) /\
    request_msg_type opts = Some t /\ (t = DHCP_DISCOVER \/ t = DHCP_REQUEST) /\
    snd x = Val tt /\
    List.length fixed = DHCPFormatSize /\ dns_option o6 /\
    sent (fst x)
    = sent w ++ [(fixed
                  ++ reply_options (offer_or_ack t) o6
                       (get_bootp_default_lease_time (config e))
                  ++ extra_buf, dest)] /\
    (request_pxe opts = false -> extra_buf = []) /\
    (request_pxe opts = true ->
     exists u c, opts !! 97%N = Some u /\ opts !! 60%N = Some c /\
                 extra_buf = pxe_stream u c hard_server).
Proof.
  cbv zeta. intros Hsent.
  destruct (handle_sent fuel e addr data w Hsent)
    as (buf & opts & Hbuf & Hop & Hparse & Ha).
  destruct (answered_sent e _ buf w _ Ha Hsent)
    as (t & hostname & boot_file & ipaddr & yiaddr & siaddr & fixed & o6 & extra
        & dest & _ & _ & _ & _ & Ht & Htt & Hfixed & Ho6 & Hextra & Hval & Hs).
  cbn [request_locals dhcp_msg_type pxe options] in Ht, Hextra.
  exists opts, t, fixed, o6, extra, dest.
  split; [done|]. split; [done|]. split; [done|]. split; [done|].
  split; [by apply pack_unpack in Hfixed as [? _]|]. split; [done|].
  split; [by rewrite Hs, <- app_assoc|].
  destruct (request_pxe opts); [|done].
  split; [done|]. intros _.
  destruct (build_pxe_options_Some _ _ _ _ Hextra) as [[u Hu] [c Hc]].
  exists u, c. split; [done|]. split; [done|].
  destruct (parsed_value _ _ _ _ _ _ Hparse Hu) as (_ & _ & _ & Hlu).
  destruct (parsed_value _ _ _ _ _ _ Hparse Hc) as (_ & _ & _ & Hlc).
  cbn [snd] in Hlu, Hlc.
  rewrite (build_pxe_options_stream opts u c hard_server w Hu Hc Hlu Hlc eq_refl)
    in Hextra.
  cbn [snd] in Hextra. congruence.
Qed.

Lemma reply_layout_witness :
  exists opts t fixed o6 extra_buf dest,
    request_msg_type opts = Some t /\
    List.length fixed = DHCPFormatSize /\
    sent (fst (handle 10 (sample_env None true) client_addr
                 (pxe_request zero_address zero_address x01 "PXEClient:Arch:00000")
                 empty_world))
    = [(fixed ++ reply_options (offer_or_ack t) o6 7200 ++ extra_buf, dest)] /\
    request_pxe opts = true.
Proof.
  destruct (reply_layout 10 (sample_env None true) client_addr
              (pxe_request zero_address zero_address x01 "PXEClient:Arch:00000")
              empty_world)
    as (opts & t & fixed & o6 & extra & dest & Hparse & Ht & _ & _ & Hl & _
        & Hs & _ & _).
  - vm_compute. discriminate.
  - exists opts, t, fixed, o6, extra, dest.
    split; [exact Ht|]. split; [exact Hl|]. split; [exact Hs|].
    vm_compute in Hparse. injection Hparse as <-. vm_compute. reflexivity.
Defined.

Lemma on_wire_reply_record buf yiaddr siaddr sname file :
  on_wire buf = buf -> List.length yiaddr = 4 -> List.length siaddr = 4 ->
  on_wire (reply_record buf yiaddr siaddr sname file)
  = reply_record buf yiaddr siaddr (pack_s 64 sname) (pack_s 128 file).
Proof.
  intros Hb Hy Hs.
  pose proof (f_equal BOOTP_CIADDR Hb) as H1.
  pose proof (f_equal BOOTP_GIADDR Hb) as H2.
  pose proof (f_equal BOOTP_CHADDR Hb) as H3.
  pose proof (f_equal BOOTP_VEND Hb) as H4.
  cbn [on_wire BOOTP_CIADDR BOOTP_GIADDR BOOTP_CHADDR BOOTP_VEND] in H1, H2, H3, H4.
  unfold on_wire, reply_record.
  cbn [BOOTP_OP BOOTP_HTYPE BOOTP_HLEN BOOTP_HOPS BOOTP_XID BOOTP_SECS
       BOOTP_FLAGS BOOTP_CIADDR BOOTP_YIADDR BOOTP_SIADDR BOOTP_GIADDR
       BOOTP_CHADDR BOOTP_SNAME BOOTP_FILE BOOTP_VEND].
  by rewrite H1, H2, H3, H4, (pack_s_exact 4 yiaddr Hy), (pack_s_exact 4 siaddr Hs).
Qed.

(** X20: the fixed part of a datagram sent by [handle] decodes to the record of
    the request with these changes: [op] is BOOTREPLY, [secs] and [flags]
    are zero, [yiaddr] is the address of the client's lease, [siaddr] is
    the address of the bound interface, the server name is the host name
    of the lease, a dot and its domain, the boot file is that of the lease
    or the default; both texts are cut or zero padded to 64 and 128 bytes.
    Transaction id, hardware address, gateway and vendor fields are those
    of the request. *)
Theorem reply_record_on_wire fuel e addr data w :
  let x := handle fuel e addr data w in
  sent (fst x) <> sent w ->
  exists buf hostname boot_file ipaddr yiaddr siaddr pkt dest,
    unpack_DHCPFormat (upto DHCPFormatSize data) = Some buf /\
    get_lease_for_mac (config e) (request_mac_str buf)
    = Some (Lease (Some hostname) (Some boot_file)) /\
    gethostbyname e hostname = Some ipaddr /\
    inet_aton (default ipaddr (ippool w !! request_mac_str buf)) = Some yiaddr /\
    inet_aton (netconfig_address e) = Some siaddr /\
    sent (fst x) = sent w ++ [(pkt, dest)] /\
    unpack_DHCPFormat (upto DHCPFormatSize pkt)
    = Some (reply_record buf yiaddr siaddr
              (pack_s 64 (sname_of hostname)) (pack_s 128 (file_of e boot_file))).
Proof.
  cbv zeta. intros Hsent.
  destruct (handle_sent fuel e addr data w Hsent)
    as (buf & opts & Hbuf & Hop & Hparse & Ha).
  destruct (answered_sent e _ buf w _ Ha Hsent)
    as (t & hostname & boot_file & ipaddr & yiaddr & siaddr & fixed & o6 & extra
        & dest & Hlease & Hres & Hyi & Hsi & _ & _ & Hfixed & _ & _ & _ & Hs).
  cbn [request_locals mac_str] in Hlease, Hyi.
  eexists buf, hostname, boot_file, ipaddr, yiaddr, siaddr, _, dest.
  repeat (split; [done|]).
  apply pack_unpack in Hfixed as [Hlen Hun].
  unfold upto. rewrite <- !app_assoc, <- Hlen, take_app_length, Hun.
  f_equal. apply on_wire_unpacked in Hbuf.
  apply inet_aton_length in Hyi, Hsi. by apply on_wire_reply_record.
Qed.

Lemma reply_record_on_wire_witness :
  let e := sample_env (Some true) true in
  let x := handle 10 e client_addr (plain_request x01) empty_world in
  exists buf hostname boot_file ipaddr yiaddr siaddr pkt dest,
    unpack_DHCPFormat (upto DHCPFormatSize (plain_request x01)) = Some buf /\
    get_lease_for_mac (config e) (request_mac_str buf)
    = Some (Lease (Some hostname) (Some boot_file)) /\
    gethostbyname e hostname = Some ipaddr /\
    inet_aton (default ipaddr (ippool empty_world !! request_mac_str buf))
    = Some yiaddr /\
    inet_aton (netconfig_address e) = Some siaddr /\
    sent (fst x) = sent empty_world ++ [(pkt, dest)] /\
    unpack_DHCPFormat (upto DHCPFormatSize pkt)
    = Some (reply_record buf yiaddr siaddr
              (pack_s 64 (sname_of hostname)) (pack_s 128 (file_of e boot_file))).
Proof.
  apply (reply_record_on_wire 10 (sample_env (Some true) true) client_addr
           (plain_request x01) empty_world).
  vm_compute. discriminate.
Defined.

(** ** The idle policy, with the flag set *)

Lemma handle_lease_ok e addr l buf w hostname boot_file ipaddr yiaddr siaddr o6 :
  truthy_text (mac_str l) = true ->
  plain_setup e w (mac_str l) hostname boot_file ipaddr yiaddr siaddr o6 ->
  exists ls bcast,
    handle_lease e addr l buf w
    = (relog ls (grant (mac_str l) ipaddr (add_resolved hostname w)),
       Val (set_FLAGS BOOTP_FLAGS_NONE (set_SECS 0 (set_YIADDR yiaddr buf)),
            (bcast, snd addr), host_data_of hostname boot_file ipaddr)).
Proof.
  intros Hmac [].
  unfold handle_lease, get_host_data_for_mac, get_lease_for_mac.
  rewrite Hmac, ps_lease0. cbn [negb lease_hostname lease_boot_file].
  rewrite ps_hostname0. cbn [negb].
  rewrite bind_say, !bind_assoc, bind_say, bind_assoc, bind_say, bind_assoc,
    bind_resolve, ps_resolve0, bind_assoc, bind_say, bind_ret.
  cbn [hd_address]. rewrite bind_say, ps_ipaddr0. cbn [negb].
  rewrite bind_get.
  rewrite !add_resolved_relog, !relog_relog.
  change (ippool (relog ?a (add_resolved ?h w))) with (ippool w).
  destruct ps_mask0 as [mk Hmk].
  assert (Hipint : iptoint (default ipaddr (ippool w !! mac_str l))
                   = Some (be_value yiaddr))
    by (unfold iptoint; by rewrite ps_yiaddr0).
  destruct (inttoip_Some
              (Z.lor (Z.land (be_value yiaddr) mk)
                 (Z.land (Z.lnot mk) (Z.shiftl 1 32 - 1))))
    as [bcast Hbcast].
  { apply broadcast_bound; by eapply iptoint_bound. }
  destruct (ippool w !! mac_str l) as [ip|] eqn:E; cbn [default from_option id] in *.
  - rewrite bind_assoc, bind_say, bind_ret, relog_relog.
    rewrite ps_ip0. cbn [negb].
    rewrite bind_orraise, Hmk, bind_orraise, Hipint, bind_orraise, ps_yiaddr0,
      bind_orraise, Hbcast, bind_say, relog_relog.
    eexists _, bcast. unfold ret, grant. cbn [add_resolved ippool].
    rewrite E. reflexivity.
  - rewrite bind_assoc, bind_set_ippool, bind_ret.
    change (World (uuidpool ?x) (<[?m := ?i]> (ippool ?x)) (states ?x) (log ?x)
                  (sent ?x) (resolved ?x)) with (add_lease m i x).
    rewrite add_lease_relog.
    rewrite ps_ip0. cbn [negb].
    rewrite bind_orraise, Hmk, bind_orraise, Hipint, bind_orraise, ps_yiaddr0,
      bind_orraise, Hbcast, bind_say, relog_relog.
    eexists _, bcast. unfold ret, grant. cbn [add_resolved ippool].
    rewrite E. reflexivity.
Qed.

(** The statements that build the DNS option, when they succeed. *)
Lemma dns_block_ok e w o6 :
  reply_dns e = Some o6 ->
  exists ls, dns_block e hard_server w = (relog ls w, Val o6).
Proof.
  unfold reply_dns, dns_text, dns_block.
  destruct (truthy_text (get_bootp_default_dns (config e))).
  2:{ intros [= <-]. exists []. by rewrite relog_nil. }
  assert (Htail : forall ls text,
    (inet_aton text ≫= fun d => Some ([x06; x04] ++ d)) = Some o6 ->
    exists ls',
      bind (orraise (inet_aton_exn text) (inet_aton text))
        (fun dns0 =>
           orraise struct_error
             (pack_Bs [Z.of_N DHCP_IP_DNS; 4%Z] ≫= fun b => Some (b ++ pack_s 4 dns0)))
        (relog ls w) = (relog ls' w, Val o6)).
  { intros ls text H. rewrite bind_orraise.
    destruct (inet_aton text) as [d|] eqn:Hd; [|done].
    cbn [mbind option_bind] in H. injection H as <-.
    rewrite (pack_address_option DHCP_IP_DNS d) by (auto || by eapply inet_aton_length).
    by eexists. }
  destruct (String.eqb (lower (get_bootp_default_dns (config e))) "auto").
  - rewrite bind_assoc. unfold get_dns_server.
    destruct (resolv_conf e) as [d|]; rewrite bind_assoc, bind_say, bind_ret.
    + destruct (truthy_text d).
      * rewrite bind_ret. apply Htail.
      * change (orraise (socket_error inet_ntoa_call) (inet_ntoa hard_server))
          with (@ret string (dotted hard_server)).
        rewrite bind_ret. apply Htail.
    + change (orraise (socket_error inet_ntoa_call) (inet_ntoa hard_server))
        with (@ret string (dotted hard_server)).
      rewrite bind_ret. apply Htail.
  - rewrite bind_ret. intros H.
    destruct (Htail [] _ H) as [ls Hls]. rewrite relog_nil in Hls. by exists ls.
Qed.

Lemma handle_build_ok e addr l buf r w fixed o6 extra :
  r = DHCP_OFFER \/ r = DHCP_ACK ->
  pack_DHCPFormat buf = Some fixed ->
  reply_dns e = Some o6 ->
  (0 <= get_bootp_default_lease_time (config e) < 2 ^ 32)%Z ->
  short_values (options l) ->
  reply_extra (pxe l) (options l) = Some extra ->
  exists ls,
    handle_build e addr l buf r w
    = handle_send e addr l
        (fixed ++ reply_options r o6 (get_bootp_default_lease_time (config e)))
        extra (relog ls w).
Proof.
  intros Hr Hfixed Hd Ht Hshort Hextra. unfold handle_build.
  rewrite bind_orraise, Hfixed.
  rewrite bind_orraise, (pack_reply_type r Hr).
  rewrite bind_orraise, inet_aton_hard_server.
  rewrite bind_orraise, (pack_address_option DHCP_SERVER hard_server) by auto.
  rewrite bind_orraise, inet_aton_hard_mask.
  rewrite bind_orraise, (pack_address_option DHCP_IP_MASK hard_mask) by auto.
  rewrite bind_orraise, (pack_address_option DHCP_IP_GATEWAY hard_server) by auto.
  fold (dns_block e hard_server).
  destruct (dns_block_ok e w o6 Hd) as [ls Hls].
  unfold bind at 1. rewrite Hls.
  rewrite bind_orraise, (pack_lease_time_option _ Ht).
  rewrite bind_orraise.
  change (pack_Bs [Z.of_N DHCP_END; 0%Z]) with (Some [xff; x00]).
  unfold reply_extra in Hextra.
  destruct (pxe l).
  - destruct (options l !! 97%N) as [uuid|] eqn:H97; [|done].
    destruct (options l !! 60%N) as [class_id|] eqn:H60; [|done].
    injection Hextra as <-.
    rewrite bind_assoc. unfold bind at 1.
    rewrite (build_pxe_options_stream _ uuid class_id) by eauto.
    assert (truthy (pxe_stream uuid class_id hard_server) = true) as ->.
    { unfold pxe_stream, encode_options. cbn [flat_map].
      unfold encode_option at 1. reflexivity. }
    cbn [negb]. rewrite bind_ret. exists ls. unfold reply_options.
    rewrite <- !app_assoc. reflexivity.
  - injection Hextra as <-.
    unfold build_dhcp_options. cbn [truthy negb].
    rewrite bind_ret. exists ls. unfold reply_options.
    rewrite <- !app_assoc. reflexivity.
Qed.

Lemma grant_relog mac ip ls w :
  grant mac ip (relog ls w) = relog ls (grant mac ip w).
Proof. unfold grant. cbn [relog ippool]. by destruct (ippool w !! mac). Qed.

(** In a working setup the request of a client without address reaches
    the test of the message type, with the reply record filled in, the
    resolver called and the lease granted. *)
Lemma handle_address_reaches e addr l s buf w hostname boot_file ipaddr
    yiaddr siaddr o6 :
  unpack_DHCPFormat s = Some buf ->
  BOOTP_CIADDR buf = zero_address ->
  gi_addr l = upto 4 (BOOTP_GIADDR buf) -> gi_str l = dotted (gi_addr l) ->
  truthy_text (mac_str l) = true ->
  plain_setup e w (mac_str l) hostname boot_file ipaddr yiaddr siaddr o6 ->
  exists ls addr',
    handle_address e addr l buf w
    = handle_reply_type e addr' l
        (reply_record buf yiaddr siaddr (sname_of hostname) (file_of e boot_file))
        (relog ls (grant (mac_str l) ipaddr (add_resolved hostname w))).
Proof.
  intros Hbuf Hci Hgi Hgs Hmac Hsetup.
  assert (Hgl : List.length (BOOTP_GIADDR buf) = 4)
    by (by eapply unpack_DHCPFormat_GIADDR).
  assert (Hgi' : gi_addr l = BOOTP_GIADDR buf) by (by rewrite Hgi, upto_all).
  unfold handle_address. rewrite bind_say.
  change (BOOTP_CIADDR (set_OP BOOTREPLY buf)) with (BOOTP_CIADDR buf).
  destruct (decide (BOOTP_CIADDR buf = zero_address)) as [_|]; [|done].
  assert (Hsetup' : plain_setup e (relog [(INFO, "Client IP")] w) (mac_str l)
                      hostname boot_file ipaddr yiaddr siaddr o6)
    by (by destruct Hsetup).
  destruct (handle_lease_ok e addr l (set_OP BOOTREPLY buf)
              (relog [(INFO, "Client IP")] w) _ _ _ _ _ _ Hmac Hsetup')
    as (ls1 & bcast & Hlease).
  rewrite bind_assoc. unfold bind at 1. rewrite Hlease.
  rewrite bind_ret. cbn [fst snd].
  destruct Hsetup as [].
  rewrite bind_orraise, ps_address0.
  assert (truthy (gi_addr l) = true) as ->
    by (rewrite Hgi; by apply truthy_length).
  rewrite bind_assoc, bind_say, bind_assoc, bind_orraise, Hgs, Hgi',
    (inet_aton_dotted _ Hgl), bind_ret.
  cbn [hd_hostname hd_domain hd_boot_file host_data_of].
  fold (sname_of hostname). fold (file_of e boot_file).
  rewrite reply_record_sets.
  eexists _, _.
  rewrite add_resolved_relog, grant_relog, !relog_relog. reflexivity.
Qed.

Lemma handle_address_ok e addr l s buf w hostname boot_file ipaddr
    yiaddr siaddr o6 t extra :
  unpack_DHCPFormat s = Some buf ->
  BOOTP_CIADDR buf = zero_address ->
  gi_addr l = upto 4 (BOOTP_GIADDR buf) -> gi_str l = dotted (gi_addr l) ->
  truthy_text (mac_str l) = true ->
  dhcp_msg_type l = Some t -> t = DHCP_DISCOVER \/ t = DHCP_REQUEST ->
  plain_setup e w (mac_str l) hostname boot_file ipaddr yiaddr siaddr o6 ->
  short_values (options l) ->
  reply_extra (pxe l) (options l) = Some extra ->
  exists ls addr' fixed,
    pack_DHCPFormat
      (reply_record buf yiaddr siaddr (sname_of hostname) (file_of e boot_file))
    = Some fixed /\
    handle_address e addr l buf w
    = handle_send e addr' l
        (fixed ++ reply_options (offer_or_ack t) o6
                    (get_bootp_default_lease_time (config e)))
        extra (relog ls (grant (mac_str l) ipaddr (add_resolved hostname w))).
Proof.
  intros Hbuf Hci Hgi Hgs Hmac Ht Htt Hsetup Hshort Hextra.
  destruct (handle_address_reaches e addr l s buf w hostname boot_file ipaddr
              yiaddr siaddr o6 Hbuf Hci Hgi Hgs Hmac Hsetup) as (ls1 & addr' & ->).
  assert (Hgl : List.length (BOOTP_GIADDR buf) = 4)
    by (by eapply unpack_DHCPFormat_GIADDR).
  destruct (pack_reply_record s buf yiaddr siaddr (BOOTP_GIADDR buf)
              (sname_of hostname) (file_of e boot_file) Hbuf) as [fixed Hfixed].
  rewrite reply_record_sets in Hfixed.
  destruct (handle_reply_type_plain e addr' l
              (reply_record buf yiaddr siaddr (sname_of hostname)
                 (file_of e boot_file))
              (relog ls1 (grant (mac_str l) ipaddr (add_resolved hostname w)))
              t Ht Htt) as [ls2 ->].
  assert (Hoa : offer_or_ack t = DHCP_OFFER \/ offer_or_ack t = DHCP_ACK)
    by (destruct Htt as [-> | ->]; [by left | by right]).
  destruct Hsetup as [].
  match goal with
  | |- context [handle_build e ?a l ?b ?r ?w0] =>
    destruct (handle_build_ok e a l b r w0 fixed o6 extra Hoa Hfixed ps_dns0
                ps_lease_time0 Hshort Hextra) as [ls3 ->]
  end.
  eexists _, _, fixed. split; [exact Hfixed|].
  f_equal. rewrite !relog_relog. reflexivity.
Qed.




(** ** Leases, whether or not a reply is sent *)

(** The end of the lease branch, from the test of [ip] on: log lines and
    a result. *)
Ltac lease_tail :=
  match goal with
  | |- context [negb (truthy_text ?ip)] =>
    destruct (negb (truthy_text ip));
    [rewrite bind_say, relog_relog; do 2 eexists; reflexivity|]
  end;
  do 4 (rewrite bind_orraise;
        match goal with
        | |- context [match ?o with Some _ => _ | None => _ end] =>
          destruct o; [|do 2 eexists; reflexivity]
        end);
  rewrite bind_say, relog_relog; do 2 eexists; reflexivity.

(** The lease branch of a client whose lease entry resolves: the resolver
    is called and the lease is granted, whatever comes after. *)
Lemma handle_lease_pool e addr l buf w hostname boot_file ipaddr :
  get_lease_for_mac (config e) (mac_str l)
  = Some (Lease (Some hostname) (Some boot_file)) ->
  truthy_text hostname = true -> gethostbyname e hostname = Some ipaddr ->
  truthy_text ipaddr = true ->
  exists ls r,
    handle_lease e addr l buf w
    = (relog ls (grant (mac_str l) ipaddr (add_resolved hostname w)), r).
Proof.
  intros Hlease Hhost Hres Hip.
  unfold handle_lease, get_host_data_for_mac.
  rewrite Hlease. cbn [negb lease_hostname lease_boot_file].
  rewrite Hhost. cbn [negb].
  rewrite bind_say, !bind_assoc, bind_say, bind_assoc, bind_say, bind_assoc,
    bind_resolve, Hres, bind_assoc, bind_say, bind_ret.
  cbn [hd_address]. rewrite bind_say, Hip. cbn [negb].
  rewrite bind_get.
  rewrite !add_resolved_relog, !relog_relog.
  change (ippool (relog ?a (add_resolved ?h w))) with (ippool w).
  destruct (ippool w !! mac_str l) as [ip|] eqn:E.
  - rewrite bind_assoc, bind_say, bind_ret, relog_relog.
    assert (grant (mac_str l) ipaddr (add_resolved hostname w)
            = add_resolved hostname w) as ->
      by (unfold grant; cbn [add_resolved ippool]; by rewrite E).
    lease_tail.
  - rewrite bind_assoc, bind_set_ippool, bind_ret.
    change (World (uuidpool ?x) (<[?m := ?i]> (ippool ?x)) (states ?x) (log ?x)
                  (sent ?x) (resolved ?x)) with (add_lease m i x).
    rewrite add_lease_relog.
    assert (grant (mac_str l) ipaddr (add_resolved hostname w)
            = add_lease (mac_str l) ipaddr (add_resolved hostname w)) as ->
      by (unfold grant; cbn [add_resolved ippool]; by rewrite E).
    lease_tail.
Qed.

(** From the message type on, the lease pool and the resolver are left
    alone. *)
Lemma handle_reply_type_pool e addr l buf w :
  ippool (fst (handle_reply_type e addr l buf w)) = ippool w /\
  resolved (fst (handle_reply_type e addr l buf w)) = resolved w.
Proof.
  destruct (handle_reply_type_run e addr l buf w)
    as [(ls & r & -> & _) | (ls & fixed & rest & extra & _ & _ & ->)]; [done|].
  rewrite handle_send_run. destruct (sendto_ok _ _ _); cbn [fst].
  - unfold commit_state, record_sent, commit_uuid.
    by destruct (decide _), (pxe l).
  - unfold commit_uuid. by destruct (pxe l).
Qed.

Lemma handle_send_pool e addr l pkt extra w :
  ippool (fst (handle_send e addr l pkt extra w)) = ippool w /\
  resolved (fst (handle_send e addr l pkt extra w)) = resolved w.
Proof.
  rewrite handle_send_run. destruct (sendto_ok _ _ _); cbn [fst].
  - unfold commit_state, record_sent, commit_uuid.
    by destruct (decide _), (pxe l).
  - unfold commit_uuid. by destruct (pxe l).
Qed.

Lemma handle_address_pool e addr l buf w hostname boot_file ipaddr :
  BOOTP_CIADDR buf = zero_address ->
  get_lease_for_mac (config e) (mac_str l)
  = Some (Lease (Some hostname) (Some boot_file)) ->
  truthy_text hostname = true -> gethostbyname e hostname = Some ipaddr ->
  truthy_text ipaddr = true ->
  resolved (fst (handle_address e addr l buf w)) = resolved w ++ [hostname] /\
  ippool (fst (handle_address e addr l buf w)) !! mac_str l
  = Some (default ipaddr (ippool w !! mac_str l)).
Proof.
  intros Hci Hlease Hhost Hres Hip.
  unfold handle_address. rewrite bind_say.
  change (BOOTP_CIADDR (set_OP BOOTREPLY buf)) with (BOOTP_CIADDR buf).
  destruct (decide (BOOTP_CIADDR buf = zero_address)) as [_|]; [|done].
  destruct (handle_lease_pool e addr l (set_OP BOOTREPLY buf)
              (relog [(INFO, "Client IP")] w) hostname boot_file ipaddr
              Hlease Hhost Hres Hip) as (ls & r & Hl).
  rewrite bind_assoc.
  set (W := grant (mac_str l) ipaddr
              (add_resolved hostname (relog [(INFO, "Client IP")] w))) in Hl.
  assert (Hb : forall B (k : _ -> M B),
             bind (handle_lease e addr l (set_OP BOOTREPLY buf)) k
               (relog [(INFO, "Client IP")] w)
             = match r with
               | Val a => k a (relog ls W)
               | Exc x => (relog ls W, Exc x)
               | Stop => (relog ls W, Stop)
               | Hang => (relog ls W, Hang)
               end).
  { intros B k. unfold bind. rewrite Hl. by destruct r. }
  rewrite Hb. clear Hb Hl.
  assert (HW : forall ls', resolved (relog ls' W) = resolved w ++ [hostname] /\
                           ippool (relog ls' W) !! mac_str l
                           = Some (default ipaddr (ippool w !! mac_str l))).
  { intros ls'. cbn [relog resolved ippool]. unfold W.
    by rewrite grant_resolved, grant_lookup. }
  clearbody W.
  destruct r as [[[buf1 addr1] hd]| | |]; [|apply HW..].
  rewrite bind_ret. cbn [fst snd].
  rewrite bind_orraise.
  destruct (inet_aton (netconfig_address e)) as [siaddr|]; [|apply HW].
  assert (Hgo : forall ls' b,
            resolved (fst (handle_reply_type e addr1 l b (relog ls' W)))
            = resolved w ++ [hostname] /\
            ippool (fst (handle_reply_type e addr1 l b (relog ls' W))) !! mac_str l
            = Some (default ipaddr (ippool w !! mac_str l))).
  { intros ls' b.
    destruct (handle_reply_type_pool e addr1 l b (relog ls' W)) as [-> ->].
    apply HW. }
  destruct (truthy (gi_addr l)).
  - rewrite bind_assoc, bind_say, bind_assoc, bind_orraise.
    destruct (inet_aton (gi_str l)) as [giaddr|].
    + rewrite bind_ret, relog_relog. apply Hgo.
    + rewrite relog_relog. apply HW.
  - rewrite bind_ret. apply Hgo.
Qed.

(** A request let through by the test on the idle state reaches the
    construction of the reply. *)
Lemma handle_gate_open fuel e addr data w buf opts :
  unpack_DHCPFormat (upto DHCPFormatSize data) = Some buf ->
  BOOTP_OP buf = BOOTREQUEST ->
  snd (parse_options fuel (from DHCPFormatSize data) w) = Val (Some opts) ->
  opts !! 53%N <> Some [] ->
  gate_open e (request_locals buf opts w) ->
  exists ls,
    handle_body fuel e addr data w
    = handle_address e addr (request_locals buf opts w) buf
        (relog ls (touch (request_mac_str buf) w)).
Proof.
  intros Hbuf Hop Hparse H53 Hgate.
  destruct (handle_gate fuel e addr _ _ w buf opts Hbuf Hop Hparse H53)
    as [ls Hbody].
  unfold upto, from in Hbody. rewrite firstn_skipn in Hbody.
  destruct (decide (newstate (request_locals buf opts w) = ST_IDLE))
    as [Hidle|]; [|by eexists].
  assert (simple_dhcp e = true) as Hsd.
  { unfold simple_dhcp, get_bootp_allow_simple_dhcp. by rewrite (Hgate Hidle). }
  rewrite Hsd in Hbody. by eexists.
Qed.

(** The request of a client without address that is answered: a DISCOVER
    or REQUEST let through by the idle test, in a working setup, with
    options 97 and 60 if it is in PXE mode. *)
Lemma handle_offers fuel e addr data w buf opts t hostname boot_file ipaddr
    yiaddr siaddr o6 extra :
  unpack_DHCPFormat (upto DHCPFormatSize data) = Some buf ->
  BOOTP_OP buf = BOOTREQUEST ->
  snd (parse_options fuel (from DHCPFormatSize data) w) = Val (Some opts) ->
  opts !! 53%N <> Some [] ->
  gate_open e (request_locals buf opts w) ->
  BOOTP_CIADDR buf = zero_address ->
  request_msg_type opts = Some t -> t = DHCP_DISCOVER \/ t = DHCP_REQUEST ->
  plain_setup e w (request_mac_str buf) hostname boot_file ipaddr yiaddr
    siaddr o6 ->
  reply_extra (request_pxe opts) opts = Some extra ->
  exists ls fixed,
    pack_DHCPFormat
      (reply_record buf yiaddr siaddr (sname_of hostname) (file_of e boot_file))
    = Some fixed /\
    handle fuel e addr data w
    = (commit_state (request_locals buf opts w)
         (record_sent
            (fixed ++ reply_options (offer_or_ack t) o6
                        (get_bootp_default_lease_time (config e)) ++ extra,
             (dotted (BOOTP_GIADDR buf), 67%N))
            (commit_uuid (request_locals buf opts w)
               (relog ls (grant (request_mac_str buf) ipaddr
                            (add_resolved hostname
                               (touch (request_mac_str buf) w)))))),
       Val tt).
Proof.
  intros Hbuf Hop Hparse H53 Hgate Hci Ht Htt Hsetup Hextra.
  destruct (handle_gate_open fuel e addr data w buf opts Hbuf Hop Hparse H53 Hgate)
    as [ls Hbody].
  pose proof (touch_pools (request_mac_str buf) w) as (_ & Hi & _ & _).
  set (W := relog ls (touch (request_mac_str buf) w)) in *.
  assert (Hsetup' : plain_setup e W (request_mac_str buf) hostname boot_file
                      ipaddr yiaddr siaddr o6).
  { destruct Hsetup. split; try done;
      change (ippool W) with (ippool (touch (request_mac_str buf) w));
      by rewrite Hi. }
  assert (Hshort : short_values opts).
  { intros t0 v Hv.
    by destruct (parsed_value fuel _ w opts t0 v Hparse Hv) as (_ & _ & _ & Hlen). }
  destruct (handle_address_ok e addr (request_locals buf opts w) _ buf W
              hostname boot_file ipaddr yiaddr siaddr o6 t extra Hbuf Hci
              eq_refl eq_refl (request_mac_str_truthy _ buf Hbuf) Ht Htt
              Hsetup' Hshort Hextra)
    as (ls' & addr' & fixed & Hfixed & Haddr).
  eexists _, fixed. split; [exact Hfixed|].
  unfold handle. rewrite Hbody, Haddr, handle_send_run.
  rewrite (ps_send _ _ _ _ _ _ _ _ _ Hsetup).
  rewrite (reply_dest_gateway _ _ _ _ _ Hbuf).
  cbn [request_locals mac_str]. unfold W.
  rewrite add_resolved_relog, grant_relog, relog_relog, <- !app_assoc.
  reflexivity.
Qed.

(** C6, as amended: for requests whose client-address field is all zeros
    and that pass the idle test, from a client whose lease entry has a
    boot file and a host name that resolves.  If no lease exists for the
    MAC, the resolved address is recorded as the lease; if one exists it
    is kept, and no request ever changes a recorded lease.  The resolver
    is called once at every such request, whether or not a lease is
    recorded.  When the request is a DISCOVER or REQUEST in a working
    setup, with option 60 if it is in PXE mode, the reply is sent and
    offers the lease.  And whenever a reply is sent, the client address of
    the request was zero, the resolver has been called once during the
    request, and the reply offers the client's lease. *)
Theorem lease_kept_resolver_called fuel e addr data w :
  let x := handle fuel e addr data w in
  (forall m ip, ippool w !! m = Some ip -> ippool (fst x) !! m = Some ip) /\
  (forall buf opts hostname boot_file ipaddr,
     unpack_DHCPFormat (upto DHCPFormatSize data) = Some buf ->
     BOOTP_OP buf = BOOTREQUEST ->
     snd (parse_options fuel (from DHCPFormatSize data) w) = Val (Some opts) ->
     opts !! 53%N <> Some [] ->
     gate_open e (request_locals buf opts w) ->
     BOOTP_CIADDR buf = zero_address ->
     get_lease_for_mac (config e) (request_mac_str buf)
     = Some (Lease (Some hostname) (Some boot_file)) ->
     truthy_text hostname = true ->
     gethostbyname e hostname = Some ipaddr ->
     truthy_text ipaddr = true ->
     resolved (fst x) = resolved w ++ [hostname] /\
     ippool (fst x) !! request_mac_str buf
     = Some (default ipaddr (ippool w !! request_mac_str buf))) /\
  (forall buf opts t hostname boot_file ipaddr yiaddr siaddr o6 extra,
     unpack_DHCPFormat (upto DHCPFormatSize data) = Some buf ->
     BOOTP_OP buf = BOOTREQUEST ->
     snd (parse_options fuel (from DHCPFormatSize data) w) = Val (Some opts) ->
     opts !! 53%N <> Some [] ->
     gate_open e (request_locals buf opts w) ->
     BOOTP_CIADDR buf = zero_address ->
     request_msg_type opts = Some t -> t = DHCP_DISCOVER \/ t = DHCP_REQUEST ->
     plain_setup e w (request_mac_str buf) hostname boot_file ipaddr yiaddr
       siaddr o6 ->
     reply_extra (request_pxe opts) opts = Some extra ->
     snd x = Val tt /\
     exists pkt,
       sent (fst x) = sent w ++ [(pkt, (dotted (BOOTP_GIADDR buf), 67%N))] /\
       inet_aton (default ipaddr (ippool w !! request_mac_str buf))
       = Some (slice 16 4 pkt)) /\
  (sent (fst x) <> sent w ->
   exists buf h ipaddr yiaddr pkt dest,
     unpack_DHCPFormat (upto DHCPFormatSize data) = Some buf /\
     BOOTP_CIADDR buf = zero_address /\
     resolved (fst x) = resolved w ++ [h] /\
     gethostbyname e h = Some ipaddr /\
     ippool (fst x) !! request_mac_str buf
     = Some (default ipaddr (ippool w !! request_mac_str buf)) /\
     inet_aton (default ipaddr (ippool w !! request_mac_str buf)) = Some yiaddr /\
     sent (fst x) = sent w ++ [(pkt, dest)] /\
     slice 16 4 pkt = yiaddr).
Proof.
  cbv zeta.
  assert (Hmid : forall buf opts hostname boot_file ipaddr,
     unpack_DHCPFormat (upto DHCPFormatSize data) = Some buf ->
     BOOTP_OP buf = BOOTREQUEST ->
     snd (parse_options fuel (from DHCPFormatSize data) w) = Val (Some opts) ->
     opts !! 53%N <> Some [] ->
     gate_open e (request_locals buf opts w) ->
     BOOTP_CIADDR buf = zero_address ->
     get_lease_for_mac (config e) (request_mac_str buf)
     = Some (Lease (Some hostname) (Some boot_file)) ->
     truthy_text hostname = true ->
     gethostbyname e hostname = Some ipaddr ->
     truthy_text ipaddr = true ->
     resolved (fst (handle fuel e addr data w)) = resolved w ++ [hostname] /\
     ippool (fst (handle fuel e addr data w)) !! request_mac_str buf
     = Some (default ipaddr (ippool w !! request_mac_str buf))).
  { intros buf opts hostname boot_file ipaddr Hbuf Hop Hparse H53 Hgate Hci
      Hlease Hhost Hres Hip.
    destruct (handle_gate_open fuel e addr data w buf opts Hbuf Hop Hparse H53
                Hgate) as [ls' Hgo].
    assert (fst (handle fuel e addr data w)
            = fst (handle_address e addr (request_locals buf opts w) buf
                     (relog ls' (touch (request_mac_str buf) w)))) as ->.
    { unfold handle. rewrite Hgo.
      destruct (handle_address e addr (request_locals buf opts w) buf
                  (relog ls' (touch (request_mac_str buf) w))) as [w0 r0].
      by destruct r0. }
    destruct (handle_address_pool e addr (request_locals buf opts w) buf
                (relog ls' (touch (request_mac_str buf) w))
                hostname boot_file ipaddr Hci Hlease Hhost Hres Hip)
      as [H1 H2].
    pose proof (touch_pools (request_mac_str buf) w) as (_ & Hi & _ & Hr).
    cbn [relog resolved ippool request_locals mac_str] in H1, H2.
    by rewrite Hr in H1; rewrite Hi in H2. }
  assert (Hoffer : forall buf opts t hostname boot_file ipaddr yiaddr siaddr
                     o6 extra,
     unpack_DHCPFormat (upto DHCPFormatSize data) = Some buf ->
     BOOTP_OP buf = BOOTREQUEST ->
     snd (parse_options fuel (from DHCPFormatSize data) w) = Val (Some opts) ->
     opts !! 53%N <> Some [] ->
     gate_open e (request_locals buf opts w) ->
     BOOTP_CIADDR buf = zero_address ->
     request_msg_type opts = Some t -> t = DHCP_DISCOVER \/ t = DHCP_REQUEST ->
     plain_setup e w (request_mac_str buf) hostname boot_file ipaddr yiaddr
       siaddr o6 ->
     reply_extra (request_pxe opts) opts = Some extra ->
     snd (handle fuel e addr data w) = Val tt /\
     exists pkt,
       sent (fst (handle fuel e addr data w))
       = sent w ++ [(pkt, (dotted (BOOTP_GIADDR buf), 67%N))] /\
       inet_aton (default ipaddr (ippool w !! request_mac_str buf))
       = Some (slice 16 4 pkt)).
  { intros buf opts t hostname boot_file ipaddr yiaddr siaddr o6 extra
      Hbuf Hop Hparse H53 Hgate Hci Ht Htt Hsetup Hextra.
    destruct (handle_offers fuel e addr data w buf opts t hostname boot_file
                ipaddr yiaddr siaddr o6 extra Hbuf Hop Hparse H53 Hgate Hci Ht
                Htt Hsetup Hextra) as (ls & fixed & Hfixed & ->).
    cbn [fst snd]. split; [done|]. eexists. split.
    - rewrite sent_commit. f_equal. cbn [relog sent].
      pose proof (grant_pools (request_mac_str buf) ipaddr
                    (add_resolved hostname (touch (request_mac_str buf) w)))
        as (_ & _ & ->).
      cbn [add_resolved sent].
      by pose proof (touch_pools (request_mac_str buf) w) as (_ & _ & -> & _).
    - rewrite (pack_DHCPFormat_YIADDR _ _ _ Hfixed). cbn [reply_record BOOTP_YIADDR].
      rewrite pack_s_exact by (eapply inet_aton_length; apply Hsetup).
      apply Hsetup. }
  split; [|split; [exact Hmid|split; [exact Hoffer|]]]; clear Hmid Hoffer.
  - intros m ip Hm.
    destruct (handle_run fuel e addr data w)
      as [(w1 & r & -> & _ & Hp) | (buf & opts & _ & _ & _ & _ & Hrep)].
    + destruct Hp as (_ & _ & _ & Hip & _). by apply Hip.
    + destruct Hrep as (w1 & addr' & h & ipaddr & ip' & buf' & fixed & rest
                        & extra & Hp & _ & _ & _ & _ & _ & _ & _ & _ & ->).
      destruct Hp as (_ & _ & _ & Hip & _).
      destruct (handle_send_pool e addr' (request_locals buf opts w)
                  (fixed ++ rest) extra w1) as [-> _].
      by apply Hip.
  - intros Hsent.
    destruct (handle_run fuel e addr data w)
      as [(w1 & r & Hx & _ & Hp) | (buf & opts & Hbuf & _ & _ & _ & Hrep)].
    + rewrite Hx in Hsent. destruct Hp as (_ & Hs & _). by destruct Hsent.
    + destruct Hrep as (w1 & addr' & h & ipaddr & ip & buf' & fixed & rest & extra
                        & Hp & Hci & Hres & Hh & -> & Hlease & Hyi & Hfixed & _ & Hx).
      rewrite Hx in Hsent |- *.
      destruct Hp as (_ & Hs & _).
      cbn [request_locals mac_str] in *.
      destruct (handle_send_pool e addr' (request_locals buf opts w)
                  (fixed ++ rest) extra w1) as [-> ->].
      rewrite handle_send_run in Hsent |- *.
      destruct (sendto_ok _ _ _); cbn [fst snd] in *.
      * eexists buf, h, ipaddr, _, _, _.
        split; [exact Hbuf|]. split; [exact Hci|]. split; [exact Hres|].
        split; [exact Hh|]. split; [exact Hlease|]. split; [exact Hyi|].
        split; [by rewrite sent_commit, Hs|].
        rewrite <- app_assoc, (pack_DHCPFormat_YIADDR _ _ _ Hfixed).
        apply pack_s_exact. by eapply inet_aton_length.
      * destruct Hsent. rewrite <- Hs. unfold commit_uuid. by destruct (pxe _).
Qed.

(** A second DISCOVER of the sample client, after the resolver's answer has
    changed: the resolver is called once more, the lease recorded at the
    first DISCOVER, 10.0.0.42, is kept, and the reply offers it. *)
Lemma lease_kept_resolver_called_witness :
  let request := pxe_request zero_address zero_address x01 "PXEClient:Arch:00000" in
  let w1 := fst (handle 10 (sample_env None true) client_addr request empty_world) in
  let x := handle 10 moved_env client_addr request w1 in
  ippool w1 !! sample_mac_str = Some "10.0.0.42" /\
  gethostbyname moved_env "node1.example.org" = Some "10.0.0.77" /\
  resolved (fst x) = resolved w1 ++ ["node1.example.org"] /\
  ippool (fst x) !! sample_mac_str = Some "10.0.0.42" /\
  snd x = Val tt /\
  (exists pkt,
     sent (fst x) = sent w1 ++ [(pkt, ("0.0.0.0", 67%N))] /\
     inet_aton "10.0.0.42" = Some (slice 16 4 pkt)) /\
  exists pkt dest,
    sent (fst x) = sent w1 ++ [(pkt, dest)] /\
    slice 16 4 pkt = [x0a; x00; x00; x2a].
Proof.
  intros request w1 x.
  destruct (lease_kept_resolver_called 10 moved_env client_addr request w1)
    as (Hkept & Hmid & Hoffer & Hsent).
  assert (Hpool : ippool w1 !! sample_mac_str = Some "10.0.0.42")
    by (vm_compute; reflexivity).
  split; [exact Hpool|]. split; [reflexivity|].
  assert (exists buf,
            unpack_DHCPFormat (upto DHCPFormatSize request) = Some buf /\
            BOOTP_OP buf = BOOTREQUEST /\ BOOTP_CIADDR buf = zero_address /\
            BOOTP_GIADDR buf = zero_address /\
            request_mac_str buf = sample_mac_str)
    as (buf & Hbuf & Hop & Hci & Hgi & Hmac)
    by (eexists; vm_compute; repeat split; reflexivity).
  assert (exists opts extra,
            snd (parse_options 10 (from DHCPFormatSize request) w1)
            = Val (Some opts) /\
            opts !! 53%N <> Some [] /\
            next_state (phase w1 sample_mac_str) (request_pxe opts)
              (request_msg_type opts) <> ST_IDLE /\
            request_msg_type opts = Some DHCP_DISCOVER /\
            reply_extra (request_pxe opts) opts = Some extra)
    as (opts & extra & Hopts & H53 & Hnext & Hmsg & Hextra)
    by (eexists _, _; vm_compute; repeat split; (reflexivity || discriminate)).
  assert (Hgate : gate_open moved_env (request_locals buf opts w1)).
  { intros Hidle. destruct Hnext.
    cbn [request_locals newstate] in Hidle. by rewrite Hmac in Hidle. }
  destruct (Hmid buf opts "node1.example.org" "pxelinux.0" "10.0.0.77"
              Hbuf Hop Hopts H53 Hgate Hci) as [Hres Hlease].
  { rewrite Hmac. vm_compute. reflexivity. }
  { reflexivity. }
  { reflexivity. }
  { reflexivity. }
  rewrite Hmac, Hpool in Hlease. cbn [default from_option] in Hlease.
  split; [exact Hres|]. split; [exact Hlease|].
  destruct (Hoffer buf opts DHCP_DISCOVER "node1.example.org" "pxelinux.0"
              "10.0.0.77" [x0a; x00; x00; x2a] [x0a; x00; x00; x01]
              ([x06; x04] ++ [x0a; x00; x00; x01]) extra
              Hbuf Hop Hopts H53 Hgate Hci Hmsg (or_introl eq_refl))
    as (Hret & pkt & Hs & Hyi).
  { rewrite Hmac. apply Build_plain_setup.
    - vm_compute. reflexivity.
    - reflexivity.
    - reflexivity.
    - reflexivity.
    - rewrite Hpool. reflexivity.
    - rewrite Hpool. vm_compute. reflexivity.
    - eexists. vm_compute. reflexivity.
    - vm_compute. reflexivity.
    - vm_compute. reflexivity.
    - vm_compute. split; [discriminate | reflexivity].
    - reflexivity. }
  { exact Hextra. }
  split; [exact Hret|].
  rewrite Hmac, Hpool, Hgi in *. cbn [default from_option] in Hyi.
  split; [exists pkt; split; [exact Hs | exact Hyi]|].
  destruct Hsent as (buf' & h & ipaddr & yiaddr & pkt' & dest
                     & Hbuf' & _ & _ & _ & _ & Hyi' & Hs' & Hslice).
  { rewrite Hs. intros E. apply (f_equal (@List.length _)) in E.
    rewrite length_app in E. cbn [List.length] in E. lia. }
  exists pkt', dest.
  assert (buf' = buf) as -> by congruence.
  rewrite Hmac, Hpool in Hyi'. cbn [default from_option] in Hyi'.
  vm_compute in Hyi'. injection Hyi' as <-.
  split; [exact Hs' | exact Hslice].
Defined.

(** ** Padding before an unknown option *)

(** C3 (the code departs from the claim): a request whose option area is a
    padding byte, then option 200, which is not in the table, then the end
    marker.  The parser never returns: the padding branch does [continue]
    without consuming the byte; so the request is not dropped, [handle]
    does not return either.  Without padding before it, an unknown option
    has the parser return [None] and the request dropped. *)
Theorem padding_before_unknown_option_hangs fuel e addr w :
  let tail := [x00; xc8; x01; x00; xff] in
  let data := sample_header x01 zero_address zero_address ++ tail in
  DHCP_OPTIONS !! 200%N = None /\
  snd (parse_options fuel tail w) = Hang /\
  snd (handle fuel e addr data w) = Hang /\
  sent (fst (handle fuel e addr data w)) = sent w.
Proof.
  cbv zeta. split; [reflexivity|].
  assert (Hparse : snd (parse_options fuel [x00; xc8; x01; x00; xff] w) = Hang).
  { unfold parse_options, bind. rewrite say_relog.
    by rewrite parse_options_loop_padding. }
  split; [exact Hparse|].
  assert (exists buf,
            unpack_DHCPFormat (sample_header x01 zero_address zero_address)
            = Some buf /\ BOOTP_OP buf = BOOTREQUEST)
    as (buf & Hbuf & Hop) by (eexists; split; vm_compute; reflexivity).
  destruct (handle_unparsed fuel e addr _ _ w buf Hang Hbuf Hop Hparse)
    as [ls ->]; [done|].
  done.
Qed.

(** ** Requests that end before the reply *)

(** [handle] on a request with parsed options, up to the call of
    [handle_request]. *)
Lemma handle_to_request fuel e addr data w buf opts :
  unpack_DHCPFormat (upto DHCPFormatSize data) = Some buf ->
  BOOTP_OP buf = BOOTREQUEST ->
  snd (parse_options fuel (from DHCPFormatSize data) w) = Val (Some opts) ->
  exists ls,
    handle_body fuel e addr data w = handle_request e addr buf opts (relog ls w).
Proof.
  intros Hbuf Hop Hparse.
  assert (Hlen : List.length (upto DHCPFormatSize data) = DHCPFormatSize)
    by (apply unpack_DHCPFormat_length; by eexists).
  destruct (handle_body_split fuel e addr _ (from DHCPFormatSize data) w Hlen)
    as (buf0 & Hbuf0 & Hbody).
  unfold upto, from in Hbody. rewrite firstn_skipn in Hbody. rewrite Hbody.
  assert (buf0 = buf) as -> by congruence.
  rewrite Hop. cbn [Z.eqb BOOTREQUEST Pos.eqb negb].
  destruct (logs_only_parse_options fuel (drop DHCPFormatSize data)
              (relog [(INFO, "Sender")] w)) as (ls & Hls & _).
  pose proof (parse_options_result fuel (drop DHCPFormatSize data) w
                (relog [(INFO, "Sender")] w)) as Hr.
  unfold from in Hparse. rewrite Hparse in Hr.
  unfold bind at 1.
  destruct (parse_options fuel (drop DHCPFormatSize data)
              (relog [(INFO, "Sender")] w)) as [w1 r1].
  cbn [fst snd] in Hls, Hr. subst w1 r1. rewrite relog_relog. by eexists.
Qed.

(** X9: a datagram whose [op] field is not BOOTREQUEST: [handle] logs and
    returns; the options are not parsed. *)
Theorem non_request_ignored fuel e addr data w buf :
  unpack_DHCPFormat (upto DHCPFormatSize data) = Some buf ->
  BOOTP_OP buf <> BOOTREQUEST ->
  handle fuel e addr data w
  = (relog [(INFO, "Sender"); (WARN, "Not a BOOTREQUEST")] w, Val tt).
Proof.
  intros Hbuf Hop.
  assert (Hlen : List.length (upto DHCPFormatSize data) = DHCPFormatSize)
    by (apply unpack_DHCPFormat_length; by eexists).
  destruct (handle_body_split fuel e addr _ (from DHCPFormatSize data) w Hlen)
    as (buf0 & Hbuf0 & Hbody).
  unfold upto, from in Hbody. rewrite firstn_skipn in Hbody.
  assert (buf0 = buf) as -> by congruence.
  unfold handle. rewrite Hbody.
  apply Z.eqb_neq in Hop. by rewrite Hop.
Qed.

(** A BOOTREPLY with an option area the parser would never finish. *)
Lemma non_request_ignored_witness :
  handle 10 (sample_env None true) client_addr
    (sample_header x02 zero_address zero_address ++ [x00; xff]) empty_world
  = (relog [(INFO, "Sender"); (WARN, "Not a BOOTREQUEST")] empty_world, Val tt).
Proof.
  assert (exists buf,
            unpack_DHCPFormat
              (upto DHCPFormatSize
                 (sample_header x02 zero_address zero_address ++ [x00; xff]))
            = Some buf /\ BOOTP_OP buf <> BOOTREQUEST)
    as (buf & Hbuf & Hop)
    by (eexists; split; [vm_compute; reflexivity | vm_compute; discriminate]).
  exact (non_request_ignored 10 (sample_env None true) client_addr _ empty_world
           buf Hbuf Hop).
Defined.

(** X10: a request whose option 53 has no value: [options[53][0]] raises
    [IndexError], which leaves [handle]; nothing but the log has
    changed. *)
Theorem empty_message_type_raises fuel e addr data w buf opts :
  unpack_DHCPFormat (upto DHCPFormatSize data) = Some buf ->
  BOOTP_OP buf = BOOTREQUEST ->
  snd (parse_options fuel (from DHCPFormatSize data) w) = Val (Some opts) ->
  opts !! 53%N = Some [] ->
  exists ls, handle fuel e addr data w = (relog ls w, Exc IndexError).
Proof.
  intros Hbuf Hop Hparse H53.
  destruct (handle_to_request fuel e addr data w buf opts Hbuf Hop Hparse)
    as [ls Hbody].
  unfold handle. rewrite Hbody. unfold handle_request. rewrite H53, bind_raise.
  by exists ls.
Qed.

Lemma empty_message_type_raises_witness :
  exists ls,
    handle 10 (sample_env None true) client_addr
      (sample_header x01 zero_address zero_address ++ [x35; x00; xff]) empty_world
    = (relog ls empty_world, Exc IndexError).
Proof.
  assert (exists buf,
            unpack_DHCPFormat
              (upto DHCPFormatSize
                 (sample_header x01 zero_address zero_address ++ [x35; x00; xff]))
            = Some buf /\ BOOTP_OP buf = BOOTREQUEST)
    as (buf & Hbuf & Hop) by (eexists; split; vm_compute; reflexivity).
  assert (exists opts,
            snd (parse_options 10
                   (from DHCPFormatSize
                      (sample_header x01 zero_address zero_address
                       ++ [x35; x00; xff])) empty_world) = Val (Some opts) /\
            opts !! 53%N = Some [])
    as (opts & Hopts & H53) by (eexists; split; vm_compute; reflexivity).
  exact (empty_message_type_raises 10 (sample_env None true) client_addr _
           empty_world buf opts Hbuf Hop Hopts H53).
Defined.

(** ** Clients without a usable lease entry *)

(** The lease branch up to the call of [get_host_data_for_mac]. *)
Lemma handle_address_lease e addr l buf w :
  BOOTP_CIADDR buf = zero_address ->
  forall r w1,
    get_host_data_for_mac e (mac_str l)
      (relog [(INFO, "Client IP"); (DEBUG, "Client needs its address")] w)
    = (w1, r) ->
    match r with
    | Val (Some _) => True
    | Val None => handle_address e addr l buf w = (w1, Exc TypeError)
    | Exc x => handle_address e addr l buf w = (w1, Exc x)
    | Stop => handle_address e addr l buf w = (w1, Stop)
    | Hang => handle_address e addr l buf w = (w1, Hang)
    end.
Proof.
  intros Hci r w1 Hr.
  destruct r as [[hd|]| | |]; [done|..];
    unfold handle_address; rewrite bind_say;
    change (BOOTP_CIADDR (set_OP BOOTREPLY buf)) with (BOOTP_CIADDR buf);
    (destruct (decide (BOOTP_CIADDR buf = zero_address)) as [_|]; [|done]);
    rewrite bind_assoc; unfold handle_lease;
    rewrite bind_assoc, bind_say, relog_relog, bind_assoc;
    cbn [app]; unfold bind at 1; by rewrite Hr.
Qed.

(** X11: a request with a zero client address that passes the idle test, from
    a client that has no entry in [bootp_leases]: ['hostname' in None]
    raises [TypeError], which leaves [handle]; no reply is sent, the
    resolver is not called and no lease is recorded. *)
Theorem unknown_client_raises fuel e addr data w buf opts :
  unpack_DHCPFormat (upto DHCPFormatSize data) = Some buf ->
  BOOTP_OP buf = BOOTREQUEST ->
  snd (parse_options fuel (from DHCPFormatSize data) w) = Val (Some opts) ->
  opts !! 53%N <> Some [] ->
  gate_open e (request_locals buf opts w) ->
  BOOTP_CIADDR buf = zero_address ->
  get_lease_for_mac (config e) (request_mac_str buf) = None ->
  let x := handle fuel e addr data w in
  snd x = Exc TypeError /\ sent (fst x) = sent w /\
  resolved (fst x) = resolved w /\ ippool (fst x) = ippool w /\
  uuidpool (fst x) = uuidpool w /\ forall mac, phase (fst x) mac = phase w mac.
Proof.
  intros Hbuf Hop Hparse H53 Hgate Hci Hlease x.
  destruct (handle_gate_open fuel e addr data w buf opts Hbuf Hop Hparse H53 Hgate)
    as [ls Hbody].
  assert (Hg : forall W,
            get_host_data_for_mac e (request_mac_str buf) W
            = (relog [(DEBUG, "Host data requested for MAC")] W, Exc TypeError))
    by (intros W; unfold get_host_data_for_mac; by rewrite Hlease, bind_say).
  pose proof (handle_address_lease e addr (request_locals buf opts w) buf
                (relog ls (touch (request_mac_str buf) w)) Hci _ _ (Hg _)) as Hl.
  cbv beta iota in Hl.
  subst x. unfold handle. rewrite Hbody, Hl. cbn [fst snd].
  rewrite !relog_relog.
  pose proof (touch_pools (request_mac_str buf) w) as (Hu & Hi & Hs & Hr).
  cbn [relog sent resolved ippool uuidpool].
  repeat (split; [done|]).
  intros mac. apply (phase_touch (request_mac_str buf) w mac).
Qed.

(** A PXE DISCOVER of the sample client when [bootp_leases] is empty. *)
Lemma unknown_client_raises_witness :
  let e := Env "10.0.0.1" "255.255.255.0" (Config None None None None ∅)
               sample_resolver None (fun _ _ => true) in
  let x := handle 10 e client_addr
             (pxe_request zero_address zero_address x01 "PXEClient:Arch:00000")
             empty_world in
  snd x = Exc TypeError /\ sent (fst x) = sent empty_world /\
  resolved (fst x) = resolved empty_world /\
  ippool (fst x) = ippool empty_world /\
  uuidpool (fst x) = uuidpool empty_world /\
  forall mac, phase (fst x) mac = phase empty_world mac.
Proof.
  intros e.
  assert (exists buf,
            unpack_DHCPFormat
              (upto DHCPFormatSize
                 (pxe_request zero_address zero_address x01 "PXEClient:Arch:00000"))
            = Some buf /\ BOOTP_OP buf = BOOTREQUEST /\
            BOOTP_CIADDR buf = zero_address /\
            request_mac_str buf = sample_mac_str)
    as (buf & Hbuf & Hop & Hci & Hmac)
    by (eexists; vm_compute; repeat split; reflexivity).
  assert (exists opts,
            snd (parse_options 10
                   (from DHCPFormatSize
                      (pxe_request zero_address zero_address x01
                         "PXEClient:Arch:00000")) empty_world)
            = Val (Some opts) /\
            opts !! 53%N <> Some [] /\
            next_state (phase empty_world sample_mac_str) (request_pxe opts)
              (request_msg_type opts) <> ST_IDLE)
    as (opts & Hopts & H53 & Hnext)
    by (eexists; vm_compute; repeat split; (reflexivity || discriminate)).
  apply (unknown_client_raises 10 e client_addr _ empty_world buf opts
           Hbuf Hop Hopts H53).
  - intros Hidle. destruct Hnext.
    cbn [request_locals newstate] in Hidle. by rewrite Hmac in Hidle.
  - exact Hci.
  - rewrite Hmac. reflexivity.
Defined.

(** X12: a request with a zero client address that passes the idle test, from
    a client whose lease entry has no host name, or an empty one:
    [get_host_data_for_mac] returns [None] and [host_data['address']]
    raises [TypeError]; the resolver is not called. *)
Theorem lease_without_hostname_raises fuel e addr data w buf opts lease :
  unpack_DHCPFormat (upto DHCPFormatSize data) = Some buf ->
  BOOTP_OP buf = BOOTREQUEST ->
  snd (parse_options fuel (from DHCPFormatSize data) w) = Val (Some opts) ->
  opts !! 53%N <> Some [] ->
  gate_open e (request_locals buf opts w) ->
  BOOTP_CIADDR buf = zero_address ->
  get_lease_for_mac (config e) (request_mac_str buf) = Some lease ->
  truthy_text (default EmptyString (lease_hostname lease)) = false ->
  let x := handle fuel e addr data w in
  snd x = Exc TypeError /\ sent (fst x) = sent w /\
  resolved (fst x) = resolved w /\ ippool (fst x) = ippool w /\
  uuidpool (fst x) = uuidpool w /\ forall mac, phase (fst x) mac = phase w mac.
Proof.
  intros Hbuf Hop Hparse H53 Hgate Hci Hlease Hhost x.
  destruct (handle_gate_open fuel e addr data w buf opts Hbuf Hop Hparse H53 Hgate)
    as [ls Hbody].
  assert (Hg : forall W,
            get_host_data_for_mac e (request_mac_str buf) W
            = (relog [(DEBUG, "Host data requested for MAC");
                      (ERROR, "No hostname defined for mac")] W, Val None)).
  { intros W. unfold get_host_data_for_mac. rewrite Hlease, bind_say.
    destruct (lease_hostname lease) as [h|]; cbn [default from_option id] in Hhost;
      rewrite Hhost; cbn [negb]; by rewrite bind_say, relog_relog. }
  pose proof (handle_address_lease e addr (request_locals buf opts w) buf
                (relog ls (touch (request_mac_str buf) w)) Hci _ _ (Hg _)) as Hl.
  cbv beta iota in Hl.
  subst x. unfold handle. rewrite Hbody, Hl. cbn [fst snd].
  rewrite !relog_relog.
  pose proof (touch_pools (request_mac_str buf) w) as (Hu & Hi & Hs & Hr).
  cbn [relog sent resolved ippool uuidpool].
  repeat (split; [done|]).
  intros mac. apply (phase_touch (request_mac_str buf) w mac).
Qed.

Lemma lease_without_hostname_raises_witness :
  let e := Env "10.0.0.1" "255.255.255.0"
               (Config None None None None
                  {[ sample_mac_str := Lease None (Some "pxelinux.0") ]})
               sample_resolver None (fun _ _ => true) in
  let x := handle 10 e client_addr
             (pxe_request zero_address zero_address x01 "PXEClient:Arch:00000")
             empty_world in
  snd x = Exc TypeError /\ sent (fst x) = sent empty_world /\
  resolved (fst x) = resolved empty_world /\
  ippool (fst x) = ippool empty_world /\
  uuidpool (fst x) = uuidpool empty_world /\
  forall mac, phase (fst x) mac = phase empty_world mac.
Proof.
  intros e.
  assert (exists buf,
            unpack_DHCPFormat
              (upto DHCPFormatSize
                 (pxe_request zero_address zero_address x01 "PXEClient:Arch:00000"))
            = Some buf /\ BOOTP_OP buf = BOOTREQUEST /\
            BOOTP_CIADDR buf = zero_address /\
            request_mac_str buf = sample_mac_str)
    as (buf & Hbuf & Hop & Hci & Hmac)
    by (eexists; vm_compute; repeat split; reflexivity).
  assert (exists opts,
            snd (parse_options 10
                   (from DHCPFormatSize
                      (pxe_request zero_address zero_address x01
                         "PXEClient:Arch:00000")) empty_world)
            = Val (Some opts) /\
            opts !! 53%N <> Some [] /\
            next_state (phase empty_world sample_mac_str) (request_pxe opts)
              (request_msg_type opts) <> ST_IDLE)
    as (opts & Hopts & H53 & Hnext)
    by (eexists; vm_compute; repeat split; (reflexivity || discriminate)).
  apply (lease_without_hostname_raises 10 e client_addr _ empty_world buf opts
           (Lease None (Some "pxelinux.0")) Hbuf Hop Hopts H53).
  - intros Hidle. destruct Hnext.
    cbn [request_locals newstate] in Hidle. by rewrite Hmac in Hidle.
  - exact Hci.
  - rewrite Hmac. vm_compute. reflexivity.
  - reflexivity.
Defined.

(** X13: a request with a zero client address that passes the idle test, from
    a client whose host name does not resolve: the resolver is called
    once, [get_host_data_for_mac] returns [None] and
    [host_data['address']] raises [TypeError]; no reply is sent and no
    lease is recorded. *)
Theorem unresolved_host_raises fuel e addr data w buf opts lease hostname :
  unpack_DHCPFormat (upto DHCPFormatSize data) = Some buf ->
  BOOTP_OP buf = BOOTREQUEST ->
  snd (parse_options fuel (from DHCPFormatSize data) w) = Val (Some opts) ->
  opts !! 53%N <> Some [] ->
  gate_open e (request_locals buf opts w) ->
  BOOTP_CIADDR buf = zero_address ->
  get_lease_for_mac (config e) (request_mac_str buf) = Some lease ->
  lease_hostname lease = Some hostname -> truthy_text hostname = true ->
  gethostbyname e hostname = None ->
  let x := handle fuel e addr data w in
  snd x = Exc TypeError /\ sent (fst x) = sent w /\
  resolved (fst x) = resolved w ++ [hostname] /\ ippool (fst x) = ippool w /\
  uuidpool (fst x) = uuidpool w /\ forall mac, phase (fst x) mac = phase w mac.
Proof.
  intros Hbuf Hop Hparse H53 Hgate Hci Hlease Hname Hhost Hres x.
  destruct (handle_gate_open fuel e addr data w buf opts Hbuf Hop Hparse H53 Hgate)
    as [ls Hbody].
  assert (Hg : forall W,
            get_host_data_for_mac e (request_mac_str buf) W
            = (relog [(DEBUG, "Resolving failed")]
                 (add_resolved hostname
                    (relog [(DEBUG, "Host data requested for MAC");
                            (DEBUG, "Will try to resolve")] W)), Val None)).
  { intros W. unfold get_host_data_for_mac. rewrite Hlease, bind_say, Hname, Hhost.
    cbn [negb].
    by rewrite bind_say, bind_resolve, Hres, bind_say, !relog_relog. }
  pose proof (handle_address_lease e addr (request_locals buf opts w) buf
                (relog ls (touch (request_mac_str buf) w)) Hci _ _ (Hg _)) as Hl.
  cbv beta iota in Hl.
  subst x. unfold handle. rewrite Hbody, Hl. cbn [fst snd].
  pose proof (touch_pools (request_mac_str buf) w) as (Hu & Hi & Hs & Hr).
  cbn [relog add_resolved sent resolved ippool uuidpool].
  split; [done|]. split; [done|]. split; [by rewrite Hr|].
  split; [done|]. split; [done|].
  intros mac. apply (phase_touch (request_mac_str buf) w mac).
Qed.

Lemma unresolved_host_raises_witness :
  let e := Env "10.0.0.1" "255.255.255.0" (sample_config None)
               (fun _ => None) None (fun _ _ => true) in
  let x := handle 10 e client_addr
             (pxe_request zero_address zero_address x01 "PXEClient:Arch:00000")
             empty_world in
  snd x = Exc TypeError /\ sent (fst x) = sent empty_world /\
  resolved (fst x) = resolved empty_world ++ ["node1.example.org"] /\
  ippool (fst x) = ippool empty_world /\
  uuidpool (fst x) = uuidpool empty_world /\
  forall mac, phase (fst x) mac = phase empty_world mac.
Proof.
  intros e.
  assert (exists buf,
            unpack_DHCPFormat
              (upto DHCPFormatSize
                 (pxe_request zero_address zero_address x01 "PXEClient:Arch:00000"))
            = Some buf /\ BOOTP_OP buf = BOOTREQUEST /\
            BOOTP_CIADDR buf = zero_address /\
            request_mac_str buf = sample_mac_str)
    as (buf & Hbuf & Hop & Hci & Hmac)
    by (eexists; vm_compute; repeat split; reflexivity).
  assert (exists opts,
            snd (parse_options 10
                   (from DHCPFormatSize
                      (pxe_request zero_address zero_address x01
                         "PXEClient:Arch:00000")) empty_world)
            = Val (Some opts) /\
            opts !! 53%N <> Some [] /\
            next_state (phase empty_world sample_mac_str) (request_pxe opts)
              (request_msg_type opts) <> ST_IDLE)
    as (opts & Hopts & H53 & Hnext)
    by (eexists; vm_compute; repeat split; (reflexivity || discriminate)).
  apply (unresolved_host_raises 10 e client_addr _ empty_world buf opts
           (Lease (Some "node1.example.org") (Some "pxelinux.0"))
           "node1.example.org" Hbuf Hop Hopts H53).
  - intros Hidle. destruct Hnext.
    cbn [request_locals newstate] in Hidle. by rewrite Hmac in Hidle.
  - exact Hci.
  - rewrite Hmac. vm_compute. reflexivity.
  - reflexivity.
  - reflexivity.
  - reflexivity.
Defined.

(** X14: a request with a zero client address that passes the idle test, from
    a client whose lease entry has a host name that resolves and no
    [boot_file] key: [host_lease_data['boot_file']] raises [KeyError]
    after the resolver was called; no reply is sent and no lease is
    recorded. *)
Theorem lease_without_boot_file_raises fuel e addr data w buf opts hostname
    ipaddr :
  unpack_DHCPFormat (upto DHCPFormatSize data) = Some buf ->
  BOOTP_OP buf = BOOTREQUEST ->
  snd (parse_options fuel (from DHCPFormatSize data) w) = Val (Some opts) ->
  opts !! 53%N <> Some [] ->
  gate_open e (request_locals buf opts w) ->
  BOOTP_CIADDR buf = zero_address ->
  get_lease_for_mac (config e) (request_mac_str buf)
  = Some (Lease (Some hostname) None) ->
  truthy_text hostname = true ->
  gethostbyname e hostname = Some ipaddr ->
  let x := handle fuel e addr data w in
  snd x = Exc KeyError /\ sent (fst x) = sent w /\
  resolved (fst x) = resolved w ++ [hostname] /\ ippool (fst x) = ippool w /\
  uuidpool (fst x) = uuidpool w /\ forall mac, phase (fst x) mac = phase w mac.
Proof.
  intros Hbuf Hop Hparse H53 Hgate Hci Hlease Hhost Hres x.
  destruct (handle_gate_open fuel e addr data w buf opts Hbuf Hop Hparse H53 Hgate)
    as [ls Hbody].
  assert (Hg : forall W,
            get_host_data_for_mac e (request_mac_str buf) W
            = (relog [(DEBUG, "Got IP for host")]
                 (add_resolved hostname
                    (relog [(DEBUG, "Host data requested for MAC");
                            (DEBUG, "Will try to resolve")] W)), Exc KeyError)).
  { intros W. unfold get_host_data_for_mac. rewrite Hlease, bind_say.
    cbn [lease_hostname lease_boot_file]. rewrite Hhost. cbn [negb].
    by rewrite bind_say, bind_resolve, Hres, bind_say, !relog_relog. }
  pose proof (handle_address_lease e addr (request_locals buf opts w) buf
                (relog ls (touch (request_mac_str buf) w)) Hci _ _ (Hg _)) as Hl.
  cbv beta iota in Hl.
  subst x. unfold handle. rewrite Hbody, Hl. cbn [fst snd].
  pose proof (touch_pools (request_mac_str buf) w) as (Hu & Hi & Hs & Hr).
  cbn [relog add_resolved sent resolved ippool uuidpool].
  split; [done|]. split; [done|]. split; [by rewrite Hr|].
  split; [done|]. split; [done|].
  intros mac. apply (phase_touch (request_mac_str buf) w mac).
Qed.

Lemma lease_without_boot_file_raises_witness :
  let e := Env "10.0.0.1" "255.255.255.0"
               (Config None None None None
                  {[ sample_mac_str := Lease (Some "node1.example.org") None ]})
               sample_resolver None (fun _ _ => true) in
  let x := handle 10 e client_addr
             (pxe_request zero_address zero_address x01 "PXEClient:Arch:00000")
             empty_world in
  snd x = Exc KeyError /\ sent (fst x) = sent empty_world /\
  resolved (fst x) = resolved empty_world ++ ["node1.example.org"] /\
  ippool (fst x) = ippool empty_world /\
  uuidpool (fst x) = uuidpool empty_world /\
  forall mac, phase (fst x) mac = phase empty_world mac.
Proof.
  intros e.
  assert (exists buf,
            unpack_DHCPFormat
              (upto DHCPFormatSize
                 (pxe_request zero_address zero_address x01 "PXEClient:Arch:00000"))
            = Some buf /\ BOOTP_OP buf = BOOTREQUEST /\
            BOOTP_CIADDR buf = zero_address /\
            request_mac_str buf = sample_mac_str)
    as (buf & Hbuf & Hop & Hci & Hmac)
    by (eexists; vm_compute; repeat split; reflexivity).
  assert (exists opts,
            snd (parse_options 10
                   (from DHCPFormatSize
                      (pxe_request zero_address zero_address x01
                         "PXEClient:Arch:00000")) empty_world)
            = Val (Some opts) /\
            opts !! 53%N <> Some [] /\
            next_state (phase empty_world sample_mac_str) (request_pxe opts)
              (request_msg_type opts) <> ST_IDLE)
    as (opts & Hopts & H53 & Hnext)
    by (eexists; vm_compute; repeat split; (reflexivity || discriminate)).
  apply (lease_without_boot_file_raises 10 e client_addr _ empty_world buf opts
           "node1.example.org" "10.0.0.42" Hbuf Hop Hopts H53).
  - intros Hidle. destruct Hnext.
    cbn [request_locals newstate] in Hidle. by rewrite Hmac in Hidle.
  - exact Hci.
  - rewrite Hmac. vm_compute. reflexivity.
  - reflexivity.
  - reflexivity.
Defined.

(** ** Message types that are not answered *)

(** The chain on the message type, for a type that is neither DISCOVER nor
    REQUEST: RELEASE reads [self.notify], which the class does not have;
    every other type returns. *)
Lemma handle_reply_type_other e addr l buf w :
  dhcp_msg_type l <> Some DHCP_DISCOVER -> dhcp_msg_type l <> Some DHCP_REQUEST ->
  exists ls,
    handle_reply_type e addr l buf w
    = (relog ls w,
       if decide (dhcp_msg_type l = Some DHCP_RELEASE)
       then Exc AttributeError else Stop).
Proof.
  intros H1 H3. unfold handle_reply_type.
  destruct (dhcp_msg_type l) as [t|]; [|rewrite bind_say; by eexists].
  destruct t as [|p]; [rewrite bind_say; by eexists|].
  destruct (N.eqb_spec (N.pos p) DHCP_DISCOVER) as [E|_]; [by rewrite E in H1|].
  destruct (N.eqb_spec (N.pos p) DHCP_REQUEST) as [E|_]; [by rewrite E in H3|].
  destruct (N.eqb_spec (N.pos p) DHCP_RELEASE) as [E|E].
  { rewrite E, bind_assoc, bind_say, bind_raise.
    destruct (decide _); [by eexists | done]. }
  destruct (decide (Some (N.pos p) = Some DHCP_RELEASE)) as [E'|_];
    [congruence|].
  destruct (N.pos p =? DHCP_INFORM)%N;
    [rewrite bind_assoc, bind_say, bind_stop; by eexists|].
  destruct (N.pos p =? DHCP_DECLINE)%N;
    [rewrite bind_assoc, bind_say, bind_stop; by eexists|].
  rewrite bind_assoc, bind_say, bind_stop. by eexists.
Qed.

(** X15: a request of a client without address, in a working setup, whose
    message type is missing or is neither DISCOVER nor REQUEST: no reply
    is sent; a RELEASE ends in [AttributeError], every other type in a
    return.  The resolver has been called and the client has its lease all
    the same: a RELEASE releases nothing. *)
Theorem other_message_types_unanswered fuel e addr data w buf opts hostname
    boot_file ipaddr yiaddr siaddr o6 :
  unpack_DHCPFormat (upto DHCPFormatSize data) = Some buf ->
  BOOTP_OP buf = BOOTREQUEST ->
  snd (parse_options fuel (from DHCPFormatSize data) w) = Val (Some opts) ->
  opts !! 53%N <> Some [] ->
  gate_open e (request_locals buf opts w) ->
  BOOTP_CIADDR buf = zero_address ->
  request_msg_type opts <> Some DHCP_DISCOVER ->
  request_msg_type opts <> Some DHCP_REQUEST ->
  plain_setup e w (request_mac_str buf) hostname boot_file ipaddr yiaddr
    siaddr o6 ->
  let x := handle fuel e addr data w in
  snd x = (if decide (request_msg_type opts = Some DHCP_RELEASE)
           then Exc AttributeError else Val tt) /\
  sent (fst x) = sent w /\
  resolved (fst x) = resolved w ++ [hostname] /\
  ippool (fst x) !! request_mac_str buf
  = Some (default ipaddr (ippool w !! request_mac_str buf)) /\
  uuidpool (fst x) = uuidpool w /\
  forall mac, phase (fst x) mac = phase w mac.
Proof.
  intros Hbuf Hop Hparse H53 Hgate Hci H1 H3 Hsetup x.
  destruct (handle_gate_open fuel e addr data w buf opts Hbuf Hop Hparse H53 Hgate)
    as [ls Hbody].
  pose proof (touch_pools (request_mac_str buf) w) as (Hu & Hi & Hs & Hr).
  set (W := relog ls (touch (request_mac_str buf) w)) in *.
  assert (Hsetup' : plain_setup e W (request_mac_str buf) hostname boot_file
                      ipaddr yiaddr siaddr o6).
  { destruct Hsetup. split; try done;
      change (ippool W) with (ippool (touch (request_mac_str buf) w));
      by rewrite Hi. }
  destruct (handle_address_reaches e addr (request_locals buf opts w) _ buf W
              hostname boot_file ipaddr yiaddr siaddr o6 Hbuf Hci
              eq_refl eq_refl (request_mac_str_truthy _ buf Hbuf) Hsetup')
    as (ls1 & addr' & Haddr).
  match type of Haddr with
  | _ = handle_reply_type _ _ ?l ?b ?w0 =>
    destruct (handle_reply_type_other e addr' l b w0 H1 H3) as [ls2 Hrt]
  end.
  subst x. unfold handle. rewrite Hbody, Haddr, Hrt.
  cbn [request_locals dhcp_msg_type mac_str].
  rewrite relog_relog.
  set (G := grant (request_mac_str buf) ipaddr (add_resolved hostname W)).
  assert (Hfst : forall r : res unit,
            fst (let (w', r0) := (relog (ls1 ++ ls2) G, r) in
                 match r0 with
                 | Val a => (w', Val a)
                 | Exc e0 => (w', Exc e0)
                 | Stop => (w', Val tt)
                 | Hang => (w', Hang)
                 end) = relog (ls1 ++ ls2) G) by (by intros []).
  rewrite Hfst.
  assert (Hsnd : snd (let (w', r0) :=
                        (relog (ls1 ++ ls2) G,
                         if decide (request_msg_type opts = Some DHCP_RELEASE)
                         then @Exc unit AttributeError else Stop) in
                      match r0 with
                      | Val a => (w', Val a)
                      | Exc e0 => (w', Exc e0)
                      | Stop => (w', Val tt)
                      | Hang => (w', Hang)
                      end)
                 = if decide (request_msg_type opts = Some DHCP_RELEASE)
                   then Exc AttributeError else Val tt)
    by (by destruct (decide _)).
  rewrite Hsnd. clear Hfst Hsnd.
  pose proof (grant_pools (request_mac_str buf) ipaddr (add_resolved hostname W))
    as (Hgu & Hgs & Hgsent).
  fold G in Hgu, Hgs, Hgsent.
  split; [done|].
  split; [cbn [relog sent]; rewrite Hgsent; cbn [add_resolved sent]; exact Hs|].
  split.
  { cbn [relog resolved]. unfold G. rewrite grant_resolved.
    cbn [add_resolved resolved]. unfold W. cbn [relog resolved]. by rewrite Hr. }
  split.
  { cbn [relog ippool]. unfold G. rewrite grant_lookup.
    cbn [add_resolved ippool]. unfold W. cbn [relog ippool]. by rewrite Hi. }
  split.
  { cbn [relog uuidpool]. rewrite Hgu. cbn [add_resolved uuidpool]. exact Hu. }
  intros mac. unfold phase. cbn [relog states]. rewrite Hgs.
  cbn [add_resolved states]. unfold W. cbn [relog states].
  apply (phase_touch (request_mac_str buf) w mac).
Qed.

(** A RELEASE of the sample client, with the "allow simple DHCP" key
    true: [AttributeError] leaves the handler and the client has been
    given the lease 10.0.0.42. *)
Lemma other_message_types_unanswered_witness :
  let e := sample_env (Some true) true in
  let x := handle 10 e client_addr (plain_request x07) empty_world in
  snd x = Exc AttributeError /\ sent (fst x) = sent empty_world /\
  resolved (fst x) = resolved empty_world ++ ["node1.example.org"] /\
  ippool (fst x) !! sample_mac_str = Some "10.0.0.42".
Proof.
  intros e.
  assert (exists buf,
            unpack_DHCPFormat (upto DHCPFormatSize (plain_request x07)) = Some buf /\
            BOOTP_OP buf = BOOTREQUEST /\ BOOTP_CIADDR buf = zero_address /\
            request_mac_str buf = sample_mac_str)
    as (buf & Hbuf & Hop & Hci & Hmac)
    by (eexists; vm_compute; repeat split; reflexivity).
  assert (exists opts,
            snd (parse_options 10 (from DHCPFormatSize (plain_request x07))
                   empty_world) = Val (Some opts) /\
            opts !! 53%N <> Some [] /\
            request_msg_type opts = Some DHCP_RELEASE)
    as (opts & Hopts & H53 & Hmsg)
    by (eexists; vm_compute; repeat split; (reflexivity || discriminate)).
  pose proof (other_message_types_unanswered 10 e client_addr (plain_request x07)
                empty_world buf opts "node1.example.org" "pxelinux.0" "10.0.0.42"
                [x0a; x00; x00; x2a] [x0a; x00; x00; x01]
                ([x06; x04] ++ [x0a; x00; x00; x01]) Hbuf Hop Hopts H53) as H.
  cbv zeta in H. rewrite Hmac, Hmsg in H.
  destruct H as (H1 & H2 & H3 & H4 & _).
  - intros _. reflexivity.
  - exact Hci.
  - discriminate.
  - discriminate.
  - apply Build_plain_setup.
    + vm_compute. reflexivity.
    + reflexivity.
    + reflexivity.
    + reflexivity.
    + reflexivity.
    + vm_compute. reflexivity.
    + eexists. vm_compute. reflexivity.
    + vm_compute. reflexivity.
    + vm_compute. reflexivity.
    + vm_compute. split; [discriminate | reflexivity].
    + reflexivity.
  - split; [exact H1|]. split; [exact H2|]. split; [exact H3 | exact H4].
Defined.

(** ** Replies read by the parser of the requests *)

(** X21: the option area of every datagram that [handle] sends, read by
    [parse_options]: the parser returns the standard options (message
    type OFFER or ACK, server, mask, gateway, lease time, and DNS if
    configured).  The PXE options are written after the end marker, so
    the parser reads none of them: options 97, 60 and 43 are not in the
    dictionary, in PXE mode too. *)
Theorem reply_options_read_back fuel e addr data w w' :
  let x := handle fuel e addr data w in
  sent (fst x) <> sent w -> 6 < fuel ->
  exists pkt dest t m,
    sent (fst x) = sent w ++ [(pkt, dest)] /\
    (t = DHCP_OFFER \/ t = DHCP_ACK) /\
    snd (parse_options fuel (from DHCPFormatSize pkt) w') = Val (Some m) /\
    m !! DHCP_MSG = Some [chr t] /\
    m !! DHCP_SERVER = Some hard_server /\
    m !! DHCP_IP_MASK = Some hard_mask /\
    m !! DHCP_IP_GATEWAY = Some hard_server /\
    m !! DHCP_LEASE_TIME
    = Some (be_bytes 4 (get_bootp_default_lease_time (config e))) /\
    m !! 97%N = None /\ m !! 60%N = None /\ m !! 43%N = None.
Proof.
  cbv zeta. intros Hsent Hfuel.
  destruct (handle_sent fuel e addr data w Hsent)
    as (buf & opts & Hbuf & Hop & Hparse & Ha).
  destruct (answered_sent e _ buf w _ Ha Hsent)
    as (t & hostname & boot_file & ipaddr & yiaddr & siaddr & fixed & o6 & extra
        & dest & _ & _ & _ & _ & _ & Htt & Hfixed & Ho6 & _ & _ & Hs).
  apply pack_unpack in Hfixed as [Hlen _].
  destruct (reply_options_encoded (offer_or_ack t) o6
              (get_bootp_default_lease_time (config e)) Ho6) as [Henc Hstored].
  eexists _, dest, (offer_or_ack t), _.
  split; [exact Hs|].
  split; [destruct Htt as [-> | ->]; [by left | by right]|].
  assert (Hlist : List.length
                    (reply_option_list (offer_or_ack t) o6
                       (get_bootp_default_lease_time (config e))) < fuel).
  { unfold reply_option_list. destruct o6; cbn [app List.length]; lia. }
  unfold from. rewrite <- !app_assoc, <- Hlen, drop_app_length, Henc, <- app_assoc.
  cbn [app].
  rewrite (parse_options_stream fuel _ (xff :: x00 :: extra) at_end_marker)
    by (done || constructor).
  cbn [snd ending_result]. split; [reflexivity|].
  rewrite !store_options_lookup.
  unfold reply_option_list, last_value.
  destruct Ho6 as [-> | (dns & _ & ->)]; cbn [app]; repeat split; reflexivity.
Qed.

(** The reply to the PXE DISCOVER of the sample client. *)
Lemma reply_options_read_back_witness :
  let x := handle 10 (sample_env None true) client_addr
             (pxe_request zero_address zero_address x01 "PXEClient:Arch:00000")
             empty_world in
  exists pkt dest t m,
    sent (fst x) = sent empty_world ++ [(pkt, dest)] /\
    (t = DHCP_OFFER \/ t = DHCP_ACK) /\
    snd (parse_options 10 (from DHCPFormatSize pkt) empty_world) = Val (Some m) /\
    m !! DHCP_MSG = Some [chr t] /\
    m !! DHCP_SERVER = Some hard_server /\
    m !! DHCP_IP_MASK = Some hard_mask /\
    m !! DHCP_IP_GATEWAY = Some hard_server /\
    m !! DHCP_LEASE_TIME
    = Some (be_bytes 4 (get_bootp_default_lease_time
                          (config (sample_env None true)))) /\
    m !! 97%N = None /\ m !! 60%N = None /\ m !! 43%N = None.
Proof.
  apply (reply_options_read_back 10 (sample_env None true) client_addr
           (pxe_request zero_address zero_address x01 "PXEClient:Arch:00000")
           empty_world empty_world).
  - vm_compute. discriminate.
  - lia.
Defined.

(** X22: what [build_pxe_options] returns for a request that has options 97
    and 60 is read back by [parse_options] as three options: the UUID
    option as received, the class id up to its first colon (or without
    its last byte when it has no colon), and the vendor option with the
    four PXE sub-options. *)
Theorem pxe_options_read_back fuel opts uuid class_id w w' :
  opts !! 97%N = Some uuid -> opts !! 60%N = Some class_id ->
  List.length uuid < 256 -> List.length class_id < 256 -> 3 < fuel ->
  exists extra m,
    build_pxe_options opts hard_server w = (w, Val (Some extra)) /\
    snd (parse_options fuel extra w') = Val (Some m) /\
    m !! 97%N = Some uuid /\
    m !! 60%N = Some (upto_index (find colon class_id) class_id) /\
    m !! 43%N = Some (encode_options (vendor_options hard_server)) /\
    forall t, t <> 97%N -> t <> 60%N -> t <> 43%N -> m !! t = None.
Proof.
  intros H97 H60 Hu Hc Hfuel.
  eexists _, _.
  split; [by apply build_pxe_options_stream|].
  unfold pxe_stream.
  assert (Hos : Forall stored_option
                  [ (97%N, uuid);
                    (60%N, upto_index (find colon class_id) class_id);
                    (43%N, encode_options (vendor_options hard_server)) ]).
  { pose proof (upto_index_length (find colon class_id) class_id).
    repeat (apply List.Forall_cons;
            [unfold stored_option; cbn [fst snd];
             split; [by eexists|]; split; [done|]; split; [done|];
             first [lia | vm_compute; lia]|]).
    apply List.Forall_nil. }
  rewrite (parse_options_stream fuel _ [xff; x00; x00] at_end_marker)
    by (done || constructor || (cbn [List.length]; lia)).
  cbn [snd ending_result]. split; [reflexivity|].
  rewrite !store_options_lookup. unfold last_value. cbn [rev app List.find fst snd].
  split; [reflexivity|]. split; [reflexivity|]. split; [reflexivity|].
  intros t H1 H2 H3. rewrite store_options_lookup.
  unfold last_value. cbn [rev app List.find fst].
  destruct (N.eqb_spec 43 t); [congruence|].
  destruct (N.eqb_spec 60 t); [congruence|].
  destruct (N.eqb_spec 97 t); [congruence|]. reflexivity.
Qed.

Lemma pxe_options_read_back_witness :
  exists extra m,
    build_pxe_options (store_options (pxe_options x01 "PXEClient:Arch:00000") ∅)
      hard_server empty_world = (empty_world, Val (Some extra)) /\
    snd (parse_options 10 extra empty_world) = Val (Some m) /\
    m !! 97%N = Some (x00 :: sample_uuid) /\
    m !! 60%N = Some (list_byte_of_string "PXEClient") /\
    m !! 43%N = Some (encode_options (vendor_options hard_server)).
Proof.
  destruct (pxe_options_read_back 10
              (store_options (pxe_options x01 "PXEClient:Arch:00000") ∅)
              (x00 :: sample_uuid) (list_byte_of_string "PXEClient:Arch:00000")
              empty_world empty_world)
    as (extra & m & H1 & H2 & H3 & H4 & H5 & _).
  - vm_compute. reflexivity.
  - vm_compute. reflexivity.
  - vm_compute. lia.
  - vm_compute. lia.
  - lia.
  - exists extra, m. split; [exact H1|]. split; [exact H2|].
    split; [exact H3|]. split; [exact H4 | exact H5].
Defined.

(** ** The struct format of the fixed record *)

(** X23: [struct.unpack] then [struct.pack] with [DHCPFormat] gives the bytes
    back, and [struct.pack] then [struct.unpack] gives the record with
    every string field cut or zero padded to its width; what is packed
    has the size of the format. *)
Theorem DHCPFormat_round_trip s b :
  (unpack_DHCPFormat s = Some b ->
   pack_DHCPFormat b = Some s /\ List.length s = DHCPFormatSize /\ on_wire b = b) /\
  (pack_DHCPFormat b = Some s ->
   List.length s = DHCPFormatSize /\ unpack_DHCPFormat s = Some (on_wire b)).
Proof.
  split.
  - intros H. split; [by apply unpack_pack|].
    split; [apply unpack_DHCPFormat_length; by eexists | by eapply on_wire_unpacked].
  - apply pack_unpack.
Qed.

Lemma DHCPFormat_round_trip_witness :
  exists b,
    unpack_DHCPFormat (sample_header x01 zero_address zero_address) = Some b /\
    pack_DHCPFormat b = Some (sample_header x01 zero_address zero_address) /\
    pack_DHCPFormat (set_SNAME (list_byte_of_string "node1") b)
    = Some (upto 44 (sample_header x01 zero_address zero_address)
            ++ pack_s 64 (list_byte_of_string "node1")
            ++ from 108 (sample_header x01 zero_address zero_address)) /\
    unpack_DHCPFormat
      (upto 44 (sample_header x01 zero_address zero_address)
       ++ pack_s 64 (list_byte_of_string "node1")
       ++ from 108 (sample_header x01 zero_address zero_address))
    = Some (on_wire (set_SNAME (list_byte_of_string "node1") b)).
Proof.
  assert (exists b,
            unpack_DHCPFormat (sample_header x01 zero_address zero_address) = Some b)
    as [b Hb] by (eexists; vm_compute; reflexivity).
  exists b. split; [exact Hb|].
  split; [exact (proj1 (proj1 (DHCPFormat_round_trip _ b) Hb))|].
  assert (Hp : pack_DHCPFormat (set_SNAME (list_byte_of_string "node1") b)
               = Some (upto 44 (sample_header x01 zero_address zero_address)
                       ++ pack_s 64 (list_byte_of_string "node1")
                       ++ from 108 (sample_header x01 zero_address zero_address))).
  { vm_compute in Hb. injection Hb as <-. vm_compute. reflexivity. }
  split; [exact Hp|].
  exact (proj2 (proj2 (DHCPFormat_round_trip _ _) Hp)).
Defined.

(** ** Witnesses of the properties of the handler *)

(** A PXE DISCOVER of the sample client with the client address
    10.0.0.9. *)
Lemma handle_nonzero_ciaddr_sends_nothing_witness :
  prepared empty_world
    (fst (handle 10 (sample_env None true) client_addr
            (pxe_request [x0a; x00; x00; x09] zero_address x01
               "PXEClient:Arch:00000") empty_world)).
Proof.
  assert (exists buf,
            unpack_DHCPFormat
              (upto DHCPFormatSize
                 (pxe_request [x0a; x00; x00; x09] zero_address x01
                    "PXEClient:Arch:00000")) = Some buf /\
            BOOTP_CIADDR buf <> zero_address)
    as (buf & Hbuf & Hci)
    by (eexists; split; [vm_compute; reflexivity | vm_compute; discriminate]).
  exact (handle_nonzero_ciaddr_sends_nothing 10 (sample_env None true) client_addr
           _ empty_world buf Hbuf Hci).
Defined.

(** The PXE DISCOVER of the sample client, which is answered. *)
Lemma pxe_reply_needs_class_and_uuid_witness :
  exists opts,
    snd (parse_options 10
           (from DHCPFormatSize
              (pxe_request zero_address zero_address x01 "PXEClient:Arch:00000"))
           empty_world) = Val (Some opts) /\
    is_Some (opts !! 97%N) /\ is_Some (opts !! 60%N).
Proof.
  assert (exists opts,
            snd (parse_options 10
                   (from DHCPFormatSize
                      (pxe_request zero_address zero_address x01
                         "PXEClient:Arch:00000")) empty_world)
            = Val (Some opts) /\ request_pxe opts = true)
    as (opts & Hopts & Hpxe) by (eexists; split; vm_compute; reflexivity).
  exists opts. split; [exact Hopts|].
  apply (pxe_reply_needs_class_and_uuid 10 (sample_env None true) client_addr
           (pxe_request zero_address zero_address x01 "PXEClient:Arch:00000")
           empty_world opts Hopts Hpxe).
  vm_compute. discriminate.
Defined.

(** ** The class id echoed in a PXE reply *)

(** X24: [clientclass[:clientclass.find(':')]]: for a class id with a colon,
    what precedes the first colon; for a class id without colon, the
    class id without its last byte. *)
Theorem class_id_slice v :
  (forall a b, v = a ++ colon :: b -> ~ In colon a ->
               upto_index (find colon v) v = a) /\
  (~ In colon v -> upto_index (find colon v) v = upto (List.length v - 1) v).
Proof.
  split.
  - intros a b -> Ha. by apply class_id_with_colon.
  - apply class_id_without_colon.
Qed.

Lemma class_id_slice_witness :
  upto_index (find colon (list_byte_of_string "PXEClient:Arch:00000"))
    (list_byte_of_string "PXEClient:Arch:00000")
  = list_byte_of_string "PXEClient" /\
  upto_index (find colon (list_byte_of_string "PXEClient"))
    (list_byte_of_string "PXEClient")
  = upto (List.length (list_byte_of_string "PXEClient") - 1)
      (list_byte_of_string "PXEClient").
Proof.
  split.
  - apply (proj1 (class_id_slice (list_byte_of_string "PXEClient:Arch:00000"))
             (list_byte_of_string "PXEClient")
             (list_byte_of_string "Arch:00000")).
    + reflexivity.
    + vm_compute. intros H. repeat (destruct H as [H|H]; [discriminate H|]).
      exact H.
  - apply (proj2 (class_id_slice (list_byte_of_string "PXEClient"))).
    vm_compute. intros H. repeat (destruct H as [H|H]; [discriminate H|]).
    exact H.
Defined.
